(** * The passage knowledge engine of the Stoic knowledge base

    A shallow embedding of the Python sources

      - [scripts/chunk_passages.py]  (paragraph-merging segmentation),
      - [scripts/tag_rules.py]       (rule-based tagging),
      - [scripts/tag_openai.py]      (provider-based tagging, [apply_tags]),
      - [api/stoic_api.py]           (contextual retrieval and profile matching),

    together with the properties the specification states about them.

    Conventions.  A Python [str] is a [string]; its characters are ASCII
    code points.  A Python [int] is a [Z].  A generator is the list of
    the values it yields, in order.  A Python [dict] is an association
    list in insertion order (Python iterates a dict in that order, and
    [max] over a dict depends on it).  A function that can raise returns
    an [outcome]. *)

From Stdlib Require Import String Ascii List ZArith QArith Qminmax Lia Bool Permutation.
From Stdlib Require Import Numbers.DecimalString.
Import ListNotations.

Open Scope string_scope.
Open Scope Z_scope.

(* ===================================================================== *)
(** ** Python string primitives *)
(* ===================================================================== *)

Module PyStr.

(** The line feed character. *)
Definition LF : ascii := "010"%char.

(** [str.isspace] on ASCII: TAB, LF, VT, FF, CR, the four separators
    FS, GS, RS, US, and the space. *)
Definition is_space (c : ascii) : bool :=
  let n := nat_of_ascii c in
  ((9 <=? n)%nat && (n <=? 13)%nat) || ((28 <=? n)%nat && (n <=? 32)%nat).

Definition is_upper (c : ascii) : bool :=
  let n := nat_of_ascii c in (65 <=? n)%nat && (n <=? 90)%nat.

Definition is_lower (c : ascii) : bool :=
  let n := nat_of_ascii c in (97 <=? n)%nat && (n <=? 122)%nat.

Definition is_digit (c : ascii) : bool :=
  let n := nat_of_ascii c in (48 <=? n)%nat && (n <=? 57)%nat.

(** The class [\w] of the [re] module on ASCII text. *)
Definition is_word (c : ascii) : bool :=
  is_upper c || is_lower c || is_digit c || Ascii.eqb c "_"%char.

Definition lower_char (c : ascii) : ascii :=
  if is_upper c then ascii_of_nat (nat_of_ascii c + 32) else c.

Definition upper_char (c : ascii) : ascii :=
  if is_lower c then ascii_of_nat (nat_of_ascii c - 32) else c.

(** [s.lower()] *)
Fixpoint lower (s : string) : string :=
  match s with
  | EmptyString => EmptyString
  | String c s' => String (lower_char c) (lower s')
  end.

(** [bool(s)]: a string is truthy when it is not empty. *)
Definition truthy (s : string) : bool :=
  match s with EmptyString => false | String _ _ => true end.

(** [s.startswith(p)]; returns what follows the prefix. *)
Fixpoint strip_prefix (p s : string) : option string :=
  match p with
  | EmptyString => Some s
  | String a p' =>
      match s with
      | EmptyString => None
      | String b s' => if Ascii.eqb a b then strip_prefix p' s' else None
      end
  end.

Definition startswith (p s : string) : bool :=
  match strip_prefix p s with Some _ => true | None => false end.

(** [needle in hay] *)
Fixpoint contains (needle hay : string) : bool :=
  startswith needle hay ||
  match hay with
  | EmptyString => false
  | String _ hay' => contains needle hay'
  end.

(** [s.lstrip()], [s.rstrip()], [s.strip()] *)
Fixpoint lstrip (s : string) : string :=
  match s with
  | EmptyString => EmptyString
  | String c s' => if is_space c then lstrip s' else s
  end.

Fixpoint rstrip (s : string) : string :=
  match s with
  | EmptyString => EmptyString
  | String c s' =>
      match rstrip s' with
      | EmptyString => if is_space c then EmptyString else String c EmptyString
      | r => String c r
      end
  end.

Definition strip (s : string) : string := rstrip (lstrip s).

(** [s.split()] without argument: the maximal runs of characters that
    are not white space.  [cur] is the word being read. *)
Fixpoint words_from (cur : string) (s : string) : list string :=
  match s with
  | EmptyString => if truthy cur then [cur] else []
  | String c s' =>
      if is_space c
      then (if truthy cur then cur :: words_from EmptyString s'
            else words_from EmptyString s')
      else words_from (cur ++ String c EmptyString) s'
  end.

Definition split_ws (s : string) : list string := words_from EmptyString s.

(** [len(s.split())] *)
Definition word_count (s : string) : Z := Z.of_nat (List.length (split_ws s)).

(** [s.split("\n\n")]: cut at every occurrence of two line feeds, read
    from the left; [cur] is the piece being read. *)
Fixpoint split_nn_from (cur : string) (s : string) : list string :=
  match s with
  | EmptyString => [cur]
  | String c1 s1 =>
      match s1 with
      | String c2 s2 =>
          if Ascii.eqb c1 LF && Ascii.eqb c2 LF
          then cur :: split_nn_from EmptyString s2
          else split_nn_from (cur ++ String c1 EmptyString) s1
      | EmptyString => [cur ++ String c1 EmptyString]
      end
  end.

Definition split_nn (s : string) : list string := split_nn_from EmptyString s.

(** [sep.join(l)] *)
Fixpoint join (sep : string) (l : list string) : string :=
  match l with
  | [] => EmptyString
  | [x] => x
  | x :: rest => x ++ sep ++ join sep rest
  end.

(** [s.replace(a, b)] for single characters. *)
Fixpoint replace_char (a b : ascii) (s : string) : string :=
  match s with
  | EmptyString => EmptyString
  | String c s' => String (if Ascii.eqb c a then b else c) (replace_char a b s')
  end.

(** [s.title()]: a cased character is upper-cased when the character
    before it is not cased, lower-cased otherwise. *)
Fixpoint title_from (prev_cased : bool) (s : string) : string :=
  match s with
  | EmptyString => EmptyString
  | String c s' =>
      let cased := is_upper c || is_lower c in
      String (if prev_cased then lower_char c else upper_char c)
             (title_from cased s')
  end.

Definition title (s : string) : string := title_from false s.

(** [re.search(r"\b" + lit + r"\b", s)] for a literal [lit]: [\b]
    holds between two characters of which exactly one is a word
    character, the outside of the string counting as a non-word
    character. *)
Definition head_is_word (s : string) : bool :=
  match s with EmptyString => false | String c _ => is_word c end.

Fixpoint last_is_word (s : string) : bool :=
  match s with
  | EmptyString => false
  | String c EmptyString => is_word c
  | String _ s' => last_is_word s'
  end.

Definition match_bounded_here (prev_word : bool) (lit s : string) : bool :=
  match strip_prefix lit s with
  | None => false
  | Some rest =>
      match lit with
      | EmptyString => xorb prev_word (head_is_word s)
      | _ => xorb prev_word (head_is_word s)
             && xorb (last_is_word lit) (head_is_word rest)
      end
  end.

Fixpoint search_bounded_from (prev_word : bool) (lit s : string) : bool :=
  match_bounded_here prev_word lit s ||
  match s with
  | EmptyString => false
  | String c s' => search_bounded_from (is_word c) lit s'
  end.

Definition search_bounded (lit s : string) : bool :=
  search_bounded_from false lit s.

(** [str(n)] for an integer. *)
Definition str_of_Z (n : Z) : string := NilZero.string_of_int (Z.to_int n).

End PyStr.
Import PyStr.

(* ===================================================================== *)
(** ** [chunk_passages.py]: paragraph-merging segmentation *)
(* ===================================================================== *)

(** [bool(l)] for a list. *)
Definition nonempty {A : Type} (l : list A) : bool :=
  match l with [] => false | _ :: _ => true end.

(** The [for] loop of [chunk_by_paragraph] with its two local variables,
    followed by the trailing [if current_chunk: yield]. *)
Fixpoint chunk_loop (min_words max_words : Z) (paragraphs : list string)
         (current_chunk : list string) (current_word_count : Z) : list string :=
  match paragraphs with
  | [] =>
      if nonempty current_chunk then [join " " current_chunk] else []
  | para :: rest =>
      let para := strip para in
      if negb (truthy para) then
        chunk_loop min_words max_words rest current_chunk current_word_count
      else
        let para_words := word_count para in
        (* if current_word_count + para_words > max_words and current_chunk:
             yield, then reset the two variables *)
        let '(flushed, current_chunk, current_word_count) :=
          if (max_words <? current_word_count + para_words) && nonempty current_chunk
          then ([join " " current_chunk], [], 0)
          else ([], current_chunk, current_word_count) in
        let current_chunk := (current_chunk ++ [para])%list in
        let current_word_count := current_word_count + para_words in
        (* if current_word_count >= min_words: yield, then reset *)
        if min_words <=? current_word_count
        then (flushed ++ join " " current_chunk
                :: chunk_loop min_words max_words rest [] 0)%list
        else (flushed ++ chunk_loop min_words max_words rest
                current_chunk current_word_count)%list
  end.

Definition chunk_by_paragraph (text : string) (min_words max_words : Z) : list string :=
  chunk_loop min_words max_words (split_nn text) [] 0.

(** The paragraphs the loop does not skip. *)
Definition paragraphs_of (text : string) : list string :=
  filter truthy (map strip (split_nn text)).

(* ===================================================================== *)
(** ** Python values, dictionaries and exceptions *)
(* ===================================================================== *)

(** A value decoded from JSON ([json.loads], a row of the data base). *)
#[local] Unset Elimination Schemes.
Inductive json : Type :=
| JNull
| JBool (b : bool)
| JInt (n : Z)
| JStr (s : string)
| JList (l : list json)
| JDict (d : list (string * json)).
#[local] Set Elimination Schemes.

(** A [dict] with string keys, in insertion order. *)
Definition dict (V : Type) : Type := list (string * V).

(** [d.get(k)] *)
Fixpoint dict_get {V : Type} (k : string) (d : dict V) : option V :=
  match d with
  | [] => None
  | (k', v) :: rest => if String.eqb k k' then Some v else dict_get k rest
  end.

(** [d.get(k, default)] *)
Definition dict_get_default {V : Type} (k : string) (default : V) (d : dict V) : V :=
  match dict_get k d with Some v => v | None => default end.

(** [d[k] = v]: an existing key keeps its place and takes the new value,
    a new key goes last. *)
Fixpoint dict_set {V : Type} (k : string) (v : V) (d : dict V) : dict V :=
  match d with
  | [] => [(k, v)]
  | (k', v') :: rest =>
      if String.eqb k k' then (k, v) :: rest else (k', v') :: dict_set k v rest
  end.

Definition dict_keys {V : Type} (d : dict V) : list string := map fst d.
Definition dict_values {V : Type} (d : dict V) : list V := map snd d.

(** [x in l] for a list of strings. *)
Definition str_in (x : string) (l : list string) : bool :=
  existsb (String.eqb x) l.

Module PyRepr.

Definition hex_digit (n : nat) : ascii :=
  if (n <? 10)%nat then ascii_of_nat (48 + n) else ascii_of_nat (87 + n).

Definition is_printable (c : ascii) : bool :=
  let n := nat_of_ascii c in (32 <=? n)%nat && negb (n =? 127)%nat.

Definition APOS : ascii := "'"%char.
Definition QUOT : ascii := "034"%char.
Definition BSL : ascii := "\"%char.

Definition escape_char (quote c : ascii) : string :=
  if Ascii.eqb c BSL then String BSL (String BSL EmptyString)
  else if Ascii.eqb c quote then String BSL (String quote EmptyString)
  else if Ascii.eqb c LF then String BSL "n"
  else if Ascii.eqb c "013"%char then String BSL "r"
  else if Ascii.eqb c "009"%char then String BSL "t"
  else if is_printable c then String c EmptyString
  else String BSL (String "x"%char
         (String (hex_digit (nat_of_ascii c / 16))
            (String (hex_digit (nat_of_ascii c mod 16)) EmptyString))).

Fixpoint escape (quote : ascii) (s : string) : string :=
  match s with
  | EmptyString => EmptyString
  | String c s' => escape_char quote c ++ escape quote s'
  end.

(** [repr(s)] of a string: single quotes, unless the string has a
    single quote and no double quote. *)
Definition repr_str (s : string) : string :=
  let quote :=
    if contains (String APOS EmptyString) s
       && negb (contains (String QUOT EmptyString) s)
    then QUOT else APOS in
  String quote (escape quote s ++ String quote EmptyString).

(** [repr(v)] *)
Fixpoint py_repr (v : json) : string :=
  match v with
  | JNull => "None"
  | JBool true => "True"
  | JBool false => "False"
  | JInt n => str_of_Z n
  | JStr s => repr_str s
  | JList l =>
      "[" ++ join ", " ((fix items (l : list json) : list string :=
                           match l with
                           | [] => []
                           | x :: r => py_repr x :: items r
                           end) l) ++ "]"
  | JDict d =>
      "{" ++ join ", " ((fix items (d : list (string * json)) : list string :=
                           match d with
                           | [] => []
                           | (k, x) :: r =>
                               (repr_str k ++ ": " ++ py_repr x) :: items r
                           end) d) ++ "}"
  end.

(** [str(v)]: a string is itself, anything else is its [repr]. *)
Definition py_str (v : json) : string :=
  match v with
  | JStr s => s
  | _ => py_repr v
  end.

End PyRepr.
Import PyRepr.

(** What a raised exception is, as far as the callers look at it. *)
Inductive exn : Type :=
| HTTPException (status_code : Z) (detail : string)
| OtherException (message : string).

(** [str(e)] *)
Definition exn_str (e : exn) : string :=
  match e with
  | HTTPException code detail => str_of_Z code ++ ": " ++ detail
  | OtherException message => message
  end.

(** The result of a call that either returns or raises. *)
Inductive outcome (A : Type) : Type :=
| Returned (a : A)
| Raised (e : exn).
Arguments Returned {A} a.
Arguments Raised {A} e.

(** A Python [float], idealised as an exact rational. *)
Definition float : Type := Q.

(* ===================================================================== *)
(** ** [models.py]: the passage schema *)
(* ===================================================================== *)

Module Models.

Inductive PhilosopherId :=
| MARCUS_AURELIUS | EPICTETUS | SENECA | MUSONIUS_RUFUS | CATO.

Inductive WorkId :=
| MEDITATIONS | DISCOURSES | ENCHIRIDION | LETTERS | ON_ANGER
| ON_SHORTNESS_OF_LIFE | ON_TRANQUILITY | ON_PROVIDENCE | ON_HAPPY_LIFE
| LECTURES | LIFE_OF_CATO.

Inductive StressLevel := LOW | NORMAL | ELEVATED | HIGH.
Inductive ActivityState := ACTIVE | SEDENTARY | RECOVERY.
Inductive TimeOfDay := MORNING | MIDDAY | EVENING | NIGHT.
Inductive JourneyStage := NEWCOMER | BUILDING_HABITS | DEEPENING | CRISIS.
Inductive Difficulty := BEGINNER | INTERMEDIATE | ADVANCED.

Definition StressLevel_eq_dec (a b : StressLevel) : {a = b} + {a <> b}.
Proof. decide equality. Defined.

Definition TimeOfDay_eq_dec (a b : TimeOfDay) : {a = b} + {a <> b}.
Proof. decide equality. Defined.

(** [StressLevel(s)] when [s in StressLevel._value2member_map_]. *)
Definition StressLevel_of_value (s : string) : option StressLevel :=
  if String.eqb s "low" then Some LOW
  else if String.eqb s "normal" then Some NORMAL
  else if String.eqb s "elevated" then Some ELEVATED
  else if String.eqb s "high" then Some HIGH
  else None.

Definition TimeOfDay_of_value (s : string) : option TimeOfDay :=
  if String.eqb s "morning" then Some MORNING
  else if String.eqb s "midday" then Some MIDDAY
  else if String.eqb s "evening" then Some EVENING
  else if String.eqb s "night" then Some NIGHT
  else None.

Definition Difficulty_of_value (s : string) : option Difficulty :=
  if String.eqb s "beginner" then Some BEGINNER
  else if String.eqb s "intermediate" then Some INTERMEDIATE
  else if String.eqb s "advanced" then Some ADVANCED
  else None.

Record SourceInfo := {
  philosopher_id : PhilosopherId;
  work_id : WorkId;
  book : option Z;
  chapter : option Z;
  letter : option Z;
  section : option string;
  line_reference : option string
}.

Record TranslationInfo := {
  translator : string;
  year : Z;
  source_url : string;
  license : string
}.

Record PassageTags := {
  primary_concepts : list string;
  virtues : list string;
  practices : list string;
  situations : list string;
  emotions : list string
}.

Record HealthContext := {
  stress_levels : list StressLevel;
  activity_states : list ActivityState;
  times_of_day : list TimeOfDay
}.

Record JourneyContext := {
  stages : list JourneyStage;
  difficulty : Difficulty
}.

(** The three scores are declared [int] with bounds 1 and 10, but the
    bounds are checked only when the model is built; an assignment to
    the attribute stores any value.  The rule-based tagger assigns
    integers, [apply_tags] assigns what the provider sent. *)
Record PassageMetadata := {
  quotability : json;
  actionability : json;
  comfort : json;
  word_count : Z;
  character_count : Z
}.

Record Passage := {
  id : string;
  source : SourceInfo;
  translation : TranslationInfo;
  text : string;
  text_normalized : option string;
  tags : PassageTags;
  health_context : HealthContext;
  journey_context : JourneyContext;
  metadata : PassageMetadata;
  embedding : option (list float)
}.

(** The defaults of the field factories. *)
Definition PassageTags_default : PassageTags :=
  {| primary_concepts := []; virtues := []; practices := [];
     situations := []; emotions := [] |}.

Definition HealthContext_default : HealthContext :=
  {| stress_levels := []; activity_states := []; times_of_day := [] |}.

Definition PassageMetadata_default : PassageMetadata :=
  {| quotability := JInt 5; actionability := JInt 5; comfort := JInt 5;
     word_count := 0; character_count := 0 |}.

(** [passage.tags = t] and the like: the passage with one attribute
    replaced. *)
Definition set_tags (p : Passage) (t : PassageTags) : Passage :=
  {| id := id p; source := source p; translation := translation p;
     text := text p; text_normalized := text_normalized p;
     tags := t; health_context := health_context p;
     journey_context := journey_context p; metadata := metadata p;
     embedding := embedding p |}.

Definition set_health_context (p : Passage) (h : HealthContext) : Passage :=
  {| id := id p; source := source p; translation := translation p;
     text := text p; text_normalized := text_normalized p;
     tags := tags p; health_context := h;
     journey_context := journey_context p; metadata := metadata p;
     embedding := embedding p |}.

Definition set_journey_context (p : Passage) (j : JourneyContext) : Passage :=
  {| id := id p; source := source p; translation := translation p;
     text := text p; text_normalized := text_normalized p;
     tags := tags p; health_context := health_context p;
     journey_context := j; metadata := metadata p;
     embedding := embedding p |}.

Definition set_metadata (p : Passage) (m : PassageMetadata) : Passage :=
  {| id := id p; source := source p; translation := translation p;
     text := text p; text_normalized := text_normalized p;
     tags := tags p; health_context := health_context p;
     journey_context := journey_context p; metadata := m;
     embedding := embedding p |}.

Definition set_quotability (m : PassageMetadata) (v : json) : PassageMetadata :=
  {| quotability := v; actionability := actionability m; comfort := comfort m;
     word_count := word_count m; character_count := character_count m |}.

Definition set_actionability (m : PassageMetadata) (v : json) : PassageMetadata :=
  {| quotability := quotability m; actionability := v; comfort := comfort m;
     word_count := word_count m; character_count := character_count m |}.

Definition set_comfort (m : PassageMetadata) (v : json) : PassageMetadata :=
  {| quotability := quotability m; actionability := actionability m; comfort := v;
     word_count := word_count m; character_count := character_count m |}.

End Models.

(* ===================================================================== *)
(** ** [tag_rules.py]: the rule-based tagger *)
(* ===================================================================== *)

Module TagRules.
Import Models.

(** The keyword tables, in the order they are declared. *)
Definition CONCEPT_KEYWORDS : dict (list string) :=
  [ ("dichotomy_of_control",
      ["control"; "power over"; "in our power"; "not in our power";
       "up to us"; "not up to us"; "depends on us"; "our choice";
       "within our control"; "outside our control"; "cannot control"]);
    ("inner_citadel",
      ["inner"; "citadel"; "fortress"; "mind"; "soul"; "ruling";
       "governing"; "retreat"; "within yourself"; "inside"]);
    ("premeditatio_malorum",
      ["anticipate"; "prepare"; "expect"; "foresee"; "imagine";
       "what if"; "might happen"; "could happen"; "worst"]);
    ("memento_mori",
      ["death"; "die"; "dying"; "mortal"; "mortality"; "finite";
       "last day"; "end"; "life is short"; "brief"; "fleeting"]);
    ("amor_fati",
      ["fate"; "accept"; "acceptance"; "embrace"; "love"; "welcome";
       "providence"; "universe"; "nature"; "meant to be"]);
    ("impermanence",
      ["change"; "changing"; "pass"; "passing"; "temporary"; "transient";
       "nothing lasts"; "all things"; "flow"; "flux"; "moment"]);
    ("present_moment",
      ["present"; "now"; "today"; "this moment"; "current"; "immediate";
       "at hand"; "before you"]);
    ("living_according_to_nature",
      ["nature"; "natural"; "according to nature"; "rational";
       "reason"; "logos"; "universal"; "cosmos"]) ].

Definition VIRTUE_KEYWORDS : dict (list string) :=
  [ ("wisdom",
      ["wisdom"; "wise"; "knowledge"; "understand"; "judgment";
       "discern"; "learn"; "truth"; "reason"; "rational"]);
    ("courage",
      ["courage"; "brave"; "bravery"; "fear"; "fearless"; "bold";
       "endure"; "persist"; "strength"; "fortitude"; "stand firm"]);
    ("justice",
      ["justice"; "just"; "fair"; "duty"; "obligation"; "right";
       "wrong"; "others"; "society"; "fellow"; "citizen"]);
    ("temperance",
      ["temperance"; "moderate"; "moderation"; "restrain"; "control";
       "self-control"; "discipline"; "excess"; "pleasure"; "desire"]) ].

Definition PRACTICE_KEYWORDS : dict (list string) :=
  [ ("morning_reflection",
      ["morning"; "dawn"; "arise"; "wake"; "begin the day"; "start"]);
    ("evening_review",
      ["evening"; "night"; "end of day"; "review"; "examine"; "reflect";
       "sleep"; "bed"]);
    ("journaling",
      ["write"; "record"; "note"; "journal"; "yourself"]);
    ("self_examination",
      ["examine"; "ask yourself"; "question"; "reflect"; "consider";
       "think about"; "look within"]) ].

Definition SITUATION_KEYWORDS : dict (list string) :=
  [ ("difficult_people",
      ["people"; "others"; "man"; "men"; "someone"; "they";
       "difficult"; "annoying"; "fool"; "ignorant"; "enemy"]);
    ("anger_management",
      ["anger"; "angry"; "rage"; "fury"; "temper"; "irritate";
       "provoke"; "offend"; "insult"]);
    ("anxiety",
      ["anxious"; "anxiety"; "worry"; "fear"; "troubled"; "disturbed";
       "concern"; "uneasy"; "restless"]);
    ("grief",
      ["grief"; "grieve"; "loss"; "lost"; "mourn"; "sorrow";
       "sadness"; "death of"; "passed away"]);
    ("failure",
      ["fail"; "failure"; "mistake"; "error"; "wrong"; "setback";
       "disappoint"; "fall short"]);
    ("success",
      ["success"; "achieve"; "accomplish"; "triumph"; "victory";
       "praise"; "fame"; "honor"]);
    ("leadership",
      ["lead"; "leader"; "rule"; "govern"; "command"; "authority";
       "power"; "emperor"; "king"]);
    ("health_challenges",
      ["sick"; "illness"; "disease"; "pain"; "body"; "health";
       "suffer"; "affliction"]);
    ("time_management",
      ["time"; "busy"; "hurry"; "waste"; "spend"; "life is short";
       "procrastinate"; "delay"]);
    ("finding_purpose",
      ["purpose"; "meaning"; "why"; "reason"; "goal"; "aim";
       "direction"; "calling"]) ].

Definition EMOTION_KEYWORDS : dict (list string) :=
  [ ("anger", ["anger"; "angry"; "rage"; "fury"; "wrath"; "irritate"]);
    ("fear", ["fear"; "afraid"; "terror"; "dread"; "scary"; "frighten"]);
    ("anxiety", ["anxious"; "anxiety"; "worry"; "worried"; "nervous"]);
    ("grief", ["grief"; "sorrow"; "mourn"; "sad"; "sadness"; "loss"]);
    ("joy", ["joy"; "happy"; "happiness"; "delight"; "pleasure"; "glad"]);
    ("frustration", ["frustrate"; "annoyed"; "irritate"; "vexed"]);
    ("peace", ["peace"; "calm"; "tranquil"; "serene"; "quiet"; "still"]) ].

(** The outer loop of [find_keywords]; the inner loop with its [break]
    asks whether some keyword of the category occurs. *)
Fixpoint find_keywords_in (text_lower : string) (keyword_dict : dict (list string))
  : list string :=
  match keyword_dict with
  | [] => []
  | (category, keywords) :: rest =>
      if existsb (fun keyword => contains (lower keyword) text_lower) keywords
      then category :: find_keywords_in text_lower rest
      else find_keywords_in text_lower rest
  end.

Definition find_keywords (text : string) (keyword_dict : dict (list string))
  : list string :=
  find_keywords_in (lower text) keyword_dict.

(** [sum(1 for w in words if w in text_lower)] *)
Definition count_present (words : list string) (text_lower : string) : Z :=
  Z.of_nat (List.length (filter (fun w => contains w text_lower) words)).

Definition assess_difficulty (text : string) : Difficulty :=
  let text_lower := lower text in
  let advanced_terms :=
    ["indifferent"; "preferred"; "logos"; "hegemonikon";
     "prohairesis"; "oikeiosis"; "cosmopolitan"; "determinism"] in
  let intermediate_terms :=
    ["virtue"; "rational"; "nature"; "providence"; "soul";
     "judgment"; "impression"; "assent"] in
  let advanced_count := count_present advanced_terms text_lower in
  let intermediate_count := count_present intermediate_terms text_lower in
  if 2 <=? advanced_count then ADVANCED
  else if (2 <=? intermediate_count) || (1 <=? advanced_count) then INTERMEDIATE
  else BEGINNER.

(** The patterns of [assess_quotability] are the literals below, each
    between two [\b]. *)
Definition advice_patterns : list string :=
  ["do not"; "never"; "always"; "must"; "should"; "remember"; "let"; "begin"].

Definition assess_quotability (text : string) : Z :=
  let score := 5 in
  let word_count := PyStr.word_count text in
  let score :=
    if word_count <? 50 then score + 2
    else if word_count <? 100 then score + 1
    else if 200 <? word_count then score - 2
    else score in
  let score :=
    if existsb (fun pattern => search_bounded pattern (lower text)) advice_patterns
    then score + 1 else score in
  let score := if contains "?" text then score + 1 else score in
  Z.min 10 (Z.max 1 score).

Definition assess_comfort (text : string) : Z :=
  let text_lower := lower text in
  let comfort_words :=
    ["peace"; "calm"; "gentle"; "accept"; "rest"; "ease";
     "content"; "tranquil"; "serene"; "grateful"] in
  let challenge_words :=
    ["must"; "should"; "stop"; "cease"; "wrong"; "foolish";
     "lazy"; "weak"; "excuse"; "complain"] in
  let comfort_score := count_present comfort_words text_lower in
  let challenge_score := count_present challenge_words text_lower in
  let score := 5 + comfort_score - challenge_score in
  Z.min 10 (Z.max 1 score).

Definition assess_actionability (text : string) : Z :=
  let text_lower := lower text in
  let action_words :=
    ["do"; "practice"; "try"; "begin"; "start"; "stop";
     "when you"; "if you"; "every day"; "each morning";
     "remind yourself"; "tell yourself"; "ask yourself"] in
  let score :=
    fold_left (fun score word => if contains word text_lower then score + 1 else score)
              action_words 5 in
  Z.min 10 (Z.max 1 score).

(** [any(x in l for x in xs)] *)
Definition any_in (xs l : list string) : bool :=
  existsb (fun x => str_in x l) xs.

(** [list(set(l))]: the distinct elements of [l].  Python leaves the
    order of a set open; nothing below depends on it. *)
Definition list_of_set {A : Type} (eq_dec : forall a b : A, {a = b} + {a <> b})
           (l : list A) : list A :=
  nodup eq_dec l.

Definition map_to_health_context (tags : PassageTags) : HealthContext :=
  let stress_levels := [] in
  let times_of_day := [] in
  let stress_levels :=
    if any_in ["anger"; "anxiety"; "fear"] (emotions tags)
    then (stress_levels ++ [ELEVATED; HIGH])%list else stress_levels in
  let stress_levels :=
    if any_in ["anger_management"; "anxiety"; "difficult_people"] (situations tags)
    then (stress_levels ++ [ELEVATED; HIGH])%list else stress_levels in
  let stress_levels :=
    if str_in "peace" (emotions tags) || str_in "acceptance" (primary_concepts tags)
    then (stress_levels ++ [LOW])%list else stress_levels in
  let stress_levels :=
    if negb (nonempty stress_levels) then [NORMAL] else stress_levels in
  let times_of_day :=
    if str_in "morning_reflection" (practices tags)
    then (times_of_day ++ [MORNING])%list else times_of_day in
  let times_of_day :=
    if str_in "evening_review" (practices tags)
    then (times_of_day ++ [EVENING])%list else times_of_day in
  let times_of_day :=
    if str_in "memento_mori" (primary_concepts tags)
    then (times_of_day ++ [EVENING; NIGHT])%list else times_of_day in
  let times_of_day :=
    if any_in ["premeditatio_malorum"; "present_moment"] (primary_concepts tags)
    then (times_of_day ++ [MORNING])%list else times_of_day in
  let times_of_day :=
    if negb (nonempty times_of_day) then [MORNING; MIDDAY; EVENING]
    else times_of_day in
  {| stress_levels := list_of_set StressLevel_eq_dec stress_levels;
     activity_states := [];
     times_of_day := list_of_set TimeOfDay_eq_dec times_of_day |}.

(** The guard that skips the boiler plate of Project Gutenberg. *)
Definition is_boilerplate (text : string) : bool :=
  contains "Project Gutenberg" text || contains "START OF" text
  || contains "END OF" text.

Definition tag_passage (passage : Passage) : Passage :=
  let text := text passage in
  if is_boilerplate text then passage
  else
    let tags :=
      {| primary_concepts := firstn 3 (find_keywords text CONCEPT_KEYWORDS);
         virtues := firstn 2 (find_keywords text VIRTUE_KEYWORDS);
         practices := firstn 2 (find_keywords text PRACTICE_KEYWORDS);
         situations := firstn 3 (find_keywords text SITUATION_KEYWORDS);
         emotions := firstn 3 (find_keywords text EMOTION_KEYWORDS) |} in
    let passage := set_tags passage tags in
    let passage :=
      set_metadata passage
        (set_quotability (metadata passage) (JInt (assess_quotability text))) in
    let passage :=
      set_metadata passage
        (set_actionability (metadata passage) (JInt (assess_actionability text))) in
    let passage :=
      set_metadata passage
        (set_comfort (metadata passage) (JInt (assess_comfort text))) in
    let difficulty := assess_difficulty text in
    let passage :=
      set_journey_context passage
        {| stages := match difficulty with
                     | BEGINNER => [NEWCOMER]
                     | _ => [BUILDING_HABITS]
                     end;
           difficulty := difficulty |} in
    set_health_context passage (map_to_health_context tags).

End TagRules.

(* ===================================================================== *)
(** ** [tag_openai.py]: applying the tags a provider returned *)
(* ===================================================================== *)

Module TagOpenAI.
Import Models.

Definition bind {A B : Type} (x : outcome A) (f : A -> outcome B) : outcome B :=
  match x with
  | Returned a => f a
  | Raised e => Raised e
  end.

Notation "x <- c1 ;; c2" := (bind c1 (fun x => c2))
  (at level 61, c1 at next level, right associativity).

Definition TypeError (what : string) : exn := OtherException ("TypeError: " ++ what).
Definition ValidationError (what : string) : exn :=
  OtherException ("ValidationError: " ++ what).

(** Building a [list[str]] field of [PassageTags]: every item has to
    be a string. *)
Fixpoint validate_str_list (l : list json) : outcome (list string) :=
  match l with
  | [] => Returned []
  | JStr s :: rest => r <- validate_str_list rest ;; Returned (s :: r)
  | _ :: _ => Raised (ValidationError "Input should be a valid string")
  end.

(** [tags.get(key, [])[:cap]] handed to a [list[str]] field: a list is
    cut and validated, the slice of a string is no list, and nothing
    else can be sliced. *)
Definition tag_list (tags : dict json) (key : string) (cap : nat)
  : outcome (list string) :=
  match dict_get_default key (JList []) tags with
  | JList l => validate_str_list (firstn cap l)
  | JStr _ => Raised (ValidationError "Input should be a valid list")
  | _ => Raised (TypeError "object is not subscriptable")
  end.

(** [[E(s) for s in items if s in E._value2member_map_]] over a list:
    the membership test hashes the item, which a list or a dict does
    not allow; only a string can be a key of the map. *)
Fixpoint members_of_list {E : Type} (of_value : string -> option E) (items : list json)
  : outcome (list E) :=
  match items with
  | [] => Returned []
  | JList _ :: _ | JDict _ :: _ => Raised (TypeError "unhashable type")
  | JStr s :: rest =>
      r <- members_of_list of_value rest ;;
      Returned (match of_value s with Some e => e :: r | None => r end)
  | _ :: rest => members_of_list of_value rest
  end.

(** The same comprehension over whatever the provider sent: a string
    is wrapped in a list first ([isinstance(stress, str)]), a dict is
    iterated by its keys, and a number, a boolean or [None] cannot be
    iterated. *)
Definition members {E : Type} (of_value : string -> option E) (v : json)
  : outcome (list E) :=
  match v with
  | JStr s => members_of_list of_value [JStr s]
  | JList l => members_of_list of_value l
  | JDict d => members_of_list of_value (map (fun kv => JStr (fst kv)) d)
  | _ => Raised (TypeError "object is not iterable")
  end.

Definition json_eq_str (v : json) (s : string) : bool :=
  match v with JStr s' => String.eqb s' s | _ => false end.

(** [Difficulty(diff) if diff in Difficulty._value2member_map_ else
    Difficulty.BEGINNER] *)
Definition difficulty_of (diff : json) : outcome Difficulty :=
  match diff with
  | JList _ | JDict _ => Raised (TypeError "unhashable type")
  | JStr s => Returned (match Difficulty_of_value s with
                        | Some d => d
                        | None => BEGINNER
                        end)
  | _ => Returned BEGINNER
  end.

Definition apply_tags (passage : Passage) (tags : dict json) : outcome Passage :=
  if negb (nonempty tags) then Returned passage
  else
    primary_concepts <- tag_list tags "primary_concepts" 3 ;;
    virtues <- tag_list tags "virtues" 2 ;;
    practices <- tag_list tags "practices" 2 ;;
    situations <- tag_list tags "situations" 3 ;;
    emotions <- tag_list tags "emotions" 3 ;;
    let passage :=
      set_tags passage
        {| primary_concepts := primary_concepts; virtues := virtues;
           practices := practices; situations := situations;
           emotions := emotions |} in
    let stress := dict_get_default "stress_levels" (JList [JStr "normal"]) tags in
    let times := dict_get_default "times_of_day" (JList [JStr "morning"]) tags in
    stress_levels <- members StressLevel_of_value stress ;;
    times_of_day <- members TimeOfDay_of_value times ;;
    let passage :=
      set_health_context passage
        {| stress_levels := stress_levels; activity_states := [];
           times_of_day := times_of_day |} in
    let diff := dict_get_default "difficulty" (JStr "beginner") tags in
    difficulty <- difficulty_of diff ;;
    let passage :=
      set_journey_context passage
        {| stages := if json_eq_str diff "beginner"
                     then [NEWCOMER] else [BUILDING_HABITS];
           difficulty := difficulty |} in
    let passage :=
      set_metadata passage
        (set_quotability (metadata passage)
           (dict_get_default "quotability" (JInt 5) tags)) in
    let passage :=
      set_metadata passage
        (set_actionability (metadata passage)
           (dict_get_default "actionability" (JInt 5) tags)) in
    let passage :=
      set_metadata passage
        (set_comfort (metadata passage)
           (dict_get_default "comfort" (JInt 5) tags)) in
    Returned passage.

End TagOpenAI.

(* ===================================================================== *)
(** ** [stoic_api.py]: contextual retrieval and profile matching *)
(* ===================================================================== *)

Module Api.

Record HealthContext := {
  heart_rate : option float;
  hrv : option float;
  stress_level : string;
  time_of_day : string;
  is_active : bool
}.

Record QuoteRequest := {
  context : HealthContext;
  user_id : option string;
  philosopher_id : option string;
  query : option string
}.

Record QuoteResponse := {
  id : string;
  text : string;
  philosopher : string;
  work : string;
  tags : dict json;
  similarity : option float
}.

(** A row returned by the [match_passages] search: the columns the
    endpoint reads. *)
Record PassageRow := {
  row_id : string;
  row_text : string;
  row_philosopher_id : string;
  row_work_id : string;
  row_tags : dict json;
  row_similarity : float
}.

Record OnboardingAnswer := {
  question_id : string;
  answer : string
}.

Record MatchRequest := {
  match_user_id : string;
  answers : list OnboardingAnswer
}.

Record MatchResponse := {
  matched_philosopher_id : string;
  philosopher_name : string;
  match_reason : string;
  confidence : float
}.

(** A row of the [philosophers] table, as far as matching reads it:
    [unlock_criteria] is the value of [p.get("unlock_criteria", {})]
    and [matching_criteria] the list stored in it, if any. *)
Record UnlockCriteria := {
  matching_criteria : option (list string)
}.

Record Philosopher := {
  phil_id : string;
  phil_name : string;
  unlock_criteria : option UnlockCriteria
}.

(** [bool(x)] for an optional string. *)
Definition truthy_opt (x : option string) : bool :=
  match x with Some s => truthy s | None => false end.

Definition stress_map : dict string :=
  [ ("low", "feeling calm and peaceful");
    ("normal", "normal day, looking for wisdom");
    ("elevated", "feeling stressed and need perspective");
    ("high", "very anxious and need calming guidance") ].

Definition time_map : dict string :=
  [ ("morning", "starting my day");
    ("midday", "middle of my day");
    ("evening", "reflecting on my day");
    ("night", "ending my day, preparing to rest") ].

(** The context string handed to the embedding provider. *)
Definition build_context_text (request : QuoteRequest) : string :=
  let context_parts :=
    match query request with
    | Some q =>
        if truthy q then [q]
        else
          ([dict_get_default (stress_level (context request)) EmptyString stress_map;
            dict_get_default (time_of_day (context request)) EmptyString time_map]
           ++ (if is_active (context request)
               then ["during exercise or activity"] else []))%list
    | None =>
        ([dict_get_default (stress_level (context request)) EmptyString stress_map;
          dict_get_default (time_of_day (context request)) EmptyString time_map]
         ++ (if is_active (context request)
             then ["during exercise or activity"] else []))%list
    end in
  join ", " (filter truthy context_parts).

(** [m["philosopher_id"] == request.philosopher_id] *)
Definition from_philosopher (request : QuoteRequest) (m : PassageRow) : bool :=
  match philosopher_id request with
  | Some p => String.eqb (row_philosopher_id m) p
  | None => false
  end.

(** The test of the stress filter:
    [stress_level in str(tags.get("emotions", []))
      or "normal" in str(tags)]. *)
Definition stress_pass (request : QuoteRequest) (m : PassageRow) : bool :=
  contains (stress_level (context request))
           (py_str (dict_get_default "emotions" (JList []) (row_tags m)))
  || contains "normal" (py_str (JDict (row_tags m))).

(** The post-filter by philosopher. *)
Definition philosopher_filter (request : QuoteRequest) (matches : list PassageRow)
  : list PassageRow :=
  if truthy_opt (philosopher_id request) && nonempty matches
  then filter (from_philosopher request) matches
  else matches.

(** The post-filter by stress level, kept only when it leaves
    something. *)
Definition stress_filter (request : QuoteRequest) (matches : list PassageRow)
  : list PassageRow :=
  if nonempty matches then
    let stress_filtered := filter (stress_pass request) matches in
    if nonempty stress_filtered then stress_filtered else matches
  else matches.

Definition quote_response (top : PassageRow) : QuoteResponse :=
  {| id := row_id top;
     text := row_text top;
     philosopher := title (replace_char "_" " " (row_philosopher_id top));
     work := title (replace_char "_" " " (row_work_id top));
     tags := row_tags top;
     similarity := Some (row_similarity top) |}.

Section Retrieval.

(** The two collaborators of the endpoint: the embedding provider
    and the vector search (the [match_passages] procedure, called
    with threshold 0.0 and count 10); [None] is a [data] of [None]. *)
Variable Embedding : Type.
Variable embeddings_create : string -> outcome Embedding.
Variable match_passages : Embedding -> outcome (option (list PassageRow)).

(** The body of the second [try]. *)
Definition search_and_select (request : QuoteRequest) (query_embedding : Embedding)
  : outcome QuoteResponse :=
  match match_passages query_embedding with
  | Raised e => Raised e
  | Returned data =>
      let matches := match data with Some rows => rows | None => [] end in
      let matches := philosopher_filter request matches in
      let matches := stress_filter request matches in
      let result_data := firstn 5 matches in
      match result_data with
      | [] => Raised (HTTPException 404 "No matching quotes found")
      | top :: _ => Returned (quote_response top)
      end
  end.

Definition get_contextual_quote (request : QuoteRequest) : outcome QuoteResponse :=
  let context_text := build_context_text request in
  match embeddings_create context_text with
  | Raised e => Raised (HTTPException 500 ("Embedding error: " ++ exn_str e))
  | Returned query_embedding =>
      (* try: ... except Exception as e: raise HTTPException(500, ...) *)
      match search_and_select request query_embedding with
      | Returned response => Returned response
      | Raised e => Raised (HTTPException 500 ("Search error: " ++ exn_str e))
      end
  end.

End Retrieval.

(** *** Profile matching *)

(** [any(word in answer for word in criterion_lower.split())] *)
Definition criterion_in (criterion_lower answer : string) : bool :=
  existsb (fun word => contains word answer) (split_ws criterion_lower).

(** [{a.question_id: a.answer.lower() for a in answers}] *)
Definition answer_map (answers : list OnboardingAnswer) : dict string :=
  fold_left (fun d a => dict_set (question_id a) (lower (answer a)) d) answers [].

Definition criteria_of (philosopher : Philosopher) : list string :=
  match unlock_criteria philosopher with
  | Some criteria =>
      match matching_criteria criteria with
      | Some l => l
      | None => []
      end
  | None => []
  end.

Definition calculate_match_score (philosopher : Philosopher)
           (answers : list OnboardingAnswer) : float :=
  let score := 0%Q in
  let matching_criteria := criteria_of philosopher in
  let answer_map := answer_map answers in
  let score :=
    fold_left
      (fun score criterion =>
         let criterion_lower := lower criterion in
         fold_left
           (fun score answer =>
              if criterion_in criterion_lower answer then (score + 1)%Q else score)
           (dict_values answer_map) score)
      matching_criteria score in
  let max_score :=
    if nonempty matching_criteria
    then Z.of_nat (List.length matching_criteria) else 1 in
  Qmin 1 (score / inject_Z max_score).

Record ScoreEntry := {
  score : float;
  name : string;
  entry_unlock_criteria : option UnlockCriteria
}.

(** The loop that fills [scores]. *)
Definition score_all (philosophers : list Philosopher)
           (answers : list OnboardingAnswer) : dict ScoreEntry :=
  fold_left
    (fun scores p =>
       dict_set (phil_id p)
         {| score := calculate_match_score p answers;
            name := phil_name p;
            entry_unlock_criteria := unlock_criteria p |}
         scores)
    philosophers [].

(** [a < b] on floats. *)
Definition float_ltb (a b : float) : bool :=
  match (a ?= b)%Q with Lt => true | _ => false end.

(** [max(scores, key=lambda x: scores[x]["score"])]: the keys are read
    in order and a key replaces the best one so far only when its
    score is greater; an empty dict raises. *)
Definition max_by_score (scores : dict ScoreEntry) : outcome (string * ScoreEntry) :=
  match scores with
  | [] => Raised (OtherException "ValueError: max() arg is an empty sequence")
  | first :: rest =>
      Returned
        (fold_left
           (fun best x => if float_ltb (score (snd best)) (score (snd x))
                          then x else best)
           rest first)
  end.

(** The match step: score every profile, take the best. *)
Definition best_match (philosophers : list Philosopher)
           (answers : list OnboardingAnswer) : outcome (string * ScoreEntry) :=
  max_by_score (score_all philosophers answers).

Section Matching.

(** The collaborators: the [philosophers] table, the text generation
    (which falls back to a fixed sentence and never raises) and the
    write to [user_profiles]. *)
Variable philosophers_table : outcome (list Philosopher).
Variable generate_match_reason : string -> list OnboardingAnswer -> string.
Variable upsert_user_profile :
  string -> string -> list OnboardingAnswer -> outcome unit.

Definition match_philosopher (request : MatchRequest) : outcome MatchResponse :=
  match philosophers_table with
  | Raised e => Raised e
  | Returned philosophers =>
      match best_match philosophers (answers request) with
      | Raised e => Raised e
      | Returned (best_id, best) =>
          let reason := generate_match_reason best_id (answers request) in
          match upsert_user_profile (match_user_id request) best_id
                                    (answers request) with
          | Raised e => Raised e
          | Returned _ =>
              Returned {| matched_philosopher_id := best_id;
                          philosopher_name := name best;
                          match_reason := reason;
                          confidence := score best |}
          end
      end
  end.

End Matching.

End Api.

(* ===================================================================== *)
(** ** Properties of the segmentation *)
(* ===================================================================== *)

Module ChunkProps.

(** The sum of the word counts of a list of paragraphs. *)
Definition words_total (l : list string) : Z :=
  fold_right (fun p acc => word_count p + acc) 0 l.

(** A relation that holds between each element and the next one. *)
Fixpoint chain {A : Type} (R : A -> A -> Prop) (l : list A) : Prop :=
  match l with
  | a :: t => match t with
              | b :: _ => R a b /\ chain R t
              | [] => True
              end
  | [] => True
  end.

(** The property the specification states: every chunk but the last
    has a word count between the two thresholds. *)
Definition in_range_except_last (min_words max_words : Z) (chunks : list string) : Prop :=
  forall i c, nth_error chunks i = Some c -> (S i < List.length chunks)%nat ->
              min_words <= word_count c <= max_words.

(** What the loop gives instead.  Below the minimum: only when the
    next chunk would have carried the two past the maximum.  Above the
    maximum: only a paragraph emitted alone. *)
Definition low_ok (min_words max_words : Z) (c c' : string) : Prop :=
  min_words <= word_count c \/ max_words < word_count c + word_count c'.

Definition high_ok (max_words : Z) (paragraphs : list string) (c : string) : Prop :=
  word_count c <= max_words \/ In c paragraphs.

Lemma nonempty_true {A : Type} (l : list A) : nonempty l = true <-> l <> [].
Proof. destruct l; simpl; split; congruence. Qed.

Lemma words_from_app_space (a : string) :
  forall cur sp b, is_space sp = true ->
    words_from cur (a ++ String sp b)
    = (words_from cur a ++ words_from EmptyString b)%list.
Proof.
  induction a as [|c a IH]; intros cur sp b Hsp; simpl.
  - rewrite Hsp. destruct (truthy cur); reflexivity.
  - destruct (is_space c), (truthy cur); simpl; rewrite IH by assumption;
      reflexivity.
Qed.

Lemma word_count_app_space (a b : string) :
  word_count (a ++ " " ++ b) = word_count a + word_count b.
Proof.
  unfold word_count, split_ws. simpl.
  rewrite words_from_app_space by reflexivity.
  rewrite length_app. lia.
Qed.

Lemma word_count_nonneg (s : string) : 0 <= word_count s.
Proof. unfold word_count. lia. Qed.

Lemma words_total_nonneg (l : list string) : 0 <= words_total l.
Proof.
  induction l as [|p l IH]; simpl; [lia|].
  pose proof (word_count_nonneg p). lia.
Qed.

Lemma words_total_app (l1 l2 : list string) :
  words_total (l1 ++ l2) = words_total l1 + words_total l2.
Proof. induction l1 as [|p l1 IH]; simpl; [reflexivity | rewrite IH; lia]. Qed.

(** Joining paragraphs with a space adds up their word counts. *)
Lemma word_count_join (l : list string) :
  word_count (join " " l) = words_total l.
Proof.
  induction l as [|x [|y r] IH].
  - reflexivity.
  - simpl. lia.
  - change (join " " (x :: y :: r)) with (x ++ " " ++ join " " (y :: r)).
    rewrite word_count_app_space, IH. reflexivity.
Qed.

Lemma chain_cons_any {A : Type} (R : A -> A -> Prop) (a : A) (l : list A) :
  (forall b, R a b) -> chain R l -> chain R (a :: l).
Proof. intros Ha Hl. destruct l; simpl; auto. Qed.

Lemma chain_nth {A : Type} (R : A -> A -> Prop) (l : list A) :
  chain R l ->
  forall i a b, nth_error l i = Some a -> nth_error l (S i) = Some b -> R a b.
Proof.
  induction l as [|x [|y t] IH]; intros Hc i a b Ha Hb.
  - destruct i; discriminate.
  - destruct i as [|[|i]]; discriminate.
  - destruct Hc as [Hxy Ht]. destruct i as [|i].
    + simpl in Ha, Hb. congruence.
    + apply (IH Ht i); assumption.
Qed.

Section Loop.
Variables min_words max_words : Z.
Variable P : list string.

Let loop := chunk_loop min_words max_words.

(** What the loop keeps true of its two variables. *)
Record invariant (current_chunk : list string) (current_word_count : Z) : Prop := {
  inv_count : current_word_count = words_total current_chunk;
  inv_low : current_chunk <> [] -> current_word_count < min_words;
  inv_high : current_chunk <> [] ->
             current_word_count <= max_words
             \/ exists p, current_chunk = [p] /\ In p P
}.

Lemma invariant_nil : invariant [] 0.
Proof. split; simpl; congruence. Qed.

Lemma loop_spec (paragraphs : list string) :
  (forall p, In p paragraphs -> truthy (strip p) = true -> In (strip p) P) ->
  forall current_chunk current_word_count,
    invariant current_chunk current_word_count ->
    let out := loop paragraphs current_chunk current_word_count in
    chain (low_ok min_words max_words) out
    /\ Forall (high_ok max_words P) out
    /\ (current_chunk <> [] ->
        exists h t, out = h :: t /\ current_word_count <= word_count h).
Proof.
  unfold loop.
  induction paragraphs as [|para rest IH]; intros HP cc cwc Hinv;
    cbn [chunk_loop].
  - destruct Hinv as [Hc Hl Hh]. destruct (nonempty cc) eqn:Hne.
    + apply nonempty_true in Hne. specialize (Hh Hne).
      assert (Hw : word_count (join " " cc) = cwc)
        by (rewrite word_count_join; congruence).
      split; [exact I | split].
      * constructor; [|constructor]. unfold high_ok. rewrite Hw.
        destruct Hh as [Hh|(p & Hp & Hin)]; [left; exact Hh|].
        right. rewrite Hp. exact Hin.
      * intros _. eexists _, _. split; [reflexivity|]. lia.
    + destruct cc; [|discriminate].
      split; [exact I | split; [constructor | congruence]].
  - assert (HPrest : forall p, In p rest -> truthy (strip p) = true -> In (strip p) P)
      by (intros p Hp; apply HP; right; exact Hp).
    specialize (IH HPrest).
    destruct (truthy (strip para)) eqn:Hpara; cbn [negb].
    2:{ apply IH. exact Hinv. }
    assert (Hin : In (strip para) P) by (apply HP; [left; reflexivity | exact Hpara]).
    set (q := strip para) in *.
    pose proof (word_count_nonneg q) as Hq0.
    destruct Hinv as [Hc Hl Hh].
    destruct ((max_words <? cwc + word_count q) && nonempty cc) eqn:Hflush.
    + (* the current chunk is emitted before the paragraph is added *)
      apply andb_true_iff in Hflush. destruct Hflush as [Hover Hne].
      apply Z.ltb_lt in Hover. apply nonempty_true in Hne.
      specialize (Hl Hne). specialize (Hh Hne).
      assert (Hjoin : word_count (join " " cc) = cwc)
        by (rewrite word_count_join; congruence).
      assert (Hhigh : high_ok max_words P (join " " cc)).
      { unfold high_ok. rewrite Hjoin.
        destruct Hh as [Hh|(p & Hp & Hp')]; [left; exact Hh|].
        right. rewrite Hp. exact Hp'. }
      cbn [app]. change (0 + word_count q) with (word_count q).
      destruct (min_words <=? word_count q) eqn:Hmin.
      * destruct (IH [] 0 invariant_nil) as (IH1 & IH2 & _).
        apply Z.leb_le in Hmin.
        split; [|split].
        -- split.
           ++ right. change (join " " [q]) with q. lia.
           ++ apply chain_cons_any; [|exact IH1]. intro b. left. exact Hmin.
        -- constructor; [exact Hhigh|]. constructor; [|exact IH2].
           right. exact Hin.
        -- intros _. eexists _, _. split; [reflexivity|]. lia.
      * apply Z.leb_gt in Hmin.
        assert (Hinv' : invariant [q] (word_count q)).
        { split; simpl; [lia | intros _; lia |].
          intros _. right. exists q. split; [reflexivity | exact Hin]. }
        destruct (IH [q] (word_count q) Hinv') as (IH1 & IH2 & IH3).
        destruct IH3 as (h & t & Hout & Hh'); [congruence|].
        rewrite Hout in *.
        split; [|split].
        -- split; [|exact IH1]. right. lia.
        -- constructor; [exact Hhigh | exact IH2].
        -- intros _. eexists _, _. split; [reflexivity|]. lia.
    + (* the paragraph joins the current chunk *)
      cbn [app].
      assert (Hcount : cwc + word_count q = words_total (cc ++ [q])).
      { rewrite words_total_app. simpl. lia. }
      assert (Hhigh : cwc + word_count q <= max_words
                      \/ exists p, (cc ++ [q])%list = [p] /\ In p P).
      { destruct cc as [|x cc].
        - right. exists q. split; [reflexivity | exact Hin].
        - left. simpl in Hflush. rewrite andb_true_r in Hflush.
          apply Z.ltb_ge in Hflush. exact Hflush. }
      destruct (min_words <=? cwc + word_count q) eqn:Hmin.
      * destruct (IH [] 0 invariant_nil) as (IH1 & IH2 & _).
        apply Z.leb_le in Hmin.
        assert (Hw : word_count (join " " (cc ++ [q])) = cwc + word_count q)
          by (rewrite word_count_join; congruence).
        split; [|split].
        -- apply chain_cons_any; [|exact IH1]. intro b. left. lia.
        -- constructor; [|exact IH2]. unfold high_ok. rewrite Hw.
           destruct Hhigh as [Hhigh|(p & Hp & Hp')]; [left; exact Hhigh|].
           right. rewrite Hp. exact Hp'.
        -- intros _. eexists _, _. split; [reflexivity|]. lia.
      * apply Z.leb_gt in Hmin.
        assert (Hinv' : invariant (cc ++ [q]) (cwc + word_count q)).
        { split; [exact Hcount | intros _; exact Hmin | intros _; exact Hhigh]. }
        destruct (IH _ _ Hinv') as (IH1 & IH2 & IH3).
        split; [exact IH1 | split; [exact IH2 |]].
        intros Hne.
        destruct IH3 as (h & t & Hout & Hh'); [destruct cc; discriminate|].
        exists h, t. split; [exact Hout|]. lia.
Qed.

End Loop.

(** The same loop when every paragraph leaves room for the minimum:
    the first test never fires, so every chunk emitted inside the loop
    is within the thresholds. *)
Fixpoint all_but_last {A : Type} (Q : A -> Prop) (l : list A) : Prop :=
  match l with
  | a :: t => match t with
              | _ :: _ => Q a /\ all_but_last Q t
              | [] => True
              end
  | [] => True
  end.

Lemma all_but_last_cons {A : Type} (Q : A -> Prop) (a : A) (l : list A) :
  Q a -> all_but_last Q l -> all_but_last Q (a :: l).
Proof. intros Ha Hl. destruct l; simpl; auto. Qed.

Lemma all_but_last_nth {A : Type} (Q : A -> Prop) (l : list A) :
  all_but_last Q l ->
  forall i a, nth_error l i = Some a -> (S i < List.length l)%nat -> Q a.
Proof.
  induction l as [|x [|y t] IH]; intros Hl i a Ha Hi.
  - destruct i; discriminate.
  - simpl in Hi. lia.
  - destruct Hl as [Hx Ht]. destruct i as [|i].
    + simpl in Ha. congruence.
    + apply (IH Ht i); [exact Ha | simpl in *; lia].
Qed.

(** A paragraph fits when it is within the maximum and leaves room for
    a chunk just below the minimum. *)
Definition fits (min_words max_words : Z) (p : string) : Prop :=
  word_count p <= max_words /\ word_count p <= max_words - min_words + 1.

Lemma loop_in_range (min_words max_words : Z) (paragraphs : list string) :
  (forall p, In p paragraphs -> truthy (strip p) = true ->
             fits min_words max_words (strip p)) ->
  forall current_chunk current_word_count,
    current_word_count = words_total current_chunk ->
    (current_chunk <> [] -> current_word_count < min_words) ->
    all_but_last (fun c => min_words <= word_count c <= max_words)
                 (chunk_loop min_words max_words paragraphs
                             current_chunk current_word_count).
Proof.
  induction paragraphs as [|para rest IH]; intros HP cc cwc Hc Hl;
    cbn [chunk_loop].
  - destruct (nonempty cc); exact I.
  - assert (HPrest : forall p, In p rest -> truthy (strip p) = true ->
                               fits min_words max_words (strip p))
      by (intros p Hp; apply HP; right; exact Hp).
    specialize (IH HPrest).
    destruct (truthy (strip para)) eqn:Hpara; cbn [negb].
    2:{ apply IH; assumption. }
    destruct (HP para (or_introl eq_refl) Hpara) as [Hfit1 Hfit2].
    set (q := strip para) in *.
    assert (Hflush : (max_words <? cwc + word_count q) && nonempty cc = false).
    { destruct cc as [|x cc]; [apply andb_false_r|].
      simpl. rewrite andb_true_r. apply Z.ltb_ge.
      assert (cwc < min_words) by (apply Hl; discriminate). lia. }
    rewrite Hflush. cbn [app].
    assert (Hcount : cwc + word_count q = words_total (cc ++ [q])).
    { rewrite words_total_app. simpl. lia. }
    destruct (min_words <=? cwc + word_count q) eqn:Hmin.
    + apply Z.leb_le in Hmin. apply all_but_last_cons.
      * rewrite word_count_join, <- Hcount. split; [exact Hmin|].
        destruct cc as [|x cc].
        -- simpl in Hc. lia.
        -- simpl in Hflush. rewrite andb_true_r in Hflush.
           apply Z.ltb_ge in Hflush. exact Hflush.
      * apply IH; [reflexivity | congruence].
    + apply Z.leb_gt in Hmin. apply IH; [exact Hcount | intros _; exact Hmin].
Qed.

Lemma paragraphs_of_in (text p : string) :
  In p (split_nn text) -> truthy (strip p) = true ->
  In (strip p) (paragraphs_of text).
Proof.
  intros Hp Ht. unfold paragraphs_of. apply filter_In. split; [|exact Ht].
  apply in_map. exact Hp.
Qed.

(** C1, as amended.  For every text and every pair of thresholds:
    a chunk emitted by [chunk_by_paragraph] has more than [max_words]
    words only when it is one paragraph of the text, emitted alone; a
    chunk that is not the last has fewer than [min_words] words only
    when it and the chunk after it have more than [max_words] words
    together; and when every paragraph fits (at most [max_words] and at
    most [max_words - min_words + 1] words), every chunk except
    possibly the last has a word count in [[min_words, max_words]]. *)
Theorem chunk_by_paragraph_bounds (text : string) (min_words max_words : Z) :
  let chunks := chunk_by_paragraph text min_words max_words in
  (forall c, In c chunks ->
             word_count c <= max_words \/ In c (paragraphs_of text))
  /\ (forall i c c',
        nth_error chunks i = Some c -> nth_error chunks (S i) = Some c' ->
        min_words <= word_count c
        \/ max_words < word_count c + word_count c')
  /\ ((forall p, In p (paragraphs_of text) -> fits min_words max_words p) ->
      in_range_except_last min_words max_words chunks).
Proof.
  unfold chunk_by_paragraph. cbv zeta.
  destruct (loop_spec min_words max_words (paragraphs_of text) (split_nn text)
              (paragraphs_of_in text) [] 0
              (invariant_nil min_words max_words (paragraphs_of text)))
    as (Hchain & Hall & _).
  split; [|split].
  - intros c Hc. rewrite Forall_forall in Hall. exact (Hall c Hc).
  - intros i c c' Hi Hi'. exact (chain_nth _ _ Hchain i c c' Hi Hi').
  - intros Hfit i c Hi Hlast.
    apply (all_but_last_nth
             (fun c => min_words <= word_count c <= max_words)
             (chunk_loop min_words max_words (split_nn text) [] 0))
      with (i := i); [|exact Hi|exact Hlast].
    apply loop_in_range; [|reflexivity|congruence].
    intros p Hp Ht. apply Hfit. apply paragraphs_of_in; assumption.
Qed.

(** Three short paragraphs that fit the thresholds 3 and 5. *)
Definition fitting_text : string :=
  "a b" ++ String LF (String LF ("c d" ++ String LF (String LF "e"))).

Lemma chunk_by_paragraph_bounds_witness :
  (forall p, In p (paragraphs_of fitting_text) -> fits 3 5 p)
  /\ in_range_except_last 3 5 (chunk_by_paragraph fitting_text 3 5).
Proof.
  assert (Hfit : forall p, In p (paragraphs_of fitting_text) -> fits 3 5 p).
  { intros p Hp. vm_compute in Hp.
    destruct Hp as [<-|[<-|[<-|[]]]]; vm_compute; split; discriminate. }
  split; [exact Hfit|].
  exact (proj2 (proj2 (chunk_by_paragraph_bounds fitting_text 3 5)) Hfit).
Defined.

(** Three paragraphs of two, six and one words, with the thresholds 3
    and 5: the first chunk is emitted with two words because the second
    paragraph would overflow, and the second paragraph is emitted alone
    with six words. *)
Definition overflowing_text : string :=
  "a b" ++ String LF (String LF ("c d e f g h" ++ String LF (String LF "i"))).

(** C1 as stated fails: with [min_words = 3 <= max_words = 5] the
    chunks are "a b", "c d e f g h" and "i"; the first has two words,
    the second six, and neither is the last. *)
Lemma chunk_by_paragraph_range_fails :
  3 <= 5
  /\ chunk_by_paragraph overflowing_text 3 5 = ["a b"; "c d e f g h"; "i"]
  /\ word_count "a b" = 2
  /\ word_count "c d e f g h" = 6
  /\ ~ in_range_except_last 3 5 (chunk_by_paragraph overflowing_text 3 5).
Proof.
  split; [lia|]. split; [reflexivity|]. split; [reflexivity|].
  split; [reflexivity|].
  intros H. specialize (H 0%nat "a b" eq_refl).
  assert (Hlen : (1 < List.length (chunk_by_paragraph overflowing_text 3 5))%nat)
    by (vm_compute; lia).
  destruct (H Hlen) as [Hlow _]. vm_compute in Hlow. apply Hlow. reflexivity.
Qed.

End ChunkProps.

(* ===================================================================== *)
(** ** Properties of the two taggers *)
(* ===================================================================== *)

Module TagProps.
Import Models TagRules TagOpenAI.

(** A score is in range when it is an integer from 1 to 10. *)
Definition score_in_range (v : json) : Prop :=
  exists n, v = JInt n /\ 1 <= n <= 10.

(** A passage as [process_work] builds it, before any tagging. *)
Definition untagged_passage (text : string) : Passage :=
  {| id := "meditations_000000000000";
     source := {| philosopher_id := MARCUS_AURELIUS; work_id := MEDITATIONS;
                  book := None; chapter := None; letter := None;
                  section := Some "1"; line_reference := None |};
     translation := {| translator := "Unknown"; year := 0;
                       source_url := EmptyString;
                       license := "Public Domain" |};
     text := text;
     text_normalized := None;
     tags := PassageTags_default;
     health_context := HealthContext_default;
     journey_context := {| stages := []; difficulty := BEGINNER |};
     metadata := {| quotability := JInt 5; actionability := JInt 5;
                    comfort := JInt 5;
                    word_count := PyStr.word_count text;
                    character_count := Z.of_nat (String.length text) |};
     embedding := None |}.

(** *** What [tag_passage] writes when it does not skip *)

Lemma tag_passage_skips (p : Passage) :
  is_boilerplate (text p) = true -> tag_passage p = p.
Proof. intros H. unfold tag_passage. rewrite H. reflexivity. Qed.

Lemma tag_passage_tags (p : Passage) :
  is_boilerplate (text p) = false ->
  tags (tag_passage p)
  = {| primary_concepts := firstn 3 (find_keywords (text p) CONCEPT_KEYWORDS);
       virtues := firstn 2 (find_keywords (text p) VIRTUE_KEYWORDS);
       practices := firstn 2 (find_keywords (text p) PRACTICE_KEYWORDS);
       situations := firstn 3 (find_keywords (text p) SITUATION_KEYWORDS);
       emotions := firstn 3 (find_keywords (text p) EMOTION_KEYWORDS) |}.
Proof. intros H. unfold tag_passage. rewrite H. reflexivity. Qed.

Lemma tag_passage_metadata (p : Passage) :
  is_boilerplate (text p) = false ->
  quotability (metadata (tag_passage p)) = JInt (assess_quotability (text p))
  /\ actionability (metadata (tag_passage p)) = JInt (assess_actionability (text p))
  /\ comfort (metadata (tag_passage p)) = JInt (assess_comfort (text p)).
Proof. intros H. unfold tag_passage. rewrite H. repeat split. Qed.

Lemma tag_passage_health_context (p : Passage) :
  is_boilerplate (text p) = false ->
  health_context (tag_passage p) = map_to_health_context (tags (tag_passage p)).
Proof. intros H. unfold tag_passage. rewrite H. reflexivity. Qed.

Lemma clamp_in_range (score : Z) : 1 <= Z.min 10 (Z.max 1 score) <= 10.
Proof. lia. Qed.

(** The caps on the tag lists and the range of the three scores. *)
Definition within_caps (p : Passage) : Prop :=
  (List.length (primary_concepts (tags p)) <= 3)%nat
  /\ (List.length (virtues (tags p)) <= 2)%nat
  /\ (List.length (practices (tags p)) <= 2)%nat
  /\ (List.length (situations (tags p)) <= 3)%nat
  /\ (List.length (emotions (tags p)) <= 3)%nat
  /\ score_in_range (quotability (metadata p))
  /\ score_in_range (actionability (metadata p))
  /\ score_in_range (comfort (metadata p)).

(** C9.  For every passage the rule-based tagger tags (one it does
    not skip as boiler plate), the tag lists respect the caps 3, 2, 2,
    3, 3 and the three scores are integers from 1 to 10.  A passage it
    skips keeps the lists and the scores it came with, so the bounds
    hold for it when they held before, as they do for a passage fresh
    from the segmentation. *)
Theorem tag_passage_caps_and_scores (p : Passage) :
  (is_boilerplate (text p) = false -> within_caps (tag_passage p))
  /\ (within_caps p -> within_caps (tag_passage p)).
Proof.
  assert (Htagged : is_boilerplate (text p) = false -> within_caps (tag_passage p)).
  { intros H. unfold within_caps.
    destruct (tag_passage_metadata p H) as (Hq & Ha & Hc).
    rewrite (tag_passage_tags p H), Hq, Ha, Hc. cbn [primary_concepts virtues
      practices situations emotions].
    repeat split; try apply firstn_le_length.
    - exists (assess_quotability (text p)). split; [reflexivity|].
      apply clamp_in_range.
    - exists (assess_actionability (text p)). split; [reflexivity|].
      apply clamp_in_range.
    - exists (assess_comfort (text p)). split; [reflexivity|].
      apply clamp_in_range. }
  split; [exact Htagged|].
  intros Hp. destruct (is_boilerplate (text p)) eqn:H.
  - rewrite (tag_passage_skips p H). exact Hp.
  - apply Htagged. reflexivity.
Qed.

(** The sentence of the scenario. *)
Definition scenario_text : string :=
  "It is not things that disturb us, but our judgments about things. When you are anxious, examine your judgment first.".

(** A line of the licence header, with words the keyword tables know. *)
Definition boilerplate_text : string :=
  "*** END OF THE PROJECT GUTENBERG EBOOK: do not fear death ***".

Lemma untagged_within_caps (text : string) : within_caps (untagged_passage text).
Proof.
  unfold within_caps. cbn.
  repeat split; try lia; exists 5; split; try reflexivity; lia.
Qed.

Lemma tag_passage_caps_and_scores_witness :
  is_boilerplate (text (untagged_passage scenario_text)) = false
  /\ within_caps (tag_passage (untagged_passage scenario_text))
  /\ within_caps (untagged_passage boilerplate_text)
  /\ within_caps (tag_passage (untagged_passage boilerplate_text)).
Proof.
  split; [reflexivity|].
  split; [exact (proj1 (tag_passage_caps_and_scores
                          (untagged_passage scenario_text)) eq_refl)|].
  split; [apply untagged_within_caps|].
  exact (proj2 (tag_passage_caps_and_scores (untagged_passage boilerplate_text))
           (untagged_within_caps boilerplate_text)).
Defined.

(** C10.  A passage whose text contains "Project Gutenberg", "START
    OF" or "END OF" comes back from [tag_passage] as it went in: tags,
    scores, journey context and health context are untouched. *)
Theorem tag_passage_boilerplate_unchanged (p : Passage) :
  contains "Project Gutenberg" (text p) = true
  \/ contains "START OF" (text p) = true
  \/ contains "END OF" (text p) = true ->
  tag_passage p = p.
Proof.
  intros H. apply tag_passage_skips. unfold is_boilerplate.
  destruct H as [H|[H|H]]; rewrite H.
  - reflexivity.
  - apply orb_true_iff. left. apply orb_true_r.
  - apply orb_true_r.
Qed.

Lemma tag_passage_boilerplate_unchanged_witness :
  contains "END OF" (text (untagged_passage boilerplate_text)) = true
  /\ tag_passage (untagged_passage boilerplate_text)
     = untagged_passage boilerplate_text
  /\ stress_levels (health_context (tag_passage (untagged_passage boilerplate_text)))
     = [].
Proof.
  assert (H : contains "END OF" (text (untagged_passage boilerplate_text)) = true)
    by reflexivity.
  pose proof (tag_passage_boilerplate_unchanged
                (untagged_passage boilerplate_text) (or_intror (or_intror H)))
    as Heq.
  split; [exact H|]. split; [exact Heq|]. rewrite Heq. reflexivity.
Defined.

(** *** The scenario of the specification *)

(** C5, as amended.  With [min_words = 5] and [max_words = 50] the
    chunker emits the sentence of the scenario as its only chunk, and
    the rule-based tagger gives any passage with that text the
    situations [difficult_people] and [anxiety] and no primary concept
    at all: no keyword of [dichotomy_of_control] (nor of any other
    concept) occurs in the sentence. *)
Theorem scenario_chunk_and_tags (p : Passage) :
  text p = scenario_text ->
  chunk_by_paragraph scenario_text 5 50 = [scenario_text]
  /\ situations (tags (tag_passage p)) = ["difficult_people"; "anxiety"]
  /\ In "anxiety" (situations (tags (tag_passage p)))
  /\ primary_concepts (tags (tag_passage p)) = []
  /\ existsb (fun keyword => contains (lower keyword) (lower scenario_text))
             (dict_get_default "dichotomy_of_control" [] CONCEPT_KEYWORDS)
     = false.
Proof.
  intros Htext.
  assert (Hskip : is_boilerplate (text p) = false)
    by (rewrite Htext; vm_compute; reflexivity).
  rewrite (tag_passage_tags p Hskip), Htext.
  cbn [situations primary_concepts].
  assert (Hs : firstn 3 (find_keywords scenario_text SITUATION_KEYWORDS)
               = ["difficult_people"; "anxiety"]) by (vm_compute; reflexivity).
  assert (Hc : firstn 3 (find_keywords scenario_text CONCEPT_KEYWORDS) = [])
    by (vm_compute; reflexivity).
  rewrite Hs, Hc.
  split; [vm_compute; reflexivity|].
  split; [reflexivity|].
  split; [right; left; reflexivity|].
  split; [reflexivity|].
  vm_compute; reflexivity.
Qed.

Lemma scenario_chunk_and_tags_witness :
  text (untagged_passage scenario_text) = scenario_text
  /\ primary_concepts (tags (tag_passage (untagged_passage scenario_text))) = [].
Proof.
  split; [reflexivity|].
  exact (proj1 (proj2 (proj2 (proj2
           (scenario_chunk_and_tags (untagged_passage scenario_text) eq_refl))))).
Defined.

(** C5 as stated fails: the chunk of the scenario is not tagged with
    the concept [dichotomy_of_control]; its list of primary concepts
    is empty. *)
Lemma scenario_not_dichotomy_of_control :
  chunk_by_paragraph scenario_text 5 50 = [scenario_text]
  /\ primary_concepts (tags (tag_passage (untagged_passage scenario_text))) = []
  /\ ~ In "dichotomy_of_control"
         (primary_concepts (tags (tag_passage (untagged_passage scenario_text)))).
Proof.
  assert (H : primary_concepts
                (tags (tag_passage (untagged_passage scenario_text))) = [])
    by (vm_compute; reflexivity).
  split; [vm_compute; reflexivity|]. split; [exact H|].
  rewrite H. intros [].
Qed.

(** *** The health context is not left empty *)

Lemma nodup_nonempty {A : Type} (eq_dec : forall a b : A, {a = b} + {a <> b})
      (l : list A) :
  l <> [] -> nodup eq_dec l <> [].
Proof.
  destruct l as [|x l]; [congruence|]. intros _ Hnil.
  assert (Hin : In x (nodup eq_dec (x :: l)))
    by (apply nodup_In; left; reflexivity).
  rewrite Hnil in Hin. exact Hin.
Qed.

Lemma default_nonempty {A : Type} (l d : list A) :
  d <> [] -> (if negb (nonempty l) then d else l) <> [].
Proof. intros Hd. destruct l; simpl; [exact Hd | discriminate]. Qed.

(** The mapping from tags to contexts never returns an empty field. *)
Lemma map_to_health_context_nonempty (t : PassageTags) :
  stress_levels (map_to_health_context t) <> []
  /\ times_of_day (map_to_health_context t) <> [].
Proof.
  unfold map_to_health_context, list_of_set. cbv zeta.
  cbn [stress_levels times_of_day].
  split; apply nodup_nonempty, default_nonempty; discriminate.
Qed.

(** A value of the provider names a member of an enumeration when it
    is the value of a member, or a list with such a string, or a dict
    with such a key. *)
Definition names_member {E : Type} (of_value : string -> option E) (v : json) : Prop :=
  match v with
  | JStr s => of_value s <> None
  | JList l => exists s, In (JStr s) l /\ of_value s <> None
  | JDict d => exists s, In s (dict_keys d) /\ of_value s <> None
  | _ => False
  end.

(** The entry of the provider's object is absent (the default applies)
    or names a member. *)
Definition entry_usable {E : Type} (of_value : string -> option E)
           (key : string) (tags : dict json) : Prop :=
  match dict_get key tags with
  | None => True
  | Some v => names_member of_value v
  end.

Lemma members_of_list_nonempty {E : Type} (of_value : string -> option E)
      (items : list json) :
  forall l, members_of_list of_value items = Returned l ->
            (exists s, In (JStr s) items /\ of_value s <> None) -> l <> [].
Proof.
  induction items as [|x items IH]; intros l Hl (s & Hin & Hs).
  - destruct Hin.
  - destruct x as [ | b | n | s' | l' | d']; cbn [members_of_list] in Hl;
      try discriminate;
      try (apply (IH l Hl); exists s; split; [|exact Hs];
           destruct Hin as [Hin|Hin]; [discriminate | exact Hin]).
    unfold bind in Hl.
    destruct (members_of_list of_value items) as [r|e] eqn:Hr; [|discriminate].
    injection Hl as <-.
    destruct (of_value s') eqn:Hs'; [discriminate|].
    apply (IH r eq_refl). exists s. split; [|exact Hs].
    destruct Hin as [Hin|Hin]; [|exact Hin].
    injection Hin as ->. congruence.
Qed.

Lemma members_nonempty {E : Type} (of_value : string -> option E) (v : json) :
  forall l, members of_value v = Returned l -> names_member of_value v -> l <> [].
Proof.
  intros l Hl Hv. destruct v as [ | b | n | s | items | d]; cbn [members] in Hl;
    try discriminate; cbn [names_member] in Hv;
    apply (members_of_list_nonempty of_value _ l Hl).
  - exists s. split; [left; reflexivity | exact Hv].
  - exact Hv.
  - destruct Hv as (s & Hin & Hs). exists s. split; [|exact Hs].
    unfold dict_keys in Hin. apply in_map_iff in Hin.
    destruct Hin as (kv & <- & Hkv). apply in_map_iff. exists kv. auto.
Qed.

Lemma entry_usable_default {E : Type} (of_value : string -> option E)
      (key : string) (default : json) (tags : dict json) :
  names_member of_value default -> entry_usable of_value key tags ->
  names_member of_value (dict_get_default key default tags).
Proof.
  unfold entry_usable, dict_get_default. destruct (dict_get key tags); auto.
Qed.

(** What [apply_tags] writes into the health context. *)
Lemma apply_tags_health_context (p p' : Passage) (tags : dict json) :
  nonempty tags = true -> apply_tags p tags = Returned p' ->
  exists stress times,
    members StressLevel_of_value
      (dict_get_default "stress_levels" (JList [JStr "normal"]) tags)
    = Returned stress
    /\ members TimeOfDay_of_value
         (dict_get_default "times_of_day" (JList [JStr "morning"]) tags)
       = Returned times
    /\ stress_levels (health_context p') = stress
    /\ times_of_day (health_context p') = times.
Proof.
  intros Hne H. unfold apply_tags in H. rewrite Hne in H. cbn [negb] in H.
  unfold bind in H.
  destruct (tag_list tags "primary_concepts" 3); [|discriminate].
  destruct (tag_list tags "virtues" 2); [|discriminate].
  destruct (tag_list tags "practices" 2); [|discriminate].
  destruct (tag_list tags "situations" 3); [|discriminate].
  destruct (tag_list tags "emotions" 3); [|discriminate].
  destruct (members StressLevel_of_value _) as [stress|]; [|discriminate].
  destruct (members TimeOfDay_of_value _) as [times|]; [|discriminate].
  destruct (difficulty_of _); [|discriminate].
  injection H as <-. exists stress, times. repeat split.
Qed.

(** C3, as amended.  The rule-based tagger leaves neither
    [stress_levels] nor [times_of_day] empty on a passage it does not
    skip as boiler plate.  The provider-based [apply_tags], given a
    non-empty object, leaves [stress_levels] (and likewise
    [times_of_day]) non-empty when the object has no such entry or the
    entry names at least one member of the enumeration. *)
Theorem health_context_nonempty_when_tagged :
  (forall p, is_boilerplate (text p) = false ->
             stress_levels (health_context (tag_passage p)) <> []
             /\ times_of_day (health_context (tag_passage p)) <> [])
  /\ (forall p tags p',
        nonempty tags = true -> apply_tags p tags = Returned p' ->
        (entry_usable StressLevel_of_value "stress_levels" tags ->
         stress_levels (health_context p') <> [])
        /\ (entry_usable TimeOfDay_of_value "times_of_day" tags ->
            times_of_day (health_context p') <> [])).
Proof.
  split.
  - intros p H. rewrite (tag_passage_health_context p H).
    apply map_to_health_context_nonempty.
  - intros p tags p' Hne H.
    destruct (apply_tags_health_context p p' tags Hne H)
      as (stress & times & Hs & Ht & -> & ->).
    split; intros Hentry.
    + apply (members_nonempty StressLevel_of_value _ stress Hs).
      apply entry_usable_default; [|exact Hentry].
      exists "normal". split; [left; reflexivity | discriminate].
    + apply (members_nonempty TimeOfDay_of_value _ times Ht).
      apply entry_usable_default; [|exact Hentry].
      exists "morning". split; [left; reflexivity | discriminate].
Qed.

(** An object of the provider with tags and no entry for the stress
    levels. *)
Definition provider_tags : dict json :=
  [ ("primary_concepts", JList [JStr "memento_mori"]);
    ("times_of_day", JStr "evening") ].

(** What [apply_tags] returns for that object. *)
Definition provider_tagged : Passage :=
  match apply_tags (untagged_passage scenario_text) provider_tags with
  | Returned p' => p'
  | Raised _ => untagged_passage scenario_text
  end.

Lemma health_context_nonempty_when_tagged_witness :
  (is_boilerplate (text (untagged_passage scenario_text)) = false
   /\ stress_levels
        (health_context (tag_passage (untagged_passage scenario_text))) <> [])
  /\ nonempty provider_tags = true
  /\ apply_tags (untagged_passage scenario_text) provider_tags
     = Returned provider_tagged
  /\ entry_usable StressLevel_of_value "stress_levels" provider_tags
  /\ entry_usable TimeOfDay_of_value "times_of_day" provider_tags
  /\ stress_levels (health_context provider_tagged) <> []
  /\ times_of_day (health_context provider_tagged) <> [].
Proof.
  assert (Happly : apply_tags (untagged_passage scenario_text) provider_tags
                   = Returned provider_tagged) by reflexivity.
  assert (Hstress : entry_usable StressLevel_of_value "stress_levels" provider_tags)
    by exact I.
  assert (Htimes : entry_usable TimeOfDay_of_value "times_of_day" provider_tags)
    by (vm_compute; discriminate).
  split.
  - split; [reflexivity|].
    exact (proj1 (proj1 health_context_nonempty_when_tagged
                    (untagged_passage scenario_text) eq_refl)).
  - split; [reflexivity|]. split; [exact Happly|].
    split; [exact Hstress|]. split; [exact Htimes|].
    destruct (proj2 health_context_nonempty_when_tagged
                (untagged_passage scenario_text) provider_tags provider_tagged
                eq_refl Happly) as [Hs Ht].
    split; [exact (Hs Hstress) | exact (Ht Htimes)].
Defined.

(** C3 as stated fails on both paths.  A passage fresh from the
    segmentation whose text is boiler plate comes back from
    [tag_passage] with both fields empty; and [apply_tags] writes an
    empty [stress_levels] when the provider sends none, and an empty
    [times_of_day] when it names no known time. *)
Lemma health_context_left_empty :
  (stress_levels (health_context (tag_passage (untagged_passage boilerplate_text)))
   = []
   /\ times_of_day (health_context (tag_passage (untagged_passage boilerplate_text)))
      = [])
  /\ exists p',
       apply_tags (untagged_passage scenario_text)
                  [ ("stress_levels", JList []); ("times_of_day", JStr "dusk") ]
       = Returned p'
       /\ stress_levels (health_context p') = []
       /\ times_of_day (health_context p') = [].
Proof.
  split; [split; vm_compute; reflexivity|].
  eexists. split; [vm_compute; reflexivity|].
  split; reflexivity.
Qed.

End TagProps.

(* ===================================================================== *)
(** ** Properties of the retrieval *)
(* ===================================================================== *)

Module RetrievalProps.
Import Api.

Section Endpoint.
Variable Embedding : Type.
Variable embeddings_create : string -> outcome Embedding.
Variable match_passages : Embedding -> outcome (option (list PassageRow)).

Let endpoint := get_contextual_quote Embedding embeddings_create match_passages.

(** [result.data or []] *)
Definition rows_of (data : option (list PassageRow)) : list PassageRow :=
  match data with Some rows => rows | None => [] end.

(** The endpoint, once the two collaborators have answered. *)
Lemma endpoint_after_search (request : QuoteRequest)
      (query_embedding : Embedding) (data : option (list PassageRow)) :
  embeddings_create (build_context_text request) = Returned query_embedding ->
  match_passages query_embedding = Returned data ->
  endpoint request
  = match firstn 5 (stress_filter request
                      (philosopher_filter request (rows_of data))) with
    | [] => Raised (HTTPException 500
                      ("Search error: "
                       ++ exn_str (HTTPException 404 "No matching quotes found")))
    | top :: _ => Returned (quote_response top)
    end.
Proof.
  intros He Hs. unfold endpoint, get_contextual_quote, search_and_select.
  rewrite He, Hs. fold (rows_of data).
  destruct (firstn 5 _); reflexivity.
Qed.

(** Every failure of the endpoint carries the status 500: the 404
    raised inside the [try] is caught by its own [except]. *)
Lemma endpoint_raises_only_500 (request : QuoteRequest) (e : exn) :
  endpoint request = Raised e -> exists detail, e = HTTPException 500 detail.
Proof.
  unfold endpoint, get_contextual_quote. intros H.
  destruct (embeddings_create _) as [emb|e0].
  - destruct (search_and_select _ _ _ _) as [r|e1]; [discriminate|].
    injection H as <-. eexists. reflexivity.
  - injection H as <-. eexists. reflexivity.
Qed.

(** C2, on the code: when the candidate set is empty after the
    search and the filters, the caller receives the status 500, not
    the 404 the endpoint raises for that case. *)
Theorem empty_candidates_answer_500 (request : QuoteRequest)
        (query_embedding : Embedding) (data : option (list PassageRow)) :
  embeddings_create (build_context_text request) = Returned query_embedding ->
  match_passages query_embedding = Returned data ->
  stress_filter request (philosopher_filter request (rows_of data)) = [] ->
  exists detail,
    endpoint request = Raised (HTTPException 500 detail)
    /\ forall detail', endpoint request <> Raised (HTTPException 404 detail').
Proof.
  intros He Hs Hempty.
  rewrite (endpoint_after_search request query_embedding data He Hs), Hempty.
  cbn [firstn]. eexists. split; [reflexivity|]. intros detail' H. discriminate.
Qed.

(** C4.  When the candidates that enter the stress filter are not
    empty and the filter would keep none of them, the filter is
    skipped: the endpoint answers with the first of those
    candidates, and so does not answer "not found". *)
Theorem stress_filter_falls_back (request : QuoteRequest)
        (query_embedding : Embedding) (data : option (list PassageRow)) :
  embeddings_create (build_context_text request) = Returned query_embedding ->
  match_passages query_embedding = Returned data ->
  let candidates := philosopher_filter request (rows_of data) in
  candidates <> [] ->
  filter (stress_pass request) candidates = [] ->
  stress_filter request candidates = candidates
  /\ exists top,
       hd_error candidates = Some top
       /\ In top candidates
       /\ endpoint request = Returned (quote_response top).
Proof.
  intros He Hs candidates Hne Hfilter.
  assert (Hskip : stress_filter request candidates = candidates).
  { unfold stress_filter. rewrite Hfilter. destruct candidates; reflexivity. }
  split; [exact Hskip|].
  rewrite (endpoint_after_search request query_embedding data He Hs).
  fold candidates. rewrite Hskip.
  destruct candidates as [|top rest]; [congruence|].
  exists top. split; [reflexivity|]. split; [left; reflexivity|]. reflexivity.
Qed.

End Endpoint.

(** A request of a highly stressed user in the evening. *)
Definition stressed_request : QuoteRequest :=
  {| context := {| heart_rate := None; hrv := None; stress_level := "high";
                   time_of_day := "evening"; is_active := false |};
     user_id := None; philosopher_id := None; query := None |}.

(** A stored passage whose tags mention neither "high" nor "normal". *)
Definition joyful_row : PassageRow :=
  {| row_id := "meditations_0a1b2c3d4e5f";
     row_text := "Dwell on the beauty of life.";
     row_philosopher_id := "marcus_aurelius";
     row_work_id := "meditations";
     row_tags := [ ("primary_concepts", JList [JStr "present_moment"]);
                   ("emotions", JList [JStr "joy"]) ];
     row_similarity := 3 # 10 |}.

(** An embedding provider and two searches for the examples. *)
Definition embed_ok (context_text : string) : outcome unit := Returned tt.
Definition search_nothing (e : unit) : outcome (option (list PassageRow)) :=
  Returned (Some []).
Definition search_joyful (e : unit) : outcome (option (list PassageRow)) :=
  Returned (Some [joyful_row]).

(** The failing input of C2: the search finds nothing, and the caller
    receives the status 500. *)
Lemma empty_candidates_answer_500_witness :
  get_contextual_quote unit embed_ok search_nothing stressed_request
  = Raised (HTTPException 500 "Search error: 404: No matching quotes found")
  /\ exists detail,
       get_contextual_quote unit embed_ok search_nothing stressed_request
       = Raised (HTTPException 500 detail)
       /\ forall detail',
            get_contextual_quote unit embed_ok search_nothing stressed_request
            <> Raised (HTTPException 404 detail').
Proof.
  split; [reflexivity|].
  exact (empty_candidates_answer_500 unit embed_ok search_nothing
           stressed_request tt (Some []) eq_refl eq_refl eq_refl).
Defined.

Lemma stress_filter_falls_back_witness :
  philosopher_filter stressed_request [joyful_row] <> []
  /\ filter (stress_pass stressed_request)
            (philosopher_filter stressed_request [joyful_row]) = []
  /\ exists top,
       hd_error (philosopher_filter stressed_request [joyful_row]) = Some top
       /\ In top (philosopher_filter stressed_request [joyful_row])
       /\ get_contextual_quote unit embed_ok search_joyful stressed_request
          = Returned (quote_response top).
Proof.
  assert (Hne : philosopher_filter stressed_request [joyful_row] <> [])
    by discriminate.
  assert (Hfilter : filter (stress_pass stressed_request)
                      (philosopher_filter stressed_request [joyful_row]) = [])
    by reflexivity.
  split; [exact Hne|]. split; [exact Hfilter|].
  exact (proj2 (stress_filter_falls_back unit embed_ok search_joyful
                  stressed_request tt (Some [joyful_row]) eq_refl eq_refl
                  Hne Hfilter)).
Defined.

End RetrievalProps.

(* ===================================================================== *)
(** ** Properties of the profile matching *)
(* ===================================================================== *)

Module MatchProps.
Import Api.

(** *** The score as the specification words it *)

(** The number of answers that contain a word of the criterion
    phrase, both taken in lower case. *)
Definition matching_answers (criterion : string) (answer_texts : list string) : Z :=
  Z.of_nat (List.length (filter (criterion_in (lower criterion)) answer_texts)).

(** That number, summed over the criterion phrases. *)
Definition total_matches (criteria answer_texts : list string) : Z :=
  fold_right (fun criterion acc => matching_answers criterion answer_texts + acc)
             0 criteria.

(** The number of criterion phrases, or 1 when there is none. *)
Definition criteria_count (criteria : list string) : Z :=
  if nonempty criteria then Z.of_nat (List.length criteria) else 1.

(** [min(1.0, S / N)] *)
Definition spec_score (criteria answer_texts : list string) : float :=
  Qmin 1 (inject_Z (total_matches criteria answer_texts)
          / inject_Z (criteria_count criteria)).

(** The answers as the request lists them, in lower case. *)
Definition answer_texts (answers : list OnboardingAnswer) : list string :=
  map (fun a => lower (answer a)) answers.

(** *** Dictionaries filled from a list with distinct keys *)

Lemma dict_set_fresh {V : Type} (k : string) (v : V) (d : dict V) :
  ~ In k (dict_keys d) -> dict_set k v d = (d ++ [(k, v)])%list.
Proof.
  induction d as [|[k' v'] d IH]; intros Hk; simpl; [reflexivity|].
  destruct (String.eqb k k') eqn:E.
  - apply String.eqb_eq in E. exfalso. apply Hk. left. symmetry. exact E.
  - rewrite IH; [reflexivity|]. intros Hin. apply Hk. right. exact Hin.
Qed.

Lemma fold_dict_set_distinct {A V : Type} (key : A -> string) (val : A -> V)
      (l : list A) :
  forall d : dict V,
    NoDup (map key l) ->
    (forall a, In a l -> ~ In (key a) (dict_keys d)) ->
    fold_left (fun d a => dict_set (key a) (val a) d) l d
    = (d ++ map (fun a => (key a, val a)) l)%list.
Proof.
  induction l as [|a l IH]; intros d Hnd Hd; simpl.
  - symmetry. apply app_nil_r.
  - inversion Hnd as [|? ? Ha Hl]; subst.
    rewrite dict_set_fresh by (apply Hd; left; reflexivity).
    rewrite IH; [rewrite <- app_assoc; reflexivity | exact Hl |].
    intros a' Ha' Hin. unfold dict_keys in Hin. rewrite map_app in Hin.
    apply in_app_or in Hin. destruct Hin as [Hin|[Hin|[]]].
    + exact (Hd a' (or_intror Ha') Hin).
    + simpl in Hin. apply Ha. rewrite Hin. apply in_map. exact Ha'.
Qed.

(** With distinct question ids the dictionary of the answers lists
    every answer, in the order of the request. *)
Lemma answer_map_distinct (answers : list OnboardingAnswer) :
  NoDup (map question_id answers) ->
  dict_values (answer_map answers) = answer_texts answers.
Proof.
  intros Hnd. unfold answer_map.
  rewrite (fold_dict_set_distinct question_id (fun a => lower (answer a))
             answers [] Hnd) by (intros a _ []).
  unfold dict_values, answer_texts. simpl. rewrite map_map. reflexivity.
Qed.

(** *** The two loops of [calculate_match_score] *)

Lemma inject_Z_succ (k : Z) : (inject_Z k + 1)%Q = inject_Z (k + 1).
Proof. unfold Qplus, inject_Z. simpl. f_equal. lia. Qed.

Lemma inner_loop_counts (f : string -> bool) (l : list string) :
  forall k,
    fold_left (fun score answer => if f answer then (score + 1)%Q else score)
              l (inject_Z k)
    = inject_Z (k + Z.of_nat (List.length (filter f l))).
Proof.
  induction l as [|a l IH]; intros k; simpl.
  - f_equal. lia.
  - destruct (f a).
    + rewrite inject_Z_succ, IH. f_equal. simpl List.length. lia.
    + apply IH.
Qed.

Lemma outer_loop_counts (texts : list string) (criteria : list string) :
  forall k,
    fold_left
      (fun score criterion =>
         fold_left
           (fun score answer =>
              if criterion_in (lower criterion) answer
              then (score + 1)%Q else score)
           texts score)
      criteria (inject_Z k)
    = inject_Z (k + total_matches criteria texts).
Proof.
  induction criteria as [|c criteria IH]; intros k; simpl.
  - f_equal. lia.
  - rewrite inner_loop_counts, IH. f_equal. unfold matching_answers. lia.
Qed.

(** The score the code computes, over the dictionary of the answers. *)
Lemma calculate_match_score_counts (p : Philosopher)
      (answers : list OnboardingAnswer) :
  calculate_match_score p answers
  = spec_score (criteria_of p) (dict_values (answer_map answers)).
Proof.
  unfold calculate_match_score, spec_score, criteria_count. cbv zeta.
  change 0%Q with (inject_Z 0).
  rewrite outer_loop_counts. reflexivity.
Qed.

Lemma calculate_match_score_distinct (p : Philosopher)
      (answers : list OnboardingAnswer) :
  NoDup (map question_id answers) ->
  calculate_match_score p answers
  = spec_score (criteria_of p) (answer_texts answers).
Proof.
  intros Hnd. rewrite calculate_match_score_counts, answer_map_distinct by exact Hnd.
  reflexivity.
Qed.

(** *** Counting does not depend on the order *)

Lemma filter_length_perm {A : Type} (f : A -> bool) (l l' : list A) :
  Permutation l l' -> List.length (filter f l) = List.length (filter f l').
Proof.
  induction 1 as [|x l l' _ IH|x y l|l l' l'' _ IH1 _ IH2]; simpl.
  - reflexivity.
  - destruct (f x); simpl; congruence.
  - destruct (f x), (f y); reflexivity.
  - congruence.
Qed.

Lemma total_matches_perm (criteria texts texts' : list string) :
  Permutation texts texts' ->
  total_matches criteria texts = total_matches criteria texts'.
Proof.
  intros Hp. induction criteria as [|c criteria IH]; simpl; [reflexivity|].
  unfold matching_answers. rewrite (filter_length_perm _ _ _ Hp), IH.
  reflexivity.
Qed.

(** *** Example data *)

Definition profile (id name : string) (criteria : list string) : Philosopher :=
  {| phil_id := id; phil_name := name;
     unlock_criteria := Some {| matching_criteria := Some criteria |} |}.

Definition marcus : Philosopher :=
  profile "marcus_aurelius" "Marcus Aurelius" ["justice and duty"; "leadership"].

Definition seneca : Philosopher :=
  profile "seneca" "Seneca" ["solitude"; "writing"].

Definition epictetus : Philosopher :=
  profile "epictetus" "Epictetus" ["duty"; "freedom"].

Definition team_answers : list OnboardingAnswer :=
  [ {| question_id := "values";
       answer := "I lead a team and value duty to others" |};
    {| question_id := "evenings"; answer := "Reading" |} ].

(** Two answers to one question. *)
Definition repeated_answers : list OnboardingAnswer :=
  [ {| question_id := "values"; answer := "Duty first" |};
    {| question_id := "values"; answer := "Time to rest" |} ].

Lemma team_answers_distinct : NoDup (map question_id team_answers).
Proof.
  repeat constructor; simpl; intuition discriminate.
Qed.

(** *** The score *)

(** C6, as amended.  [calculate_match_score] returns
    [min(1.0, S / N)] where [N] is the number of criterion phrases (1
    when there is none) and [S] sums, over the criterion phrases, the
    number of answers that contain a word of the phrase (both in lower
    case), the answers being taken one per question id: a later answer
    to a question replaces the earlier one.  When the question ids of
    the request are pairwise distinct, that is the count over all the
    answers of the request.  When no criterion matches, the score is
    0. *)
Theorem calculate_match_score_formula (p : Philosopher)
        (answers : list OnboardingAnswer) :
  calculate_match_score p answers
  = spec_score (criteria_of p) (dict_values (answer_map answers))
  /\ (NoDup (map question_id answers) ->
      calculate_match_score p answers
      = spec_score (criteria_of p) (answer_texts answers))
  /\ (total_matches (criteria_of p) (dict_values (answer_map answers)) = 0 ->
      (calculate_match_score p answers == 0)%Q).
Proof.
  split; [apply calculate_match_score_counts|].
  split; [apply calculate_match_score_distinct|].
  intros Hzero. rewrite calculate_match_score_counts. unfold spec_score.
  rewrite Hzero.
  assert (E : (inject_Z 0 / inject_Z (criteria_count (criteria_of p)) == 0)%Q)
    by (unfold Qdiv; apply Qmult_0_l).
  rewrite Q.min_r; [exact E|]. rewrite E. discriminate.
Qed.

Lemma calculate_match_score_formula_witness :
  NoDup (map question_id team_answers)
  /\ calculate_match_score marcus team_answers
     = spec_score (criteria_of marcus) (answer_texts team_answers)
  /\ total_matches (criteria_of seneca)
                   (dict_values (answer_map team_answers)) = 0
  /\ (calculate_match_score seneca team_answers == 0)%Q.
Proof.
  split; [exact team_answers_distinct|].
  split; [exact (proj1 (proj2 (calculate_match_score_formula marcus team_answers))
                   team_answers_distinct)|].
  split; [reflexivity|].
  exact (proj2 (proj2 (calculate_match_score_formula seneca team_answers)) eq_refl).
Defined.

(** C6 as stated fails: with two answers to one question, only the
    later one is counted.  The formula over the answers of the request
    gives 1 (one answer of two contains "duty", one "rest"; two
    phrases), the code returns 1/2. *)
Lemma calculate_match_score_counts_last_answer :
  let p := profile "seneca" "Seneca" ["duty"; "rest"] in
  (spec_score (criteria_of p) (answer_texts repeated_answers) == 1)%Q
  /\ (calculate_match_score p repeated_answers == 1 # 2)%Q
  /\ ~ (calculate_match_score p repeated_answers
        == spec_score (criteria_of p) (answer_texts repeated_answers))%Q.
Proof.
  cbv zeta. split; [vm_compute; reflexivity|]. split; [vm_compute; reflexivity|].
  vm_compute. discriminate.
Qed.

(** C8, as amended.  For answers with pairwise distinct question ids,
    the score of a profile does not change when the answers are
    permuted. *)
Theorem calculate_match_score_permutation (p : Philosopher)
        (answers answers' : list OnboardingAnswer) :
  NoDup (map question_id answers) ->
  Permutation answers answers' ->
  calculate_match_score p answers = calculate_match_score p answers'.
Proof.
  intros Hnd Hperm.
  assert (Hnd' : NoDup (map question_id answers'))
    by (apply (Permutation_NoDup (Permutation_map question_id Hperm)); exact Hnd).
  rewrite (calculate_match_score_distinct p answers Hnd),
          (calculate_match_score_distinct p answers' Hnd').
  unfold spec_score, answer_texts.
  rewrite (total_matches_perm (criteria_of p) _ _
             (Permutation_map (fun a => lower (answer a)) Hperm)).
  reflexivity.
Qed.

Lemma calculate_match_score_permutation_witness :
  NoDup (map question_id team_answers)
  /\ Permutation team_answers (rev team_answers)
  /\ calculate_match_score marcus team_answers
     = calculate_match_score marcus (rev team_answers).
Proof.
  split; [exact team_answers_distinct|].
  split; [apply Permutation_rev|].
  exact (calculate_match_score_permutation marcus team_answers (rev team_answers)
           team_answers_distinct (Permutation_rev team_answers)).
Defined.

(** C8 as stated fails: swapping two answers to one question changes
    which of them is counted, and with it the score. *)
Lemma calculate_match_score_order_matters :
  let p := profile "epictetus" "Epictetus" ["duty"] in
  Permutation repeated_answers (rev repeated_answers)
  /\ (calculate_match_score p repeated_answers == 0)%Q
  /\ (calculate_match_score p (rev repeated_answers) == 1)%Q
  /\ ~ (calculate_match_score p repeated_answers
        == calculate_match_score p (rev repeated_answers))%Q.
Proof.
  cbv zeta. split; [apply Permutation_rev|].
  split; [vm_compute; reflexivity|]. split; [vm_compute; reflexivity|].
  vm_compute. discriminate.
Qed.

(** *** The selection *)

Lemma float_ltb_lt (a b : float) : float_ltb a b = true <-> (a < b)%Q.
Proof.
  unfold float_ltb. rewrite Qlt_alt.
  destruct (a ?= b)%Q; split; intros H; congruence.
Qed.

Lemma float_ltb_ge (a b : float) : float_ltb a b = false -> (b <= a)%Q.
Proof.
  intros H. apply Qnot_lt_le. intros Hlt. apply float_ltb_lt in Hlt. congruence.
Qed.

(** One round of [max]: the key read replaces the best so far when
    its score is greater. *)
Definition better (best x : string * ScoreEntry) : string * ScoreEntry :=
  if float_ltb (score (snd best)) (score (snd x)) then x else best.

(** The loop of [max] returns the first entry that no entry beats:
    the entries before it have a smaller score, the entries after it
    a score that is not greater. *)
Lemma max_loop_first (rest : list (string * ScoreEntry)) :
  forall pre best mid,
    (forall e, In e pre -> (score (snd e) < score (snd best))%Q) ->
    (forall e, In e mid -> (score (snd e) <= score (snd best))%Q) ->
    exists pre' post',
      (pre ++ best :: mid ++ rest)%list
      = (pre' ++ fold_left better rest best :: post')%list
      /\ (forall e, In e pre' ->
                    (score (snd e) < score (snd (fold_left better rest best)))%Q)
      /\ (forall e, In e post' ->
                    (score (snd e) <= score (snd (fold_left better rest best)))%Q).
Proof.
  induction rest as [|x rest IH]; intros pre best mid Hpre Hmid; simpl.
  - exists pre, mid. rewrite app_nil_r. auto.
  - unfold better at 2 4 6. destruct (float_ltb _ _) eqn:Hlt.
    + apply float_ltb_lt in Hlt.
      destruct (IH (pre ++ best :: mid)%list x []) as (pre' & post' & Heq & H1 & H2).
      * intros e He. apply in_app_or in He. destruct He as [He|[<-|He]].
        -- eapply Qlt_trans; [apply Hpre; exact He | exact Hlt].
        -- exact Hlt.
        -- eapply Qle_lt_trans; [apply Hmid; exact He | exact Hlt].
      * intros e [].
      * exists pre', post'. split; [|split; assumption].
        rewrite <- Heq. rewrite <- app_assoc. reflexivity.
    + apply float_ltb_ge in Hlt.
      destruct (IH pre best (mid ++ [x])%list) as (pre' & post' & Heq & H1 & H2).
      * exact Hpre.
      * intros e He. apply in_app_or in He. destruct He as [He|[<-|[]]].
        -- apply Hmid. exact He.
        -- exact Hlt.
      * exists pre', post'. split; [|split; assumption].
        rewrite <- Heq. rewrite <- app_assoc. reflexivity.
Qed.

(** [max] over a dictionary of scores that is not empty. *)
Lemma max_by_score_first (scores : dict ScoreEntry) :
  scores <> [] ->
  exists pre best post,
    scores = (pre ++ best :: post)%list
    /\ max_by_score scores = Returned best
    /\ (forall e, In e pre -> (score (snd e) < score (snd best))%Q)
    /\ (forall e, In e post -> (score (snd e) <= score (snd best))%Q).
Proof.
  destruct scores as [|first rest]; [congruence|]. intros _.
  destruct (max_loop_first rest [] first []) as (pre & post & Heq & H1 & H2).
  - intros e [].
  - intros e [].
  - exists pre, (fold_left better rest first), post.
    split; [exact Heq|]. split; [reflexivity|]. split; assumption.
Qed.

(** The entry of a profile in the dictionary of scores. *)
Definition entry_of (answers : list OnboardingAnswer) (p : Philosopher)
  : string * ScoreEntry :=
  (phil_id p,
   {| score := calculate_match_score p answers;
      name := phil_name p;
      entry_unlock_criteria := unlock_criteria p |}).

(** With distinct ids the dictionary of scores lists the profiles in
    the order they were read. *)
Lemma score_all_distinct (philosophers : list Philosopher)
      (answers : list OnboardingAnswer) :
  NoDup (map phil_id philosophers) ->
  score_all philosophers answers = map (entry_of answers) philosophers.
Proof.
  intros Hnd. unfold score_all.
  rewrite (fold_dict_set_distinct phil_id
             (fun p => {| score := calculate_match_score p answers;
                          name := phil_name p;
                          entry_unlock_criteria := unlock_criteria p |})
             philosophers [] Hnd) by (intros a _ []).
  reflexivity.
Qed.

Lemma dict_set_nonempty {V : Type} (k : string) (v : V) (d : dict V) :
  dict_set k v d <> [].
Proof.
  destruct d as [|[k' v'] d]; simpl; [discriminate|].
  destruct (String.eqb k k'); discriminate.
Qed.

Lemma score_all_nonempty (philosophers : list Philosopher)
      (answers : list OnboardingAnswer) :
  philosophers <> [] -> score_all philosophers answers <> [].
Proof.
  unfold score_all. intros Hne.
  assert (Hfold : forall l (d : dict ScoreEntry),
             d <> [] ->
             fold_left
               (fun scores p =>
                  dict_set (phil_id p)
                    {| score := calculate_match_score p answers;
                       name := phil_name p;
                       entry_unlock_criteria := unlock_criteria p |}
                    scores) l d <> []).
  { induction l as [|q l IH]; intros d Hd; simpl; [exact Hd|].
    apply IH, dict_set_nonempty. }
  destruct philosophers as [|q l]; [congruence|]. cbn [fold_left].
  apply Hfold, dict_set_nonempty.
Qed.

(** C7.  The match step is a function of the ordered list of profiles
    and of the answers, so two runs on the same input select the same
    profile.  Whenever there is a profile, the step selects the first
    entry, in the order the dictionary of scores is iterated, whose
    score is the maximum: the entries before it have a smaller score,
    no entry after it has a greater one.  For profiles with pairwise
    distinct ids (the id is the key of the table of profiles) that order
    is the order of the input, and the profile selected is the first
    one of the input whose score is the maximum. *)
Theorem best_match_first_maximum (philosophers : list Philosopher)
        (answers : list OnboardingAnswer) :
  philosophers <> [] ->
  (exists pre best post,
      score_all philosophers answers = (pre ++ best :: post)%list
      /\ best_match philosophers answers = Returned best
      /\ (forall e, In e pre -> (score (snd e) < score (snd best))%Q)
      /\ (forall e, In e post -> (score (snd e) <= score (snd best))%Q))
  /\ (NoDup (map phil_id philosophers) ->
      exists pre p post,
        philosophers = (pre ++ p :: post)%list
        /\ best_match philosophers answers = Returned (entry_of answers p)
        /\ (forall q, In q pre ->
              (calculate_match_score q answers < calculate_match_score p answers)%Q)
        /\ (forall q, In q post ->
              (calculate_match_score q answers <= calculate_match_score p answers)%Q)).
Proof.
  intros Hne.
  destruct (max_by_score_first (score_all philosophers answers)
              (score_all_nonempty philosophers answers Hne))
    as (epre & best & epost & Heq & Hmax & H1 & H2).
  split.
  - exists epre, best, epost. repeat split; assumption.
  - intros Hnd. unfold best_match. rewrite Hmax.
    rewrite (score_all_distinct _ _ Hnd) in Heq.
    apply map_eq_app in Heq. destruct Heq as (pre & tl & -> & <- & Htl).
    apply map_eq_cons in Htl. destruct Htl as (p & post & -> & <- & <-).
    exists pre, p, post. split; [reflexivity|]. split; [reflexivity|].
    split; intros q Hq.
    + exact (H1 (entry_of answers q) (in_map _ _ _ Hq)).
    + exact (H2 (entry_of answers q) (in_map _ _ _ Hq)).
Qed.

(** With no profile at all, [max] raises and nothing is selected. *)
Lemma best_match_no_profiles (answers : list OnboardingAnswer) :
  best_match [] answers
  = Raised (OtherException "ValueError: max() arg is an empty sequence").
Proof. reflexivity. Qed.

(** Three profiles of which the first and the third tie on top. *)
Definition catalog : list Philosopher := [marcus; seneca; epictetus].

Lemma best_match_first_maximum_witness :
  NoDup (map phil_id catalog)
  /\ catalog <> []
  /\ (calculate_match_score marcus team_answers
      == calculate_match_score epictetus team_answers)%Q
  /\ best_match catalog team_answers = Returned (entry_of team_answers marcus)
  /\ exists pre p post,
       catalog = (pre ++ p :: post)%list
       /\ best_match catalog team_answers = Returned (entry_of team_answers p)
       /\ (forall q, In q pre ->
             (calculate_match_score q team_answers
              < calculate_match_score p team_answers)%Q)
       /\ (forall q, In q post ->
             (calculate_match_score q team_answers
              <= calculate_match_score p team_answers)%Q).
Proof.
  assert (Hnd : NoDup (map phil_id catalog))
    by (repeat constructor; simpl; intuition discriminate).
  assert (Hne : catalog <> []) by discriminate.
  split; [exact Hnd|]. split; [exact Hne|].
  split; [vm_compute; reflexivity|]. split; [vm_compute; reflexivity|].
  exact (proj2 (best_match_first_maximum catalog team_answers Hne) Hnd).
Defined.

End MatchProps.

(* ===================================================================== *)
(** ** More on the paragraph-merging loop *)
(* ===================================================================== *)

Module ChunkMore.
Import ChunkProps.

(** [strip] leaves the empty string or a string that starts with a
    character that is not white space. *)
Definition starts_solid (s : string) : Prop :=
  match s with
  | EmptyString => False
  | String c _ => is_space c = false
  end.

Lemma lstrip_solid (s : string) : lstrip s = EmptyString \/ starts_solid (lstrip s).
Proof.
  induction s as [|c s IH]; simpl; [left; reflexivity|].
  destruct (is_space c) eqn:E; [exact IH|]. right. exact E.
Qed.

Lemma rstrip_solid (s : string) : starts_solid s -> starts_solid (rstrip s).
Proof.
  destruct s as [|c s]; simpl; [tauto|]. intros E.
  destruct (rstrip s); [rewrite E|]; exact E.
Qed.

Lemma strip_solid (s : string) : truthy (strip s) = true -> starts_solid (strip s).
Proof.
  unfold strip. intros H. destruct (lstrip_solid s) as [E|E].
  - rewrite E in H. discriminate.
  - apply rstrip_solid. exact E.
Qed.

Lemma words_from_pending (s cur : string) :
  truthy cur = true -> words_from cur s <> [].
Proof.
  revert cur. induction s as [|c s IH]; intros cur H; simpl.
  - rewrite H. discriminate.
  - destruct (is_space c).
    + rewrite H. discriminate.
    + apply IH. destruct cur; reflexivity.
Qed.

(** A string that starts with a solid character has a word. *)
Lemma solid_has_word (s : string) : starts_solid s -> 1 <= word_count s.
Proof.
  destruct s as [|c s]; simpl; [tauto|]. intros E.
  unfold word_count, split_ws. simpl. rewrite E.
  pose proof (words_from_pending s (String c EmptyString) eq_refl) as H.
  destruct (words_from (String c EmptyString) s); [congruence|].
  simpl List.length. lia.
Qed.

Lemma paragraph_has_word (text p : string) :
  In p (paragraphs_of text) -> 1 <= word_count p.
Proof.
  unfold paragraphs_of. intros H. apply filter_In in H. destruct H as [H Ht].
  apply in_map_iff in H. destruct H as (p0 & <- & _).
  apply solid_has_word, strip_solid. exact Ht.
Qed.

(** The words of a joined chunk are the words of its paragraphs. *)
Lemma split_ws_join (l : list string) :
  split_ws (join " " l) = flat_map split_ws l.
Proof.
  induction l as [|x [|y r] IH].
  - reflexivity.
  - simpl. symmetry. apply app_nil_r.
  - change (join " " (x :: y :: r)) with (x ++ String " " (join " " (y :: r))).
    unfold split_ws at 1. rewrite words_from_app_space by reflexivity.
    fold (split_ws x). fold (split_ws (join " " (y :: r))). rewrite IH.
    reflexivity.
Qed.

(** The loop cuts the sequence of paragraphs into groups and joins each
    group; [current_chunk] is the beginning of the first group. *)
Lemma loop_groups (min_words max_words : Z) (paragraphs : list string) :
  forall current_chunk current_word_count,
  exists groups,
    chunk_loop min_words max_words paragraphs current_chunk current_word_count
    = map (join " ") groups
    /\ concat groups
       = (current_chunk ++ filter truthy (map strip paragraphs))%list
    /\ Forall (fun g => g <> []) groups.
Proof.
  induction paragraphs as [|para rest IH]; intros cc cwc; cbn [chunk_loop].
  - destruct cc as [|x cc]; simpl.
    + exists []. repeat split. constructor.
    + exists [x :: cc]. simpl. rewrite !app_nil_r. repeat split.
      constructor; [discriminate | constructor].
  - cbn [map filter]. destruct (truthy (strip para)) eqn:Hpara; cbn [negb].
    2:{ apply IH. }
    set (q := strip para).
    destruct ((max_words <? cwc + word_count q) && nonempty cc) eqn:Hflush.
    + apply andb_true_iff in Hflush. destruct Hflush as [_ Hne].
      apply nonempty_true in Hne. cbn [app].
      destruct (min_words <=? 0 + word_count q).
      * destruct (IH [] 0) as (groups & Hout & Hcat & Hall).
        exists (cc :: [q] :: groups). cbn [map concat]. rewrite Hout, Hcat.
        repeat split. repeat constructor; [exact Hne | discriminate | exact Hall].
      * destruct (IH [q] (0 + word_count q)) as (groups & Hout & Hcat & Hall).
        exists (cc :: groups). cbn [map concat]. rewrite Hout, Hcat.
        repeat split. constructor; [exact Hne | exact Hall].
    + cbn [app]. destruct (min_words <=? cwc + word_count q).
      * destruct (IH [] 0) as (groups & Hout & Hcat & Hall).
        exists ((cc ++ [q])%list :: groups). cbn [map concat]. rewrite Hout, Hcat.
        rewrite <- app_assoc. repeat split.
        constructor; [destruct cc; discriminate | exact Hall].
      * destruct (IH (cc ++ [q])%list (cwc + word_count q))
          as (groups & Hout & Hcat & Hall).
        exists groups. rewrite Hout, Hcat, <- app_assoc. repeat split. exact Hall.
Qed.

(** X1.  [chunk_by_paragraph] never splits, drops, repeats or reorders a
    paragraph: it cuts the sequence of the non-blank paragraphs of the
    text into consecutive non-empty groups and emits each group joined
    by single spaces; so the words of the chunks, read in order, are the
    words of the paragraphs. *)
Theorem chunk_by_paragraph_groups (text : string) (min_words max_words : Z) :
  exists groups,
    chunk_by_paragraph text min_words max_words = map (join " ") groups
    /\ concat groups = paragraphs_of text
    /\ Forall (fun g => g <> []) groups
    /\ flat_map split_ws (chunk_by_paragraph text min_words max_words)
       = flat_map split_ws (paragraphs_of text).
Proof.
  unfold chunk_by_paragraph, paragraphs_of.
  destruct (loop_groups min_words max_words (split_nn text) [] 0)
    as (groups & Hout & Hcat & Hall).
  exists groups. split; [exact Hout|]. split; [exact Hcat|]. split; [exact Hall|].
  rewrite Hout. simpl in Hcat. rewrite <- Hcat.
  clear. induction groups as [|g groups IH]; simpl; [reflexivity|].
  rewrite split_ws_join, IH, flat_map_app. reflexivity.
Qed.

Lemma words_total_positive (text : string) (g : list string) :
  g <> [] -> (forall p, In p g -> In p (paragraphs_of text)) -> 1 <= words_total g.
Proof.
  destruct g as [|p g]; [congruence|]. intros _ Hin. simpl.
  pose proof (paragraph_has_word text p (Hin p (or_introl eq_refl))).
  pose proof (words_total_nonneg g). lia.
Qed.

(** X2.  Every chunk emitted by [chunk_by_paragraph] has at least one
    word, and no chunk at all is emitted exactly when the text has no
    paragraph other than blank ones (in particular for the empty
    text). *)
Theorem chunk_by_paragraph_no_empty_chunk (text : string) (min_words max_words : Z) :
  Forall (fun c => 1 <= word_count c) (chunk_by_paragraph text min_words max_words)
  /\ (chunk_by_paragraph text min_words max_words = [] <-> paragraphs_of text = []).
Proof.
  unfold chunk_by_paragraph.
  destruct (loop_groups min_words max_words (split_nn text) [] 0)
    as (groups & Hout & Hcat & Hall).
  simpl in Hcat. fold (paragraphs_of text) in Hcat. rewrite Hout. split.
  - apply Forall_forall. intros c Hc. apply in_map_iff in Hc.
    destruct Hc as (g & <- & Hg). rewrite word_count_join.
    apply (words_total_positive text).
    + rewrite Forall_forall in Hall. exact (Hall g Hg).
    + intros p Hp. rewrite <- Hcat. apply in_concat. exists g. auto.
  - split; intros H.
    + destruct groups; [|discriminate]. rewrite <- Hcat. reflexivity.
    + destruct groups as [|g groups]; [reflexivity|]. exfalso.
      inversion Hall as [|? ? Hg _]; subst. destruct g; [congruence|].
      rewrite H in Hcat. discriminate.
Qed.

Lemma loop_singletons (min_words max_words : Z) (paragraphs : list string) :
  min_words <= 1 ->
  chunk_loop min_words max_words paragraphs [] 0
  = filter truthy (map strip paragraphs).
Proof.
  intros Hmin. induction paragraphs as [|para rest IH]; cbn [chunk_loop];
    [reflexivity|].
  cbn [map filter nonempty]. destruct (truthy (strip para)) eqn:Hpara; cbn [negb].
  2:{ exact IH. }
  rewrite andb_false_r. cbn [app].
  pose proof (solid_has_word _ (strip_solid para Hpara)) as Hw.
  destruct (min_words <=? 0 + word_count (strip para)) eqn:E.
  - rewrite IH. reflexivity.
  - apply Z.leb_gt in E. lia.
Qed.

(** X3.  With a minimum of one word or less, [chunk_by_paragraph] merges
    nothing: the chunks are the non-blank paragraphs of the text, each
    stripped, whatever the maximum is. *)
Theorem chunk_by_paragraph_min_one (text : string) (min_words max_words : Z) :
  min_words <= 1 ->
  chunk_by_paragraph text min_words max_words = paragraphs_of text.
Proof.
  intros Hmin. unfold chunk_by_paragraph, paragraphs_of.
  apply loop_singletons. exact Hmin.
Qed.

Lemma chunk_by_paragraph_min_one_witness :
  1 <= 1
  /\ chunk_by_paragraph overflowing_text 1 5 = paragraphs_of overflowing_text.
Proof.
  split; [lia|]. apply chunk_by_paragraph_min_one. lia.
Defined.

End ChunkMore.

(* ===================================================================== *)
(** ** [models.py]: the taxonomy constants *)
(* ===================================================================== *)

Module Taxonomy.

Definition PRIMARY_CONCEPTS : list string :=
  ["dichotomy_of_control"; "inner_citadel"; "premeditatio_malorum";
   "memento_mori"; "amor_fati"; "prosoche"; "view_from_above";
   "living_according_to_nature"; "preferred_indifferents"; "cosmopolitanism";
   "impermanence"; "present_moment"].

Definition VIRTUES : list string :=
  ["wisdom"; "courage"; "justice"; "temperance"].

Definition PRACTICES : list string :=
  ["negative_visualization"; "morning_reflection"; "evening_review";
   "journaling"; "self_examination"; "voluntary_discomfort"].

Definition SITUATIONS : list string :=
  ["difficult_people"; "anger_management"; "anxiety"; "grief"; "failure";
   "success"; "leadership"; "relationships"; "health_challenges";
   "career_transition"; "time_management"; "finding_purpose";
   "ethical_dilemma"; "feeling_trapped"; "overwhelm"].

Definition EMOTIONS : list string :=
  ["anger"; "fear"; "anxiety"; "grief"; "joy"; "frustration"; "envy";
   "regret"; "hope"; "peace"].

End Taxonomy.

(* ===================================================================== *)
(** ** More on the rule-based tagger *)
(* ===================================================================== *)

Module TagMore.
Import Models TagRules TagProps Taxonomy.

(** *** Strings: concatenation and occurrence *)

Lemma str_app_assoc (a b c : string) : ((a ++ b) ++ c = a ++ (b ++ c))%string.
Proof. induction a as [|x a IH]; simpl; [reflexivity | rewrite IH; reflexivity]. Qed.

Lemma strip_prefix_app (p s r : string) :
  strip_prefix p s = Some r <-> s = (p ++ r)%string.
Proof.
  revert s. induction p as [|a p IH]; intros s; simpl.
  - split; intros H; congruence.
  - destruct s as [|b s]; [split; intros H; discriminate|].
    destruct (Ascii.eqb a b) eqn:E.
    + apply Ascii.eqb_eq in E. subst b. rewrite IH. split; intros H; congruence.
    + apply Ascii.eqb_neq in E. split; intros H; [discriminate|].
      injection H as H1 H2. congruence.
Qed.

(** [needle in hay] holds exactly when [hay] is some text, the needle,
    and some more text. *)
Lemma contains_app (needle hay : string) :
  contains needle hay = true
  <-> exists before after, hay = (before ++ needle ++ after)%string.
Proof.
  induction hay as [|c hay IH]; simpl.
  - unfold startswith. split.
    + intros H. rewrite orb_false_r in H.
      destruct (strip_prefix needle EmptyString) as [r|] eqn:E; [|discriminate].
      apply strip_prefix_app in E. exists EmptyString, r. exact E.
    + intros (before & after & H). rewrite orb_false_r.
      destruct before; [|discriminate]. simpl in H.
      apply (proj2 (strip_prefix_app needle EmptyString after)) in H.
      rewrite H. reflexivity.
  - rewrite orb_true_iff, IH. unfold startswith. split.
    + intros [H|(before & after & H)].
      * destruct (strip_prefix needle (String c hay)) as [r|] eqn:E; [|discriminate].
        apply strip_prefix_app in E. exists EmptyString, r. exact E.
      * exists (String c before), after. simpl. rewrite H. reflexivity.
    + intros (before & after & H). destruct before as [|b before].
      * left. simpl in H.
        apply (proj2 (strip_prefix_app needle (String c hay) after)) in H.
        rewrite H. reflexivity.
      * right. simpl in H. injection H as _ H. exists before, after. exact H.
Qed.

Lemma contains_trans (a b c : string) :
  contains a b = true -> contains b c = true -> contains a c = true.
Proof.
  rewrite !contains_app. intros (p1 & q1 & ->) (p2 & q2 & ->).
  exists (p2 ++ p1)%string, (q1 ++ q2)%string.
  rewrite !str_app_assoc. reflexivity.
Qed.

Lemma lower_app (a b : string) : lower (a ++ b) = (lower a ++ lower b)%string.
Proof. induction a as [|x a IH]; simpl; [reflexivity | rewrite IH; reflexivity]. Qed.

Lemma contains_lower (a b : string) :
  contains a b = true -> contains (lower a) (lower b) = true.
Proof.
  rewrite !contains_app. intros (p & q & ->).
  exists (lower p), (lower q). rewrite !lower_app. reflexivity.
Qed.



(** *** [find_keywords] *)

(** Some keyword of the list occurs in the text, case apart. *)
Definition keyword_occurs (text : string) (keywords : list string) : bool :=
  existsb (fun keyword => contains (lower keyword) (lower text)) keywords.

Lemma find_keywords_filter (text : string) (d : dict (list string)) :
  find_keywords text d
  = map fst (filter (fun entry => keyword_occurs text (snd entry)) d).
Proof.
  unfold find_keywords, keyword_occurs.
  induction d as [|[category keywords] d IH]; simpl; [reflexivity|].
  destruct (existsb _ keywords); simpl; rewrite IH; reflexivity.
Qed.

Lemma NoDup_map_filter {A B : Type} (f : A -> B) (g : A -> bool) (l : list A) :
  NoDup (map f l) -> NoDup (map f (filter g l)).
Proof.
  induction l as [|x l IH]; simpl; intros H; [constructor|].
  inversion H as [|? ? Hx Hl]; subst. destruct (g x); simpl; [|auto].
  constructor; [|auto]. intros Hin. apply Hx.
  apply in_map_iff in Hin. destruct Hin as (y & Hy & Hin).
  apply filter_In in Hin. apply in_map_iff. exists y. tauto.
Qed.

Lemma NoDup_firstn {A : Type} (n : nat) (l : list A) : NoDup l -> NoDup (firstn n l).
Proof.
  revert n. induction l as [|x l IH]; intros [|n] H; simpl; try constructor.
  - inversion H as [|? ? Hx Hl]; subst. intros Hin. apply Hx.
    rewrite <- (firstn_skipn n l). apply in_or_app. left. exact Hin.
  - inversion H; subst. auto.
Qed.

Lemma In_firstn {A : Type} (n : nat) (l : list A) (x : A) :
  In x (firstn n l) -> In x l.
Proof.
  intros H. rewrite <- (firstn_skipn n l). apply in_or_app. left. exact H.
Qed.



(** X5.  Matching is by substring, so a text has every category that a
    text occurring inside it has: the categories found in an excerpt
    are found in the whole. *)
Theorem find_keywords_monotone (excerpt text : string) (d : dict (list string)) :
  contains excerpt text = true ->
  incl (find_keywords excerpt d) (find_keywords text d).
Proof.
  intros Hsub category. rewrite !find_keywords_filter, !in_map_iff.
  intros (entry & Hc & Hin). exists entry. split; [exact Hc|].
  apply filter_In in Hin. destruct Hin as [Hin Hocc]. apply filter_In.
  split; [exact Hin|]. unfold keyword_occurs in *.
  apply existsb_exists in Hocc. destruct Hocc as (kw & Hkw & Hc').
  apply existsb_exists. exists kw. split; [exact Hkw|].
  apply (contains_trans _ (lower excerpt)); [exact Hc'|].
  apply contains_lower. exact Hsub.
Qed.

Lemma find_keywords_monotone_witness :
  contains "judgments" scenario_text = true
  /\ incl (find_keywords "judgments" SITUATION_KEYWORDS)
          (find_keywords scenario_text SITUATION_KEYWORDS)
  /\ In "difficult_people" (find_keywords "judgments" SITUATION_KEYWORDS).
Proof.
  split; [reflexivity|].
  split; [exact (find_keywords_monotone "judgments" scenario_text
                   SITUATION_KEYWORDS eq_refl)|].
  left. reflexivity.
Defined.

(** *** [tag_passage] *)

Lemma keys_in (keys taxonomy : list string) :
  forallb (fun k => str_in k taxonomy) keys = true ->
  forall k, In k keys -> In k taxonomy.
Proof.
  intros H k Hk. rewrite forallb_forall in H. specialize (H k Hk).
  unfold str_in in H. apply existsb_exists in H. destruct H as (x & Hx & E).
  apply String.eqb_eq in E. subst x. exact Hx.
Qed.

Definition valid_tags (l taxonomy : list string) : Prop :=
  NoDup l /\ forall tag, In tag l -> In tag taxonomy.

Ltac string_nodup :=
  repeat constructor; simpl; intuition discriminate.

(** X6.  The tags the rule-based tagger assigns are values of the
    taxonomy of [models.py], each at most once in its list: the primary
    concepts are among [PRIMARY_CONCEPTS], the virtues among [VIRTUES],
    the practices among [PRACTICES], the situations among [SITUATIONS]
    and the emotions among [EMOTIONS]. *)
Theorem tag_passage_tags_in_taxonomy (p : Passage) :
  is_boilerplate (text p) = false ->
  valid_tags (primary_concepts (tags (tag_passage p))) PRIMARY_CONCEPTS
  /\ valid_tags (virtues (tags (tag_passage p))) VIRTUES
  /\ valid_tags (practices (tags (tag_passage p))) PRACTICES
  /\ valid_tags (situations (tags (tag_passage p))) SITUATIONS
  /\ valid_tags (emotions (tags (tag_passage p))) EMOTIONS.
Proof.
  intros H. rewrite (tag_passage_tags p H).
  cbn [primary_concepts virtues practices situations emotions].
  repeat split;
    try (apply NoDup_firstn; rewrite find_keywords_filter;
         apply NoDup_map_filter; string_nodup);
    intros tag Htag;
    apply In_firstn in Htag; rewrite find_keywords_filter in Htag;
    apply in_map_iff in Htag; destruct Htag as (entry & <- & Hin);
    apply filter_In in Hin; destruct Hin as [Hin _];
    apply (in_map fst) in Hin.
  - revert Hin. apply (keys_in (dict_keys CONCEPT_KEYWORDS)). reflexivity.
  - revert Hin. apply (keys_in (dict_keys VIRTUE_KEYWORDS)). reflexivity.
  - revert Hin. apply (keys_in (dict_keys PRACTICE_KEYWORDS)). reflexivity.
  - revert Hin. apply (keys_in (dict_keys SITUATION_KEYWORDS)). reflexivity.
  - revert Hin. apply (keys_in (dict_keys EMOTION_KEYWORDS)). reflexivity.
Qed.

Lemma tag_passage_tags_in_taxonomy_witness :
  is_boilerplate (text (untagged_passage scenario_text)) = false
  /\ valid_tags (situations (tags (tag_passage (untagged_passage scenario_text))))
                SITUATIONS.
Proof.
  split; [reflexivity|].
  exact (proj1 (proj2 (proj2 (proj2
           (tag_passage_tags_in_taxonomy (untagged_passage scenario_text)
              eq_refl))))).
Defined.

Lemma tag_passage_text (p : Passage) : text (tag_passage p) = text p.
Proof.
  unfold tag_passage. destruct (is_boilerplate (text p)); reflexivity.
Qed.

(** X7.  Tagging with the rules is idempotent, and it touches only the
    tags, the three scores and the two contexts: tagging a tagged
    passage again changes nothing, and the id, the source, the
    translation, the text, the normalised text, the word and character
    counts and the embedding of a passage are never changed. *)
Theorem tag_passage_idempotent_frame (p : Passage) :
  tag_passage (tag_passage p) = tag_passage p
  /\ id (tag_passage p) = id p
  /\ source (tag_passage p) = source p
  /\ translation (tag_passage p) = translation p
  /\ text (tag_passage p) = text p
  /\ text_normalized (tag_passage p) = text_normalized p
  /\ word_count (metadata (tag_passage p)) = word_count (metadata p)
  /\ character_count (metadata (tag_passage p)) = character_count (metadata p)
  /\ embedding (tag_passage p) = embedding p.
Proof.
  split.
  - destruct (is_boilerplate (text p)) eqn:H.
    + rewrite (tag_passage_skips p H). apply tag_passage_skips. exact H.
    + unfold tag_passage at 1. rewrite tag_passage_text, H.
      unfold tag_passage. rewrite H. reflexivity.
  - unfold tag_passage. destruct (is_boilerplate (text p)); repeat split.
Qed.

(** *** The scores *)

Lemma action_loop_grows (text_lower : string) (words : list string) :
  forall score,
    score <= fold_left (fun score word =>
                          if contains word text_lower then score + 1 else score)
                       words score.
Proof.
  induction words as [|w words IH]; intros score; simpl; [lia|].
  destruct (contains w text_lower).
  - specialize (IH (score + 1)). lia.
  - apply IH.
Qed.

(** X8.  The clamp of the quotability never fires: the score is
    between 3 and 9 for every text.  The actionability only ever goes up
    from its base: it is between 5 and 10. *)
Theorem score_ranges (text : string) :
  3 <= assess_quotability text <= 9
  /\ 5 <= assess_actionability text <= 10.
Proof.
  split.
  - unfold assess_quotability. cbv zeta.
    destruct (PyStr.word_count text <? 50), (PyStr.word_count text <? 100),
      (200 <? PyStr.word_count text), (existsb _ advice_patterns),
      (contains "?" text); lia.
  - unfold assess_actionability. cbv zeta.
    match goal with
    | |- context [fold_left ?f ?l 5] =>
        pose proof (action_loop_grows (lower text) l 5) as H
    end.
    cbv beta in H. lia.
Qed.

(** *** The health context *)

Ltac shape_case :=
  cbn; repeat split;
  try (repeat constructor; simpl; intuition discriminate);
  try (intros; simpl in *; intuition (try discriminate; try congruence; auto)).

(** X9.  The health context that [map_to_health_context] builds lists
    every stress level and every time of day at most once and never an
    activity state; [normal] is there only alone, as the default;
    [elevated] and [high] come together; [midday] is there only in the
    default, with [morning] and [evening] and without [night]; and
    [night] is there exactly for a passage tagged [memento_mori]. *)
Theorem map_to_health_context_shape (t : PassageTags) :
  NoDup (stress_levels (map_to_health_context t))
  /\ NoDup (times_of_day (map_to_health_context t))
  /\ activity_states (map_to_health_context t) = []
  /\ (In NORMAL (stress_levels (map_to_health_context t)) ->
      forall level, In level (stress_levels (map_to_health_context t)) ->
                    level = NORMAL)
  /\ (In ELEVATED (stress_levels (map_to_health_context t))
      <-> In HIGH (stress_levels (map_to_health_context t)))
  /\ (In MIDDAY (times_of_day (map_to_health_context t)) ->
      In MORNING (times_of_day (map_to_health_context t))
      /\ In EVENING (times_of_day (map_to_health_context t))
      /\ ~ In NIGHT (times_of_day (map_to_health_context t)))
  /\ (In NIGHT (times_of_day (map_to_health_context t))
      <-> str_in "memento_mori" (primary_concepts t) = true).
Proof.
  unfold map_to_health_context, list_of_set. cbv zeta.
  cbn [stress_levels times_of_day activity_states].
  destruct (any_in _ (emotions t)), (any_in _ (situations t)),
    (str_in "peace" (emotions t) || str_in "acceptance" (primary_concepts t)),
    (str_in "morning_reflection" (practices t)),
    (str_in "evening_review" (practices t)),
    (str_in "memento_mori" (primary_concepts t)),
    (any_in _ (primary_concepts t)); shape_case.
Qed.

Lemma not_in_keys (tag : string) (n : nat) (text : string) (d : dict (list string)) :
  str_in tag (dict_keys d) = false ->
  str_in tag (firstn n (find_keywords text d)) = false.
Proof.
  intros Hkey. destruct (str_in tag (firstn n _)) eqn:E; [|reflexivity].
  unfold str_in in E. apply existsb_exists in E. destruct E as (x & Hx & E).
  apply String.eqb_eq in E. subst x. apply In_firstn in Hx.
  rewrite find_keywords_filter in Hx. apply in_map_iff in Hx.
  destruct Hx as (entry & <- & Hin). apply filter_In in Hin.
  assert (Hk : str_in (fst entry) (dict_keys d) = true).
  { unfold str_in. apply existsb_exists. exists (fst entry).
    split; [apply in_map; tauto | apply String.eqb_refl]. }
  congruence.
Qed.

Lemma map_to_health_context_shape_witness :
  In NORMAL (stress_levels (map_to_health_context PassageTags_default))
  /\ Forall (fun level => level = NORMAL)
            (stress_levels (map_to_health_context PassageTags_default)).
Proof.
  split; [left; reflexivity|].
  apply Forall_forall.
  apply (proj1 (proj2 (proj2 (proj2
           (map_to_health_context_shape PassageTags_default))))).
  left. reflexivity.
Defined.

(** X10.  For a passage tagged by the rules, [low] is among the stress
    levels exactly when [peace] is among the emotions: the other test of
    that branch, for a primary concept [acceptance], can never hold,
    because no table has that category. *)
Theorem tag_passage_low_stress (p : Passage) :
  is_boilerplate (text p) = false ->
  str_in "acceptance" (primary_concepts (tags (tag_passage p))) = false
  /\ (In LOW (stress_levels (health_context (tag_passage p)))
      <-> str_in "peace" (emotions (tags (tag_passage p))) = true).
Proof.
  intros H.
  assert (Hacc : str_in "acceptance" (primary_concepts (tags (tag_passage p)))
                 = false).
  { rewrite (tag_passage_tags p H). cbn [primary_concepts].
    apply not_in_keys. reflexivity. }
  split; [exact Hacc|].
  rewrite (tag_passage_health_context p H).
  unfold map_to_health_context, list_of_set. cbv zeta. cbn [stress_levels].
  rewrite Hacc, orb_false_r.
  destruct (any_in _ (emotions _)), (any_in _ (situations _)),
    (str_in "peace" (emotions _)); cbn; intuition discriminate.
Qed.

Lemma tag_passage_low_stress_witness :
  is_boilerplate (text (untagged_passage "Accept what comes, and be at peace."))
  = false
  /\ In LOW (stress_levels (health_context
        (tag_passage (untagged_passage "Accept what comes, and be at peace.")))).
Proof.
  split; [reflexivity|].
  apply (proj2 (tag_passage_low_stress
                  (untagged_passage "Accept what comes, and be at peace.")
                  eq_refl)).
  reflexivity.
Defined.

(** *** [tag_all_passages] *)

(** [bool(tags.primary_concepts or tags.situations or tags.emotions)] *)
Definition has_tags (p : Passage) : bool :=
  nonempty (primary_concepts (tags p)) || nonempty (situations (tags p))
  || nonempty (emotions (tags p)).

(** The loop of [tag_all_passages]: the list [tagged] and the counter
    [skipped]. *)
Definition tag_all_passages (passages : list Passage) : list Passage * Z :=
  fold_left
    (fun '(tagged, skipped) passage =>
       let tagged_passage := tag_passage passage in
       let skipped := if negb (has_tags tagged_passage)
                      then skipped + 1 else skipped in
       ((tagged ++ [tagged_passage])%list, skipped))
    passages ([], 0).

Lemma tag_all_loop (passages : list Passage) :
  forall tagged skipped,
    fold_left
      (fun '(tagged, skipped) passage =>
         let tagged_passage := tag_passage passage in
         let skipped := if negb (has_tags tagged_passage)
                        then skipped + 1 else skipped in
         ((tagged ++ [tagged_passage])%list, skipped))
      passages (tagged, skipped)
    = ((tagged ++ map tag_passage passages)%list,
       skipped
       + Z.of_nat (List.length
                     (filter (fun p => negb (has_tags (tag_passage p))) passages))).
Proof.
  induction passages as [|p passages IH]; intros tagged skipped; simpl.
  - rewrite app_nil_r. f_equal. lia.
  - rewrite IH, <- app_assoc. destruct (has_tags (tag_passage p)); simpl;
      f_equal; lia.
Qed.

(** X11.  [tag_all_passages] returns one tagged passage for each passage
    it was given, in the same order, and keeps all of them, also the
    ones no keyword matched; the number it reports as skipped is the
    number of passages left without concept, situation and emotion, and
    is at most the number of passages. *)
Theorem tag_all_passages_spec (passages : list Passage) :
  fst (tag_all_passages passages) = map tag_passage passages
  /\ List.length (fst (tag_all_passages passages)) = List.length passages
  /\ snd (tag_all_passages passages)
     = Z.of_nat (List.length
                   (filter (fun p => negb (has_tags (tag_passage p))) passages))
  /\ 0 <= snd (tag_all_passages passages) <= Z.of_nat (List.length passages).
Proof.
  unfold tag_all_passages. rewrite tag_all_loop. cbn [fst snd app].
  split; [reflexivity|]. split; [apply length_map|]. split; [lia|].
  pose proof (filter_length_le (fun p => negb (has_tags (tag_passage p))) passages).
  lia.
Qed.

End TagMore.

(* ===================================================================== *)
(** ** More on [apply_tags] *)
(* ===================================================================== *)

Module ApplyMore.
Import Models TagOpenAI TagProps.

Lemma validate_str_list_length (l : list json) :
  forall r, validate_str_list l = Returned r -> List.length r = List.length l.
Proof.
  induction l as [|x l IH]; intros r H; simpl in H.
  - injection H as <-. reflexivity.
  - destruct x; try discriminate. unfold bind in H.
    destruct (validate_str_list l) as [r0|]; [|discriminate].
    injection H as <-. simpl. rewrite (IH r0 eq_refl). reflexivity.
Qed.

Lemma tag_list_capped (tags : dict json) (key : string) (cap : nat) (l : list string) :
  tag_list tags key cap = Returned l -> (List.length l <= cap)%nat.
Proof.
  unfold tag_list. destruct (dict_get_default key (JList []) tags); try discriminate.
  intros H. rewrite (validate_str_list_length _ _ H). apply firstn_le_length.
Qed.

(** X12.  When [apply_tags] is given a non-empty object and returns, the
    five tag lists of the passage respect the caps 3, 2, 2, 3, 3; the
    three scores are the values the provider sent (5 where it sent
    none), stored as they are, without a check of type or range; no
    activity state is set; and the id, the source, the translation, the
    text, the normalised text, the two counts and the embedding are
    those of the passage given. *)
Theorem apply_tags_result (p p' : Passage) (tags : dict json) :
  nonempty tags = true -> apply_tags p tags = Returned p' ->
  ((List.length (primary_concepts (Models.tags p')) <= 3)%nat
   /\ (List.length (virtues (Models.tags p')) <= 2)%nat
   /\ (List.length (practices (Models.tags p')) <= 2)%nat
   /\ (List.length (situations (Models.tags p')) <= 3)%nat
   /\ (List.length (emotions (Models.tags p')) <= 3)%nat)
  /\ (quotability (metadata p') = dict_get_default "quotability" (JInt 5) tags
      /\ actionability (metadata p')
         = dict_get_default "actionability" (JInt 5) tags
      /\ comfort (metadata p') = dict_get_default "comfort" (JInt 5) tags)
  /\ activity_states (health_context p') = []
  /\ (id p' = id p /\ source p' = source p /\ translation p' = translation p
      /\ text p' = text p /\ text_normalized p' = text_normalized p
      /\ word_count (metadata p') = word_count (metadata p)
      /\ character_count (metadata p') = character_count (metadata p)
      /\ embedding p' = embedding p).
Proof.
  intros Hne H. unfold apply_tags in H. rewrite Hne in H. cbn [negb] in H.
  unfold bind in H.
  destruct (tag_list tags "primary_concepts" 3) eqn:H1; [|discriminate].
  destruct (tag_list tags "virtues" 2) eqn:H2; [|discriminate].
  destruct (tag_list tags "practices" 2) eqn:H3; [|discriminate].
  destruct (tag_list tags "situations" 3) eqn:H4; [|discriminate].
  destruct (tag_list tags "emotions" 3) eqn:H5; [|discriminate].
  destruct (members StressLevel_of_value _); [|discriminate].
  destruct (members TimeOfDay_of_value _); [|discriminate].
  destruct (difficulty_of _); [|discriminate].
  injection H as <-. cbn.
  apply tag_list_capped in H1, H2, H3, H4, H5.
  repeat split; assumption.
Qed.

(** An object of the provider with a score out of range. *)
Definition eager_tags : dict json :=
  [ ("primary_concepts", JList [JStr "amor_fati"; JStr "memento_mori";
                                JStr "impermanence"; JStr "prosoche"]);
    ("quotability", JInt 15);
    ("difficulty", JStr "expert") ].

Definition eager_tagged : Passage :=
  match apply_tags (untagged_passage scenario_text) eager_tags with
  | Returned p' => p'
  | Raised _ => untagged_passage scenario_text
  end.

Lemma apply_tags_result_witness :
  nonempty eager_tags = true
  /\ apply_tags (untagged_passage scenario_text) eager_tags = Returned eager_tagged
  /\ (List.length (primary_concepts (Models.tags eager_tagged)) <= 3)%nat
  /\ quotability (metadata eager_tagged) = JInt 15
  /\ text eager_tagged = scenario_text.
Proof.
  assert (H : apply_tags (untagged_passage scenario_text) eager_tags
              = Returned eager_tagged) by reflexivity.
  pose proof (apply_tags_result (untagged_passage scenario_text) eager_tagged
                eager_tags eq_refl H) as (Hcaps & Hscores & _ & Hframe).
  split; [reflexivity|]. split; [exact H|].
  split; [exact (proj1 Hcaps)|]. split; [exact (proj1 Hscores)|].
  exact (proj1 (proj2 (proj2 (proj2 Hframe)))).
Defined.

(** X13.  When the provider names a difficulty that is none of
    "beginner", "intermediate" and "advanced", [apply_tags] stores the
    difficulty [BEGINNER] together with the stage [BUILDING_HABITS],
    the stage of a passage that is not for beginners. *)
Theorem apply_tags_unknown_difficulty (p p' : Passage) (tags : dict json)
        (s : string) :
  nonempty tags = true -> apply_tags p tags = Returned p' ->
  dict_get "difficulty" tags = Some (JStr s) ->
  Difficulty_of_value s = None ->
  difficulty (journey_context p') = BEGINNER
  /\ stages (journey_context p') = [BUILDING_HABITS].
Proof.
  intros Hne H Hd Hs. unfold apply_tags in H. rewrite Hne in H. cbn [negb] in H.
  unfold bind in H.
  destruct (tag_list tags "primary_concepts" 3); [|discriminate].
  destruct (tag_list tags "virtues" 2); [|discriminate].
  destruct (tag_list tags "practices" 2); [|discriminate].
  destruct (tag_list tags "situations" 3); [|discriminate].
  destruct (tag_list tags "emotions" 3); [|discriminate].
  destruct (members StressLevel_of_value _); [|discriminate].
  destruct (members TimeOfDay_of_value _); [|discriminate].
  unfold dict_get_default in H at 1 2. rewrite Hd in H.
  cbn [difficulty_of json_eq_str] in H. rewrite Hs in H.
  assert (Hb : String.eqb s "beginner" = false).
  { destruct (String.eqb s "beginner") eqn:E; [|reflexivity].
    apply String.eqb_eq in E. subst s. discriminate. }
  rewrite Hb in H. injection H as <-. split; reflexivity.
Qed.

Lemma apply_tags_unknown_difficulty_witness :
  nonempty eager_tags = true
  /\ apply_tags (untagged_passage scenario_text) eager_tags = Returned eager_tagged
  /\ dict_get "difficulty" eager_tags = Some (JStr "expert")
  /\ Difficulty_of_value "expert" = None
  /\ difficulty (journey_context eager_tagged) = BEGINNER
  /\ stages (journey_context eager_tagged) = [BUILDING_HABITS].
Proof.
  assert (H : apply_tags (untagged_passage scenario_text) eager_tags
              = Returned eager_tagged) by reflexivity.
  split; [reflexivity|]. split; [exact H|]. split; [reflexivity|].
  split; [reflexivity|].
  exact (apply_tags_unknown_difficulty (untagged_passage scenario_text)
           eager_tagged eager_tags "expert" eq_refl H eq_refl eq_refl).
Defined.

End ApplyMore.

(* ===================================================================== *)
(** ** More on the profile matching *)
(* ===================================================================== *)

Module MatchMore.
Import Api MatchProps.

(** *** Lookup and update of a dictionary *)

Lemma dict_get_set_same {V : Type} (k : string) (v : V) (d : dict V) :
  dict_get k (dict_set k v d) = Some v.
Proof.
  induction d as [|[k' v'] d IH]; simpl.
  - rewrite String.eqb_refl. reflexivity.
  - destruct (String.eqb k k') eqn:E; simpl.
    + rewrite String.eqb_refl. reflexivity.
    + rewrite E. exact IH.
Qed.

Lemma dict_get_set_other {V : Type} (k k' : string) (v : V) (d : dict V) :
  k <> k' -> dict_get k' (dict_set k v d) = dict_get k' d.
Proof.
  intros Hk. induction d as [|[k0 v0] d IH]; simpl.
  - apply String.eqb_neq in Hk. rewrite String.eqb_sym, Hk. reflexivity.
  - destruct (String.eqb k k0) eqn:E; simpl.
    + apply String.eqb_eq in E. subst k0.
      apply String.eqb_neq in Hk. rewrite String.eqb_sym, Hk. reflexivity.
    + rewrite IH. reflexivity.
Qed.

Lemma dict_set_keys {V : Type} (k : string) (v : V) (d : dict V) :
  (forall k', In k' (dict_keys (dict_set k v d)) <-> k' = k \/ In k' (dict_keys d))
  /\ (NoDup (dict_keys d) -> NoDup (dict_keys (dict_set k v d))).
Proof.
  induction d as [|[k0 v0] d [IH1 IH2]]; simpl.
  - split; [intros k'; intuition | intros _; repeat constructor; intros []].
  - destruct (String.eqb k k0) eqn:E; simpl.
    + apply String.eqb_eq in E. subst k0. split; [intros k'; intuition | auto].
    + split.
      * intros k'. fold (dict_keys (dict_set k v d)). rewrite IH1. intuition.
      * intros Hnd. inversion Hnd as [|? ? Hk0 Hd]; subst.
        constructor; [|apply IH2; exact Hd].
        fold (dict_keys (dict_set k v d)). rewrite IH1. intros [->|Hin].
        -- rewrite String.eqb_refl in E. discriminate.
        -- exact (Hk0 Hin).
Qed.

Lemma dict_set_entries {V : Type} (k : string) (v : V) (d : dict V) (e : string * V) :
  In e (dict_set k v d) -> e = (k, v) \/ In e d.
Proof.
  induction d as [|[k0 v0] d IH]; simpl.
  - intuition.
  - destruct (String.eqb k k0); simpl; intuition.
Qed.

Section FilledFromList.
Variables A V : Type.
Variable key : A -> string.
Variable val : A -> V.

Let fill (d : dict V) (l : list A) : dict V :=
  fold_left (fun d a => dict_set (key a) (val a) d) l d.

Lemma fill_keys (l : list A) :
  forall d,
    (forall k, In k (dict_keys (fill d l))
               <-> In k (dict_keys d) \/ In k (map key l))
    /\ (NoDup (dict_keys d) -> NoDup (dict_keys (fill d l))).
Proof.
  unfold fill. induction l as [|a l IH]; intros d; simpl.
  - split; [intros k; intuition | auto].
  - destruct (IH (dict_set (key a) (val a) d)) as [IH1 IH2].
    destruct (dict_set_keys (key a) (val a) d) as [S1 S2]. split.
    + intros k. rewrite IH1, S1. intuition.
    + intros Hnd. apply IH2, S2. exact Hnd.
Qed.

Lemma fill_entries (l : list A) :
  forall d e, In e (fill d l) -> In e d \/ exists a, In a l /\ e = (key a, val a).
Proof.
  unfold fill. induction l as [|a l IH]; intros d e H; simpl in H.
  - left. exact H.
  - destruct (IH _ _ H) as [Hin|(b & Hb & He)].
    + destruct (dict_set_entries _ _ _ _ Hin) as [->|Hd].
      * right. exists a. split; [left; reflexivity | reflexivity].
      * left. exact Hd.
    + right. exists b. split; [right; exact Hb | exact He].
Qed.

Lemma fill_untouched (l : list A) (k : string) :
  (forall a, In a l -> key a <> k) ->
  forall d, dict_get k (fill d l) = dict_get k d.
Proof.
  unfold fill. induction l as [|a l IH]; intros Hl d; simpl; [reflexivity|].
  rewrite IH by (intros b Hb; apply Hl; right; exact Hb).
  apply dict_get_set_other. apply Hl. left. reflexivity.
Qed.

Lemma fill_last_wins (l1 l2 : list A) (a : A) (d : dict V) :
  (forall b, In b l2 -> key b <> key a) ->
  dict_get (key a) (fill d (l1 ++ a :: l2)) = Some (val a).
Proof.
  intros Hl2. unfold fill. rewrite fold_left_app. simpl.
  pose proof (fill_untouched l2 (key a) Hl2) as H. unfold fill in H.
  rewrite H. apply dict_get_set_same.
Qed.

End FilledFromList.

(** X14.  The dictionary of the answers has one entry for each question
    id of the request and no id twice; it maps a question id to the
    lower-cased text of the last answer given for it. *)
Theorem answer_map_last_wins (answers : list OnboardingAnswer) :
  NoDup (dict_keys (answer_map answers))
  /\ (forall k, In k (dict_keys (answer_map answers))
                <-> In k (map question_id answers))
  /\ (forall before a after,
         answers = (before ++ a :: after)%list ->
         (forall b, In b after -> question_id b <> question_id a) ->
         dict_get (question_id a) (answer_map answers) = Some (lower (answer a))).
Proof.
  unfold answer_map.
  destruct (fill_keys _ _ question_id (fun a => lower (answer a)) answers [])
    as [K1 K2].
  split; [apply K2; constructor|]. split.
  - intros k. rewrite K1. simpl. intuition.
  - intros before a after -> Hafter.
    apply (fill_last_wins _ _ question_id (fun a => lower (answer a))).
    exact Hafter.
Qed.

Lemma answer_map_last_wins_witness :
  repeated_answers
  = ([{| question_id := "values"; answer := "Duty first" |}]
       ++ {| question_id := "values"; answer := "Time to rest" |} :: [])%list
  /\ dict_get "values" (answer_map repeated_answers) = Some "time to rest".
Proof.
  split; [reflexivity|].
  exact (proj2 (proj2 (answer_map_last_wins repeated_answers))
           [{| question_id := "values"; answer := "Duty first" |}]
           {| question_id := "values"; answer := "Time to rest" |} []
           eq_refl (fun b (H : In b []) => match H with end)).
Defined.

(** *** The value of the score *)

Lemma total_matches_nonneg (criteria texts : list string) :
  0 <= total_matches criteria texts.
Proof.
  induction criteria as [|c criteria IH]; simpl; [lia|].
  unfold matching_answers. lia.
Qed.

Lemma criteria_count_positive (criteria : list string) :
  1 <= criteria_count criteria.
Proof.
  unfold criteria_count. destruct criteria; simpl nonempty; cbv iota; [lia|].
  simpl List.length. lia.
Qed.

(** The quotient of two integers as a fraction. *)
Lemma score_fraction (S N : Z) :
  1 <= N -> (inject_Z S / inject_Z N == S # Z.to_pos N)%Q.
Proof.
  intros HN. destruct N as [|n|n]; try lia. simpl Z.to_pos.
  symmetry. apply Qmake_Qdiv.
Qed.

Lemma min_one_fraction (S : Z) (n : positive) :
  (0 <= S -> (0 <= Qmin 1 (S # n) <= 1)%Q)
  /\ ((Qmin 1 (S # n) == 0)%Q <-> S = 0)
  /\ ((Qmin 1 (S # n) == 1)%Q <-> Z.pos n <= S).
Proof.
  unfold Qmin, GenericMinMax.gmin.
  destruct (1 ?= S # n)%Q eqn:E.
  - apply Qeq_alt in E. unfold Qeq in E. simpl in E.
    split; [intros _; split; discriminate|].
    split; unfold Qeq; simpl; lia.
  - apply Qlt_alt in E. unfold Qlt in E. simpl in E.
    split; [intros _; split; discriminate|].
    split; unfold Qeq; simpl; lia.
  - apply Qgt_alt in E. unfold Qlt in E. simpl in E.
    split; [intros HS; split; unfold Qle; simpl; lia|].
    split; unfold Qeq; simpl; lia.
Qed.

(** X15.  The score of a profile is a number from 0 to 1.  It is 0
    exactly when no criterion phrase matches any answer, and 1 exactly
    when the matches, counted over all phrases and answers, are at least
    as many as the phrases: one phrase that matches two answers makes up
    for a phrase that matches none. *)
Theorem calculate_match_score_range (p : Philosopher)
        (answers : list OnboardingAnswer) :
  let S := total_matches (criteria_of p) (dict_values (answer_map answers)) in
  let N := criteria_count (criteria_of p) in
  (0 <= calculate_match_score p answers <= 1)%Q
  /\ ((calculate_match_score p answers == 0)%Q <-> S = 0)
  /\ ((calculate_match_score p answers == 1)%Q <-> N <= S).
Proof.
  intros S N. rewrite calculate_match_score_counts. unfold spec_score.
  fold S N.
  pose proof (total_matches_nonneg (criteria_of p)
                (dict_values (answer_map answers))) as HS. fold S in HS.
  pose proof (criteria_count_positive (criteria_of p)) as HN. fold N in HN.
  rewrite (score_fraction S N HN).
  destruct (min_one_fraction S (Z.to_pos N)) as (H1 & H2 & H3).
  split; [exact (H1 HS)|]. split.
  - exact H2.
  - rewrite H3. rewrite Z2Pos.id by lia. reflexivity.
Qed.

(** *** The whole match *)

Lemma best_match_entry (philosophers : list Philosopher)
      (answers : list OnboardingAnswer) (e : string * ScoreEntry) :
  best_match philosophers answers = Returned e ->
  exists p, In p philosophers /\ e = entry_of answers p.
Proof.
  unfold best_match. intros H.
  assert (Hin : In e (score_all philosophers answers)).
  { destruct (score_all philosophers answers) as [|first rest] eqn:Hs;
      [discriminate|].
    destruct (max_by_score_first (first :: rest)) as (pre & b & post & Heq & Hb & _);
      [discriminate|].
    rewrite Hb in H. injection H as <-. rewrite Heq.
    apply in_or_app. right. left. reflexivity. }
  unfold score_all in Hin.
  destruct (fill_entries _ _ phil_id
              (fun p => {| score := calculate_match_score p answers;
                           name := phil_name p;
                           entry_unlock_criteria := unlock_criteria p |})
              philosophers [] e Hin) as [[]|(p & Hp & He)].
  exists p. split; [exact Hp | exact He].
Qed.

(** X16.  When [match_philosopher] returns, its answer describes one
    profile of the table: the id and the name are those of that
    profile, the confidence is its score, the reason is the one
    generated for its id, and the same id was written to the profile of
    the user.  With an empty table the endpoint does not return: [max]
    raises on the empty dictionary of scores. *)
Theorem match_philosopher_result
        (philosophers_table : outcome (list Philosopher))
        (generate_match_reason : string -> list OnboardingAnswer -> string)
        (upsert_user_profile :
           string -> string -> list OnboardingAnswer -> outcome unit)
        (request : MatchRequest) :
  (forall philosophers response,
      philosophers_table = Returned philosophers ->
      match_philosopher philosophers_table generate_match_reason
                        upsert_user_profile request = Returned response ->
      exists p,
        In p philosophers
        /\ matched_philosopher_id response = phil_id p
        /\ philosopher_name response = phil_name p
        /\ confidence response = calculate_match_score p (answers request)
        /\ match_reason response
           = generate_match_reason (phil_id p) (answers request)
        /\ upsert_user_profile (match_user_id request) (phil_id p)
                               (answers request) = Returned tt)
  /\ (philosophers_table = Returned [] ->
      match_philosopher philosophers_table generate_match_reason
                        upsert_user_profile request
      = Raised (OtherException "ValueError: max() arg is an empty sequence")).
Proof.
  split.
  - intros philosophers response Ht H. unfold match_philosopher in H.
    rewrite Ht in H.
    destruct (best_match philosophers (answers request)) as [[best_id best]|]
      eqn:Hbest; [|discriminate].
    destruct (best_match_entry _ _ _ Hbest) as (p & Hp & He).
    injection He as -> ->.
    destruct (upsert_user_profile _ _ _) as [[]|] eqn:Hup; [|discriminate].
    injection H as <-. exists p. cbn. repeat split; assumption.
  - intros Ht. unfold match_philosopher. rewrite Ht. reflexivity.
Qed.

Lemma match_philosopher_result_witness :
  let request := {| match_user_id := "user-1"; answers := team_answers |} in
  let reason := fun (best_id : string) (_ : list OnboardingAnswer) => best_id in
  let upsert := fun (_ _ : string) (_ : list OnboardingAnswer) => Returned tt in
  match_philosopher (Returned catalog) reason upsert request
  = Returned {| matched_philosopher_id := "marcus_aurelius";
                philosopher_name := "Marcus Aurelius";
                match_reason := "marcus_aurelius";
                confidence := calculate_match_score marcus team_answers |}
  /\ exists p,
       In p catalog
       /\ phil_id p = "marcus_aurelius"
       /\ calculate_match_score p team_answers
          = calculate_match_score marcus team_answers.
Proof.
  cbv zeta.
  assert (H : match_philosopher (Returned catalog)
                (fun best_id _ => best_id) (fun _ _ _ => Returned tt)
                {| match_user_id := "user-1"; answers := team_answers |}
              = Returned {| matched_philosopher_id := "marcus_aurelius";
                            philosopher_name := "Marcus Aurelius";
                            match_reason := "marcus_aurelius";
                            confidence :=
                              calculate_match_score marcus team_answers |})
    by (vm_compute; reflexivity).
  split; [exact H|].
  destruct (proj1 (match_philosopher_result (Returned catalog)
                     (fun best_id _ => best_id) (fun _ _ _ => Returned tt)
                     {| match_user_id := "user-1"; answers := team_answers |})
              catalog _ eq_refl H) as (p & Hp & Hid & _ & Hc & _).
  exists p. split; [exact Hp|]. split; [symmetry; exact Hid|].
  symmetry. exact Hc.
Defined.

End MatchMore.

(* ===================================================================== *)
(** ** More on the retrieval *)
(* ===================================================================== *)

Module RetrievalMore.
Import Api RetrievalProps.

(** A row the request can be answered with: any row when no philosopher
    is asked for, a row of that philosopher otherwise. *)
Definition eligible (request : QuoteRequest) (m : PassageRow) : bool :=
  if truthy_opt (philosopher_id request) then from_philosopher request m else true.

(** A row the endpoint prefers: an eligible row that passes the stress
    test, or any eligible row when none of them passes it. *)
Definition preferred (request : QuoteRequest) (rows : list PassageRow)
           (m : PassageRow) : bool :=
  eligible request m
  && (stress_pass request m
      || negb (existsb (stress_pass request) (filter (eligible request) rows))).

Lemma filter_all {A : Type} (l : list A) : filter (fun _ => true) l = l.
Proof. induction l as [|x l IH]; simpl; [reflexivity | rewrite IH; reflexivity]. Qed.

Lemma filter_and {A : Type} (f g : A -> bool) (l : list A) :
  filter g (filter f l) = filter (fun x => f x && g x) l.
Proof.
  induction l as [|x l IH]; simpl; [reflexivity|].
  destruct (f x); simpl; [destruct (g x)|]; rewrite IH; reflexivity.
Qed.

Lemma nonempty_filter {A : Type} (f : A -> bool) (l : list A) :
  nonempty (filter f l) = existsb f l.
Proof.
  induction l as [|x l IH]; simpl; [reflexivity|].
  destruct (f x); simpl; [reflexivity | exact IH].
Qed.

Lemma filter_first {A : Type} (f : A -> bool) (l : list A) :
  match filter f l with
  | [] => forall x, In x l -> f x = false
  | x :: _ => exists before after,
                l = (before ++ x :: after)%list /\ f x = true
                /\ forall y, In y before -> f y = false
  end.
Proof.
  induction l as [|a l IH]; simpl; [intros x []|].
  destruct (f a) eqn:E.
  - exists [], l. repeat split; [exact E | intros y []].
  - destruct (filter f l) as [|x t].
    + intros x [<-|Hx]; [exact E | exact (IH x Hx)].
    + destruct IH as (before & after & -> & Hx & Hb).
      exists (a :: before), after. repeat split; [exact Hx|].
      intros y [<-|Hy]; [exact E | exact (Hb y Hy)].
Qed.

Lemma philosopher_filter_eligible (request : QuoteRequest) (rows : list PassageRow) :
  philosopher_filter request rows = filter (eligible request) rows.
Proof.
  unfold philosopher_filter, eligible.
  destruct (truthy_opt (philosopher_id request)); simpl.
  - destruct rows; reflexivity.
  - symmetry. apply filter_all.
Qed.

(** The two filters together keep the preferred rows, in the order of
    the search. *)
Lemma filters_preferred (request : QuoteRequest) (rows : list PassageRow) :
  stress_filter request (philosopher_filter request rows)
  = filter (preferred request rows) rows.
Proof.
  rewrite philosopher_filter_eligible. unfold stress_filter, preferred.
  remember (filter (eligible request) rows) as L eqn:HL.
  rewrite (nonempty_filter (stress_pass request) L).
  destruct (existsb (stress_pass request) L) eqn:E.
  - destruct L as [|x L']; [discriminate|]. cbn [nonempty].
    rewrite HL, filter_and. apply filter_ext. intros m.
    rewrite orb_false_r. reflexivity.
  - assert (H : (if nonempty L then L else L) = L) by (destruct L; reflexivity).
    rewrite H, HL. apply filter_ext. intros m.
    rewrite orb_true_r, andb_true_r. reflexivity.
Qed.

Section Endpoint.
Variable Embedding : Type.
Variable embeddings_create : string -> outcome Embedding.
Variable match_passages : Embedding -> outcome (option (list PassageRow)).

(** X17.  Once the embedding and the search have answered, the
    endpoint answers with the first row, in the order of the search,
    that is preferred: a row of the philosopher asked for, if one was
    asked for, and one that passes the stress test, if any such row
    passes it.  No row before it is preferred.  The endpoint fails
    exactly when the search has no row of the philosopher asked for
    (or no row at all), and then with the status 500. *)
Theorem endpoint_answers_first_preferred (request : QuoteRequest)
        (query_embedding : Embedding) (data : option (list PassageRow)) :
  embeddings_create (build_context_text request) = Returned query_embedding ->
  match_passages query_embedding = Returned data ->
  match get_contextual_quote Embedding embeddings_create match_passages request with
  | Returned response =>
      exists before top after,
        rows_of data = (before ++ top :: after)%list
        /\ response = quote_response top
        /\ preferred request (rows_of data) top = true
        /\ forall m, In m before -> preferred request (rows_of data) m = false
  | Raised e =>
      (exists detail, e = HTTPException 500 detail)
      /\ forall m, In m (rows_of data) -> eligible request m = false
  end.
Proof.
  intros He Hs.
  rewrite (endpoint_after_search Embedding embeddings_create match_passages
             request query_embedding data He Hs).
  rewrite filters_preferred.
  pose proof (filter_first (preferred request (rows_of data)) (rows_of data)) as H.
  destruct (filter (preferred request (rows_of data)) (rows_of data))
    as [|top rest] eqn:Hf; cbn [firstn].
  - split; [eexists; reflexivity|]. intros m Hm.
    destruct (eligible request m) eqn:E; [|reflexivity]. exfalso.
    pose proof (H m Hm) as Hpref. unfold preferred in Hpref.
    rewrite E in Hpref. cbn [andb] in Hpref.
    apply orb_false_iff in Hpref. destruct Hpref as [Hstress Hnone].
    apply negb_false_iff in Hnone.
    apply existsb_exists in Hnone. destruct Hnone as (x & Hx & Hpass).
    apply filter_In in Hx. destruct Hx as [Hx Hel].
    pose proof (H x Hx) as Hx'. unfold preferred in Hx'.
    rewrite Hel, Hpass in Hx'. discriminate.
  - destruct H as (before & after & Heq & Htop & Hbefore).
    exists before, top, after. repeat split; assumption.
Qed.

End Endpoint.

(** A second row, which mentions "high" among its emotions. *)
Definition anxious_row : PassageRow :=
  {| row_id := "letters_to_lucilius_0f9e8d7c6b5a";
     row_text := "We suffer more often in imagination than in reality.";
     row_philosopher_id := "seneca";
     row_work_id := "letters_to_lucilius";
     row_tags := [ ("emotions", JList [JStr "anxiety"; JStr "high"]) ];
     row_similarity := 2 # 10 |}.

Definition search_two (e : unit) : outcome (option (list PassageRow)) :=
  Returned (Some [joyful_row; anxious_row]).

Lemma endpoint_answers_first_preferred_witness :
  get_contextual_quote unit embed_ok search_two stressed_request
  = Returned (quote_response anxious_row)
  /\ exists before top after,
       [joyful_row; anxious_row] = (before ++ top :: after)%list
       /\ quote_response anxious_row = quote_response top
       /\ preferred stressed_request [joyful_row; anxious_row] top = true
       /\ forall m, In m before ->
                    preferred stressed_request [joyful_row; anxious_row] m = false.
Proof.
  split; [reflexivity|].
  exact (endpoint_answers_first_preferred unit embed_ok search_two
           stressed_request tt (Some [joyful_row; anxious_row]) eq_refl eq_refl).
Defined.

(** *** The context string *)



(** The parts of the context string when there is no query. *)
Definition context_parts (request : QuoteRequest) : list string :=
  ([dict_get_default (stress_level (context request)) EmptyString stress_map;
    dict_get_default (time_of_day (context request)) EmptyString time_map]
   ++ (if is_active (context request)
       then ["during exercise or activity"] else []))%list.




End RetrievalMore.

(* ===================================================================== *)
(** ** [chunk_passages.py]: cleaning and normalising a text *)
(* ===================================================================== *)

Module TextCleaning.

(** [re.sub(r"\s+", " ", text)]: every maximal run of white space
    becomes one space; [in_run] tells that the run being read has
    already given its space. *)
Fixpoint collapse_spaces_from (in_run : bool) (s : string) : string :=
  match s with
  | EmptyString => EmptyString
  | String c s' =>
      if is_space c
      then (if in_run then collapse_spaces_from true s'
            else String " " (collapse_spaces_from true s'))
      else String c (collapse_spaces_from false s')
  end.

Definition collapse_spaces (s : string) : string := collapse_spaces_from false s.

(** What a run of [run] line feeds becomes under [\n{3,}] -> two line
    feeds. *)
Definition line_feeds (run : nat) : string :=
  match run with
  | 0%nat => EmptyString
  | 1%nat => String LF EmptyString
  | _ => String LF (String LF EmptyString)
  end.

(** [re.sub(r"\n{3,}", "\n\n", text)]; [run] counts the line feeds
    read since the last other character. *)
Fixpoint collapse_line_feeds_from (run : nat) (s : string) : string :=
  match s with
  | EmptyString => line_feeds run
  | String c s' =>
      if Ascii.eqb c LF then collapse_line_feeds_from (S run) s'
      else (line_feeds run ++ String c (collapse_line_feeds_from 0 s'))%string
  end.

Definition collapse_line_feeds (s : string) : string :=
  collapse_line_feeds_from 0 s.

Definition clean_text (text : string) : string :=
  let text := collapse_spaces text in
  let text := collapse_line_feeds text in
  strip text.

(** The substitution of [normalize_for_search]: a character stays when
    it is a word character, white space or an apostrophe, and becomes a
    space otherwise. *)
Definition keeps (c : ascii) : bool :=
  is_word c || is_space c || Ascii.eqb c "'"%char.

Fixpoint blank_punctuation (s : string) : string :=
  match s with
  | EmptyString => EmptyString
  | String c s' =>
      String (if keeps c then c else " "%char) (blank_punctuation s')
  end.

Definition normalize_for_search (text : string) : string :=
  let text := lower text in
  let text := blank_punctuation text in
  let text := collapse_spaces text in
  strip text.

End TextCleaning.

(* ===================================================================== *)
(** ** Properties of the cleaning *)
(* ===================================================================== *)

Module CleaningProps.
Import TextCleaning ChunkProps ChunkMore.

(** Every character of the string satisfies the test. *)
Fixpoint str_all (f : ascii -> bool) (s : string) : bool :=
  match s with
  | EmptyString => true
  | String c s' => f c && str_all f s'
  end.

Definition solid (c : ascii) : bool := negb (is_space c).

Lemma str_app_nil_r (s : string) : (s ++ EmptyString)%string = s.
Proof. induction s as [|c s IH]; simpl; [reflexivity | rewrite IH; reflexivity]. Qed.

Lemma str_app_cons (a : string) (c : ascii) (b : string) :
  ((a ++ String c EmptyString) ++ b)%string = (a ++ String c b)%string.
Proof. induction a as [|x a IH]; simpl; [reflexivity | rewrite IH; reflexivity]. Qed.

Lemma str_all_app (f : ascii -> bool) (a b : string) :
  str_all f (a ++ b) = str_all f a && str_all f b.
Proof.
  induction a as [|c a IH]; simpl; [reflexivity|].
  rewrite IH, andb_assoc. reflexivity.
Qed.

Lemma str_all_impl (f g : ascii -> bool) (s : string) :
  (forall c, f c = true -> g c = true) -> str_all f s = true -> str_all g s = true.
Proof.
  intros Hfg. induction s as [|c s IH]; simpl; [reflexivity|].
  intros H. apply andb_true_iff in H. destruct H as [Hc Hs].
  rewrite (Hfg c Hc), (IH Hs). reflexivity.
Qed.

(** *** [rstrip] and [lstrip] *)

Lemma rstrip_solid_app (a b : string) :
  str_all solid a = true -> rstrip (a ++ b) = (a ++ rstrip b)%string.
Proof.
  induction a as [|c a IH]; simpl; [reflexivity|].
  intros H. apply andb_true_iff in H. destruct H as [Hc Ha].
  rewrite (IH Ha). unfold solid in Hc. apply negb_true_iff in Hc.
  destruct (a ++ rstrip b)%string eqn:E; [rewrite Hc|]; reflexivity.
Qed.

Lemma rstrip_solid_word (a : string) : str_all solid a = true -> rstrip a = a.
Proof.
  intros H. rewrite <- (str_app_nil_r a) at 1.
  rewrite (rstrip_solid_app a EmptyString H). apply str_app_nil_r.
Qed.

Lemma rstrip_space (s : string) :
  rstrip (String " " s)
  = if truthy (rstrip s) then String " " (rstrip s) else EmptyString.
Proof. simpl. destruct (rstrip s); reflexivity. Qed.

Lemma lstrip_starts_solid (s : string) :
  s = EmptyString \/ starts_solid s -> lstrip s = s.
Proof.
  destruct s as [|c s]; [reflexivity|]. intros [H|H]; [discriminate|].
  simpl in *. rewrite H. reflexivity.
Qed.

(** *** The words of a text *)

Lemma words_from_solid (s cur : string) (w : string) :
  str_all solid cur = true -> In w (words_from cur s) ->
  str_all solid w = true /\ truthy w = true.
Proof.
  revert cur. induction s as [|c s IH]; intros cur Hcur; simpl.
  - destruct (truthy cur) eqn:E; [|intros []].
    intros [<-|[]]. auto.
  - destruct (is_space c) eqn:Hc.
    + destruct (truthy cur) eqn:E.
      * intros [<-|Hw]; [auto | exact (IH EmptyString eq_refl Hw)].
      * exact (IH EmptyString eq_refl).
    + apply IH. rewrite str_all_app, Hcur. simpl. unfold solid. rewrite Hc.
      reflexivity.
Qed.

Lemma split_ws_words (s w : string) :
  In w (split_ws s) -> str_all solid w = true /\ truthy w = true.
Proof. apply words_from_solid. reflexivity. Qed.

Lemma words_from_solid_text (w cur : string) :
  str_all solid w = true -> truthy (cur ++ w) = true ->
  words_from cur w = [(cur ++ w)%string].
Proof.
  revert cur. induction w as [|c w IH]; intros cur Hw Ht; simpl.
  - rewrite str_app_nil_r in *. rewrite Ht. reflexivity.
  - simpl in Hw. apply andb_true_iff in Hw. destruct Hw as [Hc Hw].
    unfold solid in Hc. apply negb_true_iff in Hc. rewrite Hc.
    rewrite IH; [rewrite str_app_cons; reflexivity | exact Hw |].
    rewrite str_app_cons. exact Ht.
Qed.

(** A word is the only word of itself. *)
Lemma split_ws_word (w : string) :
  str_all solid w = true -> truthy w = true -> split_ws w = [w].
Proof. intros Hs Ht. apply (words_from_solid_text w EmptyString Hs Ht). Qed.

Lemma join_words_truthy (w : string) (ws : list string) :
  truthy w = true -> truthy (join " " (w :: ws)) = true.
Proof. destruct w; [discriminate|]. intros _. destruct ws; reflexivity. Qed.

(** *** One space between the words *)

Lemma collapse_spaces_words (s : string) :
  (forall cur, str_all solid cur = true -> truthy cur = true ->
               rstrip (cur ++ collapse_spaces_from false s)
               = join " " (words_from cur s))
  /\ rstrip (collapse_spaces_from true s) = join " " (words_from EmptyString s).
Proof.
  induction s as [|c s [IHword IHrun]]; simpl.
  - split; [|reflexivity]. intros cur Hs Ht. rewrite Ht, str_app_nil_r.
    apply rstrip_solid_word. exact Hs.
  - destruct (is_space c) eqn:Hc.
    + split; [|exact IHrun]. intros cur Hs Ht. rewrite Ht.
      rewrite (rstrip_solid_app cur _ Hs), rstrip_space, IHrun.
      destruct (words_from EmptyString s) as [|w ws] eqn:Hw.
      * cbn [join truthy]. apply str_app_nil_r.
      * assert (Hw' : truthy w = true).
        { apply (split_ws_words s w). unfold split_ws. rewrite Hw. left.
          reflexivity. }
        rewrite (join_words_truthy w ws Hw'). reflexivity.
    + assert (Hone : str_all solid (String c EmptyString) = true)
        by (simpl; unfold solid; rewrite Hc; reflexivity).
      split.
      * intros cur Hs Ht. rewrite <- str_app_cons. apply IHword.
        -- rewrite str_all_app, Hs, Hone. reflexivity.
        -- destruct cur; reflexivity.
      * apply (IHword (String c EmptyString) Hone eq_refl).
Qed.

Lemma collapse_in_run_starts (s : string) :
  collapse_spaces_from true s = EmptyString
  \/ starts_solid (collapse_spaces_from true s).
Proof.
  induction s as [|c s IH]; simpl; [left; reflexivity|].
  destruct (is_space c) eqn:Hc; [exact IH|]. right. exact Hc.
Qed.

Lemma lstrip_collapse (s : string) :
  lstrip (collapse_spaces_from false s) = collapse_spaces_from true s.
Proof.
  destruct s as [|c s]; simpl; [reflexivity|].
  destruct (is_space c) eqn:Hc; simpl.
  - apply lstrip_starts_solid, collapse_in_run_starts.
  - rewrite Hc. reflexivity.
Qed.

(** A character that is a space or is no white space at all. *)
Definition tidy (c : ascii) : bool := Ascii.eqb c " "%char || solid c.

Lemma collapse_tidy (s : string) (in_run : bool) :
  str_all tidy (collapse_spaces_from in_run s) = true.
Proof.
  revert in_run. induction s as [|c s IH]; intros in_run; simpl; [reflexivity|].
  destruct (is_space c) eqn:Hc.
  - destruct in_run; simpl; apply IH.
  - simpl. rewrite IH. unfold tidy, solid. rewrite Hc, orb_true_r. reflexivity.
Qed.

Lemma tidy_not_LF (c : ascii) : tidy c = true -> Ascii.eqb c LF = false.
Proof.
  unfold tidy, solid. intros H. destruct (Ascii.eqb c LF) eqn:E; [|reflexivity].
  apply Ascii.eqb_eq in E. subst c. discriminate.
Qed.

(** Without a line feed there is nothing for the second substitution
    to do. *)
Lemma collapse_line_feeds_none (s : string) :
  str_all tidy s = true -> collapse_line_feeds s = s.
Proof.
  unfold collapse_line_feeds. induction s as [|c s IH]; simpl; [reflexivity|].
  intros H. apply andb_true_iff in H. destruct H as [Hc Hs].
  rewrite (tidy_not_LF c Hc). simpl. rewrite (IH Hs). reflexivity.
Qed.

Lemma strip_collapse (s : string) :
  strip (collapse_spaces s) = join " " (split_ws s).
Proof.
  unfold strip, collapse_spaces. rewrite lstrip_collapse.
  apply (proj2 (collapse_spaces_words s)).
Qed.

Lemma flat_map_words (l : list string) :
  (forall w, In w l -> str_all solid w = true /\ truthy w = true) ->
  flat_map split_ws l = l.
Proof.
  induction l as [|w l IH]; intros H; simpl; [reflexivity|].
  destruct (H w (or_introl eq_refl)) as [Hs Ht].
  rewrite (split_ws_word w Hs Ht), IH; [reflexivity|].
  intros w' Hw'. apply H. right. exact Hw'.
Qed.

Lemma split_ws_join_words (s : string) :
  split_ws (join " " (split_ws s)) = split_ws s.
Proof.
  rewrite split_ws_join. apply flat_map_words. apply split_ws_words.
Qed.

(** X19.  [clean_text] returns the words of the text joined by single
    spaces, that is [" ".join(text.split())]: the second substitution,
    of three or more line feeds, never finds any, because the first has
    turned every line feed into a space.  So cleaning keeps the words
    and their number, and cleaning twice is cleaning once. *)
Theorem clean_text_words (text : string) :
  clean_text text = join " " (split_ws text)
  /\ collapse_line_feeds (collapse_spaces text) = collapse_spaces text
  /\ split_ws (clean_text text) = split_ws text
  /\ word_count (clean_text text) = word_count text
  /\ clean_text (clean_text text) = clean_text text.
Proof.
  assert (Hlf : collapse_line_feeds (collapse_spaces text) = collapse_spaces text)
    by (apply collapse_line_feeds_none, collapse_tidy).
  assert (Hclean : forall t, clean_text t = join " " (split_ws t)).
  { intros t. unfold clean_text, collapse_spaces. cbv zeta.
    rewrite (collapse_line_feeds_none _ (collapse_tidy t false)).
    exact (strip_collapse t). }
  split; [apply Hclean|]. split; [exact Hlf|].
  assert (Hwords : split_ws (clean_text text) = split_ws text)
    by (rewrite Hclean; apply split_ws_join_words).
  split; [exact Hwords|]. split.
  - unfold word_count. rewrite Hwords. reflexivity.
  - rewrite (Hclean (clean_text text)), Hwords. symmetry. apply Hclean.
Qed.

(** *** The normalised text *)

(** The characters of a normalised text. *)
Definition normal_char (c : ascii) : bool :=
  is_lower c || is_digit c || Ascii.eqb c "_"%char || Ascii.eqb c "'"%char
  || Ascii.eqb c " "%char.

Lemma str_all_words (f : ascii -> bool) (s cur : string) :
  str_all f s = true -> str_all f cur = true ->
  forall w, In w (words_from cur s) -> str_all f w = true.
Proof.
  revert cur. induction s as [|c s IH]; intros cur Hs Hcur w; simpl.
  - destruct (truthy cur); [intros [<-|[]]; exact Hcur | intros []].
  - simpl in Hs. apply andb_true_iff in Hs. destruct Hs as [Hc Hs].
    destruct (is_space c).
    + destruct (truthy cur).
      * intros [<-|Hw]; [exact Hcur | exact (IH EmptyString Hs eq_refl w Hw)].
      * exact (IH EmptyString Hs eq_refl w).
    + apply IH; [exact Hs|]. rewrite str_all_app, Hcur. simpl. rewrite Hc.
      reflexivity.
Qed.

Lemma str_all_join (f : ascii -> bool) (l : list string) :
  f " "%char = true -> (forall w, In w l -> str_all f w = true) ->
  str_all f (join " " l) = true.
Proof.
  intros Hsp. induction l as [|x [|y r] IH]; intros H.
  - reflexivity.
  - apply H. left. reflexivity.
  - change (join " " (x :: y :: r)) with (x ++ String " " (join " " (y :: r)))%string.
    rewrite str_all_app. cbn [str_all]. rewrite Hsp, (H x (or_introl eq_refl)).
    rewrite IH; [reflexivity|]. intros w Hw. apply H. right. exact Hw.
Qed.

Lemma lower_char_cases (c : ascii) :
  is_upper (lower_char c) = false.
Proof.
  unfold lower_char. destruct (is_upper c) eqn:E; [|exact E].
  unfold is_upper in *. apply andb_true_iff in E. destruct E as [E1 E2].
  apply Nat.leb_le in E1, E2. rewrite nat_ascii_embedding by lia.
  apply andb_false_iff. right. apply Nat.leb_gt. lia.
Qed.

(** A kept character that is not upper case is a normal character or
    white space. *)
Lemma keeps_normal (c : ascii) :
  is_upper c = false -> keeps c = true ->
  normal_char c = true \/ is_space c = true.
Proof.
  unfold keeps, normal_char, is_word. intros Hu H. rewrite Hu in H. simpl in H.
  destruct (is_lower c), (is_digit c), (Ascii.eqb c "_"%char),
    (Ascii.eqb c "'"%char), (is_space c); simpl in *; auto; discriminate.
Qed.

(** After lower-casing and blanking, every character is normal or
    white space. *)
Lemma blank_lower_chars (s : string) :
  str_all (fun c => normal_char c || is_space c) (blank_punctuation (lower s)) = true.
Proof.
  induction s as [|c s IH]; simpl; [reflexivity|]. rewrite IH, andb_true_r.
  destruct (keeps (lower_char c)) eqn:K; [|reflexivity].
  destruct (keeps_normal _ (lower_char_cases c) K) as [H|H]; rewrite H;
    [reflexivity | apply orb_true_r].
Qed.

Lemma normal_solid_word (w : string) :
  str_all (fun c => normal_char c || is_space c) w = true ->
  str_all solid w = true ->
  str_all normal_char w = true.
Proof.
  induction w as [|c w IH]; simpl; [reflexivity|].
  intros H1 H2. apply andb_true_iff in H1, H2.
  destruct H1 as [Hc Hw], H2 as [Sc Sw]. rewrite (IH Hw Sw), andb_true_r.
  unfold solid in Sc. apply negb_true_iff in Sc. rewrite Sc, orb_false_r in Hc.
  exact Hc.
Qed.

Lemma normalize_as_clean (text : string) :
  normalize_for_search text = join " " (split_ws (blank_punctuation (lower text))).
Proof. unfold normalize_for_search. cbv zeta. apply strip_collapse. Qed.

Lemma normal_char_fixed (c : ascii) :
  normal_char c = true -> lower_char c = c /\ keeps c = true.
Proof.
  intros H. split.
  - unfold lower_char. destruct (is_upper c) eqn:U; [|reflexivity]. exfalso.
    unfold normal_char in H.
    repeat (apply orb_true_iff in H; destruct H as [H|H]);
      try (apply Ascii.eqb_eq in H; subst c; vm_compute in U; discriminate U);
      unfold is_lower, is_digit, is_upper in *;
      apply andb_true_iff in U; destruct U as [U1 U2];
      apply andb_true_iff in H; destruct H as [H1 H2];
      apply Nat.leb_le in U1, U2, H1, H2; lia.
  - unfold normal_char in H. unfold keeps, is_word.
    repeat (apply orb_true_iff in H; destruct H as [H|H]); rewrite ?H;
      repeat rewrite ?orb_true_r, ?orb_true_l; try reflexivity.
    apply Ascii.eqb_eq in H. subst c. reflexivity.
Qed.

Lemma normal_text_fixed (s : string) :
  str_all normal_char s = true -> blank_punctuation (lower s) = s.
Proof.
  induction s as [|c s IH]; simpl; [reflexivity|].
  intros H. apply andb_true_iff in H. destruct H as [Hc Hs].
  destruct (normal_char_fixed c Hc) as [Hl Hk].
  rewrite Hl, Hk, (IH Hs). reflexivity.
Qed.

(** X20.  The normalised text has only lower-case letters, digits,
    underscores, apostrophes and spaces: the words of the lower-cased
    text in which every other character counts as a space, joined by
    single spaces.  Normalising a normalised text changes nothing. *)
Theorem normalize_for_search_normal (text : string) :
  normalize_for_search text
  = join " " (split_ws (blank_punctuation (lower text)))
  /\ str_all normal_char (normalize_for_search text) = true
  /\ normalize_for_search (normalize_for_search text) = normalize_for_search text.
Proof.
  assert (Hn : str_all normal_char (normalize_for_search text) = true).
  { rewrite normalize_as_clean. apply str_all_join; [reflexivity|].
    intros w Hw. apply normal_solid_word.
    - apply (str_all_words _ (blank_punctuation (lower text)) EmptyString);
        [apply blank_lower_chars | reflexivity | exact Hw].
    - apply (split_ws_words _ w Hw). }
  split; [apply normalize_as_clean|]. split; [exact Hn|].
  rewrite (normalize_as_clean (normalize_for_search text)).
  rewrite (normal_text_fixed _ Hn).
  rewrite normalize_as_clean at 1 2. rewrite split_ws_join_words. reflexivity.
Qed.

End CleaningProps.

(* ===================================================================== *)
(** ** [chunk_passages.py]: the chunkers by book, chapter and letter *)
(* ===================================================================== *)

Module ChunkStrategies.
Import Models TextCleaning.

(** What [process_work] reads from the dict a chunker yields with a
    chunk: [chunk_meta.get("book")] and the like. *)
Record ChunkMeta := {
  meta_book : option Z;
  meta_chapter : option Z;
  meta_letter : option Z;
  meta_section : option Z
}.

(** [enumerate(l, n)] *)
Fixpoint enumerate_from {A : Type} (n : Z) (l : list A) : list (Z * A) :=
  match l with
  | [] => []
  | x :: rest => (n, x) :: enumerate_from (n + 1) rest
  end.

(** [s.isdigit()] *)
Fixpoint all_digits (s : string) : bool :=
  match s with
  | EmptyString => true
  | String c s' => is_digit c && all_digits s'
  end.

Definition isdigit (s : string) : bool := truthy s && all_digits s.

(** [int(s)] for a string of digits. *)
Definition int_of_digits (s : string) : Z :=
  (fix read (acc : Z) (s : string) : Z :=
     match s with
     | EmptyString => acc
     | String c s' => read (10 * acc + Z.of_nat (nat_of_ascii c - 48)) s'
     end) 0 s.

(** The longest prefix of characters that pass the test, and the rest. *)
Fixpoint span (f : ascii -> bool) (s : string) : string * string :=
  match s with
  | EmptyString => (EmptyString, EmptyString)
  | String c s' =>
      if f c then let (taken, rest) := span f s' in (String c taken, rest)
      else (EmptyString, s)
  end.

(** [re.split(pattern, text)] for a pattern with one group.
    [match_here s] tells whether the pattern matches at the beginning
    of [s], and then gives the text of the group and the length of the
    match; [skip] counts the characters of a match still to pass, [cur]
    is the piece being read. *)
Fixpoint re_split_from (match_here : string -> option (string * nat))
         (skip : nat) (cur : string) (s : string) : list string :=
  match s with
  | EmptyString => [cur]
  | String c s' =>
      match skip with
      | S k => re_split_from match_here k cur s'
      | O =>
          match match_here s with
          | Some (group, len) =>
              cur :: group :: re_split_from match_here (len - 1) EmptyString s'
          | None =>
              re_split_from match_here 0 (cur ++ String c EmptyString) s'
          end
      end
  end.

Definition re_split (match_here : string -> option (string * nat)) (s : string)
  : list string :=
  re_split_from match_here 0 EmptyString s.

(** [=== BOOK (\d+) ===] *)
Definition match_book (s : string) : option (string * nat) :=
  match strip_prefix "=== BOOK " s with
  | None => None
  | Some r =>
      let (digits, r') := span is_digit r in
      if truthy digits && startswith " ===" r'
      then Some (digits, (9 + String.length digits + 4)%nat)
      else None
  end.

(** [(?:Letter|LETTER|Epistle|EPISTLE)\s+(\d+)] *)
Definition letter_words : list string := ["Letter"; "LETTER"; "Epistle"; "EPISTLE"].

Definition match_letter (s : string) : option (string * nat) :=
  (fix try (words : list string) : option (string * nat) :=
     match words with
     | [] => None
     | w :: words' =>
         match strip_prefix w s with
         | None => try words'
         | Some r =>
             let (spaces, r') := span is_space r in
             let (digits, _) := span is_digit r' in
             if truthy spaces && truthy digits
             then Some (digits,
                        (String.length w + String.length spaces
                         + String.length digits)%nat)
             else try words'
         end
     end) letter_words.

Definition head_is_space (s : string) : bool :=
  match s with EmptyString => false | String w _ => is_space w end.

(** [\n(\d{1,2})\.\s]: two digits are tried first, then one. *)
Definition match_chapter (s : string) : option (string * nat) :=
  match s with
  | String c0 (String d1 r1) =>
      if Ascii.eqb c0 LF && is_digit d1 then
        match r1 with
        | String d2 (String p r2) =>
            if is_digit d2 && Ascii.eqb p "."%char && head_is_space r2
            then Some (String d1 (String d2 EmptyString), 5%nat)
            else if Ascii.eqb d2 "."%char && is_space p
                 then Some (String d1 EmptyString, 4%nat)
                 else None
        | _ => None
        end
      else None
  | _ => None
  end.

(** The chunks of one book, numbered from 1. *)
Definition book_chunks (min_words max_words : Z) (current_book : Z) (book_text : string)
  : list (string * ChunkMeta) :=
  if negb (truthy (strip book_text)) then []
  else
    map (fun '(chunk_num, chunk) =>
           (chunk,
            {| meta_book := if 0 <? current_book then Some current_book else None;
               meta_chapter := None; meta_letter := None;
               meta_section := Some chunk_num |}))
        (enumerate_from 1 (chunk_by_paragraph book_text min_words max_words)).

(** The [while] loop of [chunk_meditations] and [chunk_discourses] over
    the pieces of the split. *)
Fixpoint book_loop (min_words max_words : Z) (current_book : Z) (parts : list string)
  : list (string * ChunkMeta) :=
  match parts with
  | [] => []
  | part :: rest =>
      match rest with
      | next :: rest' =>
          if isdigit (strip part) then
            let current_book := int_of_digits (strip part) in
            (book_chunks min_words max_words current_book next
             ++ book_loop min_words max_words current_book rest')%list
          else
            (book_chunks min_words max_words current_book part
             ++ book_loop min_words max_words current_book rest)%list
      | [] => book_chunks min_words max_words current_book part
      end
  end.

Definition chunk_meditations (text : string) : list (string * ChunkMeta) :=
  book_loop 30 250 0 (re_split match_book text).

Definition chunk_discourses (text : string) : list (string * ChunkMeta) :=
  book_loop 50 300 0 (re_split match_book text).

(** The chunks of one letter, numbered from 1. *)
Definition letter_chunks (letter_num : option Z) (letter_text : string)
  : list (string * ChunkMeta) :=
  if negb (truthy (strip letter_text)) then []
  else
    map (fun '(chunk_num, chunk) =>
           (chunk,
            {| meta_book := None; meta_chapter := None; meta_letter := letter_num;
               meta_section := Some chunk_num |}))
        (enumerate_from 1 (chunk_by_paragraph letter_text 30 250)).

Fixpoint letter_loop (parts : list string) : list (string * ChunkMeta) :=
  match parts with
  | [] => []
  | part :: rest =>
      match rest with
      | next :: rest' =>
          if isdigit (strip part) then
            (letter_chunks (Some (int_of_digits (strip part))) next
             ++ letter_loop rest')%list
          else (letter_chunks None part ++ letter_loop rest)%list
      | [] => letter_chunks None part
      end
  end.

Definition chunk_letters (text : string) : list (string * ChunkMeta) :=
  letter_loop (re_split match_letter text).

(** The [while] loop of [chunk_enchiridion], from the second piece on. *)
Fixpoint chapter_loop (parts : list string) : list (string * ChunkMeta) :=
  match parts with
  | [] => []
  | part :: rest =>
      if isdigit (strip part) then
        let chapter := int_of_digits (strip part) in
        match rest with
        | chapter_text :: rest' =>
            ((if truthy (strip chapter_text)
              then [(strip chapter_text,
                     {| meta_book := None; meta_chapter := Some chapter;
                        meta_letter := None; meta_section := None |})]
              else [])
             ++ chapter_loop rest')%list
        | [] => []
        end
      else chapter_loop rest
  end.

Definition chunk_enchiridion (text : string) : list (string * ChunkMeta) :=
  match re_split match_chapter text with
  | [] => []
  | first :: rest =>
      ((if truthy (strip first)
        then [(strip first,
               {| meta_book := None; meta_chapter := Some 0;
                  meta_letter := None; meta_section := None |})]
        else [])
       ++ chapter_loop rest)%list
  end.

Definition chunk_generic (text : string) : list (string * ChunkMeta) :=
  map (fun '(chunk_num, chunk) =>
         (chunk,
          {| meta_book := None; meta_chapter := None; meta_letter := None;
             meta_section := Some chunk_num |}))
      (enumerate_from 1 (chunk_by_paragraph text 30 250)).

(** *** The loop of [process_work] *)

Definition CHUNK_CONFIG_min_words : Z := 30.

Definition WorkId_value (w : WorkId) : string :=
  match w with
  | MEDITATIONS => "meditations"
  | DISCOURSES => "discourses"
  | ENCHIRIDION => "enchiridion"
  | LETTERS => "letters_to_lucilius"
  | ON_ANGER => "on_anger"
  | ON_SHORTNESS_OF_LIFE => "on_shortness_of_life"
  | ON_TRANQUILITY => "on_tranquility_of_mind"
  | ON_PROVIDENCE => "on_providence"
  | ON_HAPPY_LIFE => "on_happy_life"
  | LECTURES => "lectures"
  | LIFE_OF_CATO => "life_of_cato"
  end.

Definition PhilosopherId_of_value (s : string) : option PhilosopherId :=
  if String.eqb s "marcus_aurelius" then Some MARCUS_AURELIUS
  else if String.eqb s "epictetus" then Some EPICTETUS
  else if String.eqb s "seneca" then Some SENECA
  else if String.eqb s "musonius_rufus" then Some MUSONIUS_RUFUS
  else if String.eqb s "cato" then Some CATO
  else None.

(** [PhilosopherId(metadata.get("philosopher", "marcus_aurelius"))] *)
Definition philosopher_of (metadata : dict json) : outcome PhilosopherId :=
  match dict_get_default "philosopher" (JStr "marcus_aurelius") metadata with
  | JStr s =>
      match PhilosopherId_of_value s with
      | Some p => Returned p
      | None => Raised (OtherException "ValueError: not a valid PhilosopherId")
      end
  | _ => Raised (OtherException "ValueError: not a valid PhilosopherId")
  end.

(** The chunker [process_work] selects for a work. *)
Definition chunker_of (work_id : WorkId) : string -> list (string * ChunkMeta) :=
  match work_id with
  | MEDITATIONS => chunk_meditations
  | ENCHIRIDION => chunk_enchiridion
  | DISCOURSES => chunk_discourses
  | LETTERS => chunk_letters
  | _ => chunk_generic
  end.

Section ProcessWork.

(** [hashlib.md5(text.encode()).hexdigest()], a string of 32
    hexadecimal digits. *)
Variable md5_hexdigest : string -> string.

Definition new_passage (work_id : WorkId) (translation : TranslationInfo)
           (philosopher : PhilosopherId) (chunk_text : string)
           (chunk_meta : ChunkMeta) : Passage :=
  let word_count := PyStr.word_count chunk_text in
  let content_hash := String.substring 0 12 (md5_hexdigest chunk_text) in
  let passage_id := (WorkId_value work_id ++ "_" ++ content_hash)%string in
  {| id := passage_id;
     source := {| philosopher_id := philosopher;
                  work_id := work_id;
                  book := meta_book chunk_meta;
                  chapter := meta_chapter chunk_meta;
                  letter := meta_letter chunk_meta;
                  section := Some (match meta_section chunk_meta with
                                   | Some n => str_of_Z n
                                   | None => EmptyString
                                   end);
                  line_reference := None |};
     translation := translation;
     text := chunk_text;
     text_normalized := Some (normalize_for_search chunk_text);
     tags := PassageTags_default;
     health_context := HealthContext_default;
     journey_context := {| stages := []; difficulty := BEGINNER |};
     metadata := {| quotability := JInt 5; actionability := JInt 5;
                    comfort := JInt 5;
                    word_count := word_count;
                    character_count := Z.of_nat (String.length chunk_text) |};
     embedding := None |}.

(** The [for] loop of [process_work] over the chunks of the chunker,
    with the translation info already built. *)
Fixpoint process_chunks (work_id : WorkId) (translation : TranslationInfo)
         (metadata : dict json) (chunks : list (string * ChunkMeta))
  : outcome (list Passage) :=
  match chunks with
  | [] => Returned []
  | (chunk_text, chunk_meta) :: rest =>
      let chunk_text := clean_text chunk_text in
      let word_count := PyStr.word_count chunk_text in
      if word_count <? CHUNK_CONFIG_min_words then
        process_chunks work_id translation metadata rest
      else
        match philosopher_of metadata with
        | Raised e => Raised e
        | Returned philosopher =>
            match process_chunks work_id translation metadata rest with
            | Raised e => Raised e
            | Returned passages =>
                Returned (new_passage work_id translation philosopher
                                      chunk_text chunk_meta :: passages)
            end
        end
  end.

(** [process_work], once the raw text is read and the translation
    info is built. *)
Definition process_text (work_id : WorkId) (translation : TranslationInfo)
           (metadata : dict json) (text : string) : outcome (list Passage) :=
  process_chunks work_id translation metadata (chunker_of work_id text).

End ProcessWork.

End ChunkStrategies.

(* ===================================================================== *)
(** ** Properties of the chunkers and of the loop of [process_work] *)
(* ===================================================================== *)

Module StrategyProps.
Import Models TextCleaning ChunkStrategies ChunkProps ChunkMore CleaningProps.

(** *** A text without words *)

Lemma lstrip_blank (s : string) : lstrip s = EmptyString -> str_all is_space s = true.
Proof.
  induction s as [|c s IH]; simpl; [reflexivity|].
  destruct (is_space c); [exact IH | discriminate].
Qed.

Lemma blank_strip (s : string) : str_all is_space s = true -> strip s = EmptyString.
Proof.
  unfold strip. intros H.
  assert (E : lstrip s = EmptyString).
  { induction s as [|c s IH]; simpl in *; [reflexivity|].
    apply andb_true_iff in H. destruct H as [Hc Hs]. rewrite Hc. exact (IH Hs). }
  rewrite E. reflexivity.
Qed.

Lemma strip_blank (s : string) :
  truthy (strip s) = false -> str_all is_space s = true.
Proof.
  unfold strip. intros H. apply lstrip_blank.
  destruct (lstrip_solid s) as [E|E]; [exact E|].
  apply rstrip_solid in E. destruct (rstrip (lstrip s)); [destruct E | discriminate].
Qed.

Lemma split_nn_from_two (cur : string) (c1 c2 : ascii) (s2 : string) :
  split_nn_from cur (String c1 (String c2 s2))
  = if Ascii.eqb c1 LF && Ascii.eqb c2 LF
    then cur :: split_nn_from EmptyString s2
    else split_nn_from (cur ++ String c1 EmptyString) (String c2 s2).
Proof. reflexivity. Qed.

Lemma split_nn_all (f : ascii -> bool) (n : nat) :
  forall s cur,
    (String.length s <= n)%nat ->
    str_all f cur = true -> str_all f s = true ->
    Forall (fun p => str_all f p = true) (split_nn_from cur s).
Proof.
  induction n as [|n IH]; intros s cur Hn Hcur Hs.
  - destruct s; [|simpl in Hn; lia]. simpl. repeat constructor. exact Hcur.
  - destruct s as [|c1 s1]; [simpl; repeat constructor; exact Hcur|].
    simpl in Hs. apply andb_true_iff in Hs. destruct Hs as [H1 Hs1].
    assert (Hcur1 : str_all f (cur ++ String c1 EmptyString) = true)
      by (rewrite str_all_app, Hcur; simpl; rewrite H1; reflexivity).
    destruct s1 as [|c2 s2].
    + simpl. repeat constructor. exact Hcur1.
    + rewrite split_nn_from_two. destruct (Ascii.eqb c1 LF && Ascii.eqb c2 LF).
      * constructor; [exact Hcur|]. simpl in Hs1.
        apply andb_true_iff in Hs1. destruct Hs1 as [_ Hs2].
        apply IH; [simpl in Hn; lia | reflexivity | exact Hs2].
      * apply IH; [simpl in *; lia | exact Hcur1 | exact Hs1].
Qed.

(** A text of white space only has no paragraph and gives no chunk. *)
Lemma blank_text_no_chunk (text : string) (min_words max_words : Z) :
  truthy (strip text) = false -> chunk_by_paragraph text min_words max_words = [].
Proof.
  intros H. apply strip_blank in H.
  assert (Hp : paragraphs_of text = []).
  { unfold paragraphs_of, split_nn.
    pose proof (split_nn_all is_space (String.length text) text EmptyString
                  (le_n _) eq_refl H) as Hall.
    induction Hall as [|p l Hp _ IH]; simpl; [reflexivity|].
    rewrite (blank_strip p Hp). simpl. exact IH. }
  unfold chunk_by_paragraph.
  destruct (loop_groups min_words max_words (split_nn text) [] 0)
    as (groups & Hout & Hcat & Hall).
  simpl in Hcat. fold (paragraphs_of text) in Hcat. rewrite Hp in Hcat.
  rewrite Hout. destruct groups as [|g groups]; [reflexivity|].
  inversion Hall as [|? ? Hg _]; subst. destruct g; [congruence | discriminate].
Qed.

(** *** A text without markers *)

(** The pattern matches nowhere in the string. *)
Fixpoint no_match_in (match_here : string -> option (string * nat)) (s : string) : Prop :=
  match_here s = None
  /\ match s with
     | EmptyString => True
     | String _ s' => no_match_in match_here s'
     end.

Lemma re_split_no_match (match_here : string -> option (string * nat)) (s : string) :
  no_match_in match_here s ->
  forall cur, re_split_from match_here 0 cur s = [(cur ++ s)%string].
Proof.
  induction s as [|c s IH]; intros H cur; simpl.
  - rewrite str_app_nil_r. reflexivity.
  - destruct H as [Hm Hs]. rewrite Hm, (IH Hs), str_app_cons. reflexivity.
Qed.

Lemma contains_cons (needle : string) (c : ascii) (s : string) :
  contains needle (String c s) = false ->
  startswith needle (String c s) = false /\ contains needle s = false.
Proof. simpl. intros H. apply orb_false_iff in H. exact H. Qed.

Lemma startswith_nil (needle s : string) :
  contains needle s = false -> startswith needle s = false.
Proof. destruct s; simpl; intros H; apply orb_false_iff in H; tauto. Qed.

Lemma no_book_marker (s : string) :
  contains "=== BOOK " s = false -> no_match_in match_book s.
Proof.
  induction s as [|c s IH]; intros H.
  - split; [reflexivity | exact I].
  - pose proof (startswith_nil _ _ H) as Hs. apply contains_cons in H.
    split; [|apply IH; tauto].
    unfold match_book. unfold startswith in Hs.
    destruct (strip_prefix "=== BOOK " (String c s)); [discriminate | reflexivity].
Qed.

Lemma no_letter_marker (s : string) :
  forallb (fun w => negb (contains w s)) letter_words = true ->
  no_match_in match_letter s.
Proof.
  induction s as [|c s IH]; intros H.
  - split; [reflexivity | exact I].
  - simpl in H. repeat rewrite andb_true_iff in H.
    destruct H as (H1 & H2 & H3 & H4 & _).
    apply negb_true_iff in H1, H2, H3, H4.
    apply orb_false_iff in H1, H2, H3, H4.
    destruct H1 as [S1 C1], H2 as [S2 C2], H3 as [S3 C3], H4 as [S4 C4].
    split.
    + unfold match_letter, letter_words. unfold startswith in S1, S2, S3, S4.
      destruct (strip_prefix "Letter" (String c s)); [discriminate|].
      destruct (strip_prefix "LETTER" (String c s)); [discriminate|].
      destruct (strip_prefix "Epistle" (String c s)); [discriminate|].
      destruct (strip_prefix "EPISTLE" (String c s)); [discriminate|].
      reflexivity.
    + apply IH. simpl. rewrite C1, C2, C3, C4. reflexivity.
Qed.

(** A line feed is followed by a digit somewhere in the string. *)
Fixpoint has_numbered_line (s : string) : bool :=
  match s with
  | EmptyString => false
  | String c0 s' =>
      (Ascii.eqb c0 LF && match s' with
                          | String d1 _ => is_digit d1
                          | EmptyString => false
                          end)
      || has_numbered_line s'
  end.

Lemma no_chapter_marker (s : string) :
  has_numbered_line s = false -> no_match_in match_chapter s.
Proof.
  induction s as [|c s IH]; intros H.
  - split; [reflexivity | exact I].
  - simpl in H. apply orb_false_iff in H. destruct H as [Hhere Hrest].
    split; [|apply IH; exact Hrest].
    unfold match_chapter. destruct s as [|d1 r1]; [reflexivity|].
    rewrite Hhere. reflexivity.
Qed.

(** The chunks of the generic chunker for other thresholds. *)
Definition numbered_chunks (min_words max_words : Z) (text : string)
  : list (string * ChunkMeta) :=
  map (fun '(chunk_num, chunk) =>
         (chunk,
          {| meta_book := None; meta_chapter := None; meta_letter := None;
             meta_section := Some chunk_num |}))
      (enumerate_from 1 (chunk_by_paragraph text min_words max_words)).

Lemma book_chunks_unmarked (min_words max_words : Z) (text : string) :
  book_chunks min_words max_words 0 text = numbered_chunks min_words max_words text.
Proof.
  unfold book_chunks, numbered_chunks.
  destruct (truthy (strip text)) eqn:E; [reflexivity|]. cbn [negb].
  rewrite (blank_text_no_chunk text min_words max_words E). reflexivity.
Qed.

Lemma letter_chunks_unmarked (text : string) :
  letter_chunks None text = chunk_generic text.
Proof.
  unfold letter_chunks, chunk_generic.
  destruct (truthy (strip text)) eqn:E; [reflexivity|]. cbn [negb].
  rewrite (blank_text_no_chunk text 30 250 E). reflexivity.
Qed.

(** X21.  A text in which no book marker [=== BOOK n ===] occurs is
    treated as one unit without a book number: [chunk_meditations]
    yields exactly what [chunk_generic] yields for it, and
    [chunk_discourses] the same with its own thresholds 50 and 300.
    Likewise [chunk_letters] yields what [chunk_generic] yields for a
    text in which none of the words Letter, LETTER, Epistle and EPISTLE
    occurs. *)
Theorem chunkers_without_marker (text : string) :
  (contains "=== BOOK " text = false ->
   chunk_meditations text = chunk_generic text
   /\ chunk_discourses text = numbered_chunks 50 300 text)
  /\ (forallb (fun w => negb (contains w text)) letter_words = true ->
      chunk_letters text = chunk_generic text).
Proof.
  split.
  - intros H. apply no_book_marker in H.
    unfold chunk_meditations, chunk_discourses, re_split.
    rewrite (re_split_no_match match_book text H EmptyString).
    cbn [append book_loop]. rewrite !book_chunks_unmarked. split; reflexivity.
  - intros H. apply no_letter_marker in H.
    unfold chunk_letters, re_split.
    rewrite (re_split_no_match match_letter text H EmptyString).
    cbn [append letter_loop]. apply letter_chunks_unmarked.
Qed.

Lemma chunkers_without_marker_witness :
  contains "=== BOOK " overflowing_text = false
  /\ chunk_meditations overflowing_text = chunk_generic overflowing_text
  /\ forallb (fun w => negb (contains w overflowing_text)) letter_words = true
  /\ chunk_letters overflowing_text = chunk_generic overflowing_text.
Proof.
  split; [reflexivity|].
  split; [exact (proj1 (proj1 (chunkers_without_marker overflowing_text) eq_refl))|].
  split; [reflexivity|].
  exact (proj2 (chunkers_without_marker overflowing_text) eq_refl).
Defined.

(** X22.  When no line feed of the text is followed by a digit, there
    is no chapter marker, and [chunk_enchiridion] yields the whole text,
    stripped, as one chunk with the chapter number 0, or nothing at all
    when the text is blank. *)
Theorem chunk_enchiridion_without_marker (text : string) :
  has_numbered_line text = false ->
  chunk_enchiridion text
  = if truthy (strip text)
    then [(strip text,
           {| meta_book := None; meta_chapter := Some 0; meta_letter := None;
              meta_section := None |})]
    else [].
Proof.
  intros H. apply no_chapter_marker in H. unfold chunk_enchiridion, re_split.
  rewrite (re_split_no_match match_chapter text H EmptyString).
  cbn [append chapter_loop]. apply app_nil_r.
Qed.

Lemma chunk_enchiridion_without_marker_witness :
  has_numbered_line overflowing_text = false
  /\ chunk_enchiridion overflowing_text
     = [(overflowing_text,
         {| meta_book := None; meta_chapter := Some 0; meta_letter := None;
            meta_section := None |})].
Proof.
  split; [reflexivity|].
  exact (chunk_enchiridion_without_marker overflowing_text eq_refl).
Defined.

(** *** Numbering *)

(** X23.  [chunk_generic] yields the chunks of [chunk_by_paragraph] with
    the default thresholds 30 and 250, in order, and numbers them 1, 2,
    3 and so on in the section field; it sets no book, chapter or
    letter. *)
Theorem chunk_generic_numbering (text : string) :
  map fst (chunk_generic text) = chunk_by_paragraph text 30 250
  /\ (forall i chunk meta,
         nth_error (chunk_generic text) i = Some (chunk, meta) ->
         meta_section meta = Some (Z.of_nat i + 1)
         /\ meta_book meta = None /\ meta_chapter meta = None
         /\ meta_letter meta = None).
Proof.
  unfold chunk_generic. generalize (chunk_by_paragraph text 30 250). intros l.
  assert (H : forall n i chunk meta,
             nth_error
               (map (fun '(chunk_num, chunk) =>
                       (chunk,
                        {| meta_book := None; meta_chapter := None;
                           meta_letter := None; meta_section := Some chunk_num |}))
                    (enumerate_from n l)) i = Some (chunk, meta) ->
             meta_section meta = Some (Z.of_nat i + n)
             /\ meta_book meta = None /\ meta_chapter meta = None
             /\ meta_letter meta = None).
  { induction l as [|x l IH]; intros n i chunk meta;
      cbn [enumerate_from map].
    - destruct i; discriminate.
    - destruct i as [|i]; cbn [nth_error].
      + intros E. injection E as <- <-. repeat split.
      + intros E. destruct (IH _ _ _ _ E) as (Hs & Hrest).
        split; [rewrite Hs; f_equal; lia | exact Hrest]. }
  split.
  - clear H. generalize 1. induction l as [|x l IH]; intros n; simpl;
      [reflexivity | rewrite IH; reflexivity].
  - intros i chunk meta E. exact (H 1 i chunk meta E).
Qed.

Lemma chunk_generic_numbering_witness :
  exists chunk meta,
    nth_error (chunk_generic TagProps.scenario_text) 0 = Some (chunk, meta)
    /\ meta_section meta = Some (Z.of_nat 0 + 1).
Proof.
  destruct (nth_error (chunk_generic TagProps.scenario_text) 0)
    as [[chunk meta]|] eqn:E.
  - exists chunk, meta. split; [reflexivity|].
    exact (proj1 (proj2 (chunk_generic_numbering TagProps.scenario_text)
                    0%nat chunk meta E)).
  - vm_compute in E. discriminate E.
Defined.

(** *** The loop of [process_work] *)

Lemma clean_text_join (text : string) : clean_text text = join " " (split_ws text).
Proof.
  unfold clean_text, collapse_spaces. cbv zeta.
  rewrite (collapse_line_feeds_none _ (collapse_tidy text false)).
  exact (strip_collapse text).
Qed.

Lemma clean_text_word_count (text : string) :
  PyStr.word_count (clean_text text) = PyStr.word_count text.
Proof.
  unfold PyStr.word_count. rewrite clean_text_join, split_ws_join_words.
  reflexivity.
Qed.

Lemma clean_text_idempotent (text : string) :
  clean_text (clean_text text) = clean_text text.
Proof.
  rewrite (clean_text_join (clean_text text)), (clean_text_join text).
  rewrite split_ws_join_words. reflexivity.
Qed.

(** What the loop makes true of a passage it builds. *)
Record fresh_passage (md5_hexdigest : string -> string) (work : WorkId)
       (p : Passage) : Prop := {
  fresh_long : CHUNK_CONFIG_min_words <= word_count (metadata p);
  fresh_count : word_count (metadata p) = PyStr.word_count (text p);
  fresh_length : character_count (metadata p) = Z.of_nat (String.length (text p));
  fresh_clean : clean_text (text p) = text p;
  fresh_normalized : text_normalized p = Some (normalize_for_search (text p));
  fresh_id : id p = (WorkId_value work ++ "_"
                     ++ String.substring 0 12 (md5_hexdigest (text p)))%string;
  fresh_work : work_id (source p) = work;
  fresh_tags : tags p = PassageTags_default;
  fresh_health : health_context p = HealthContext_default;
  fresh_embedding : embedding p = None
}.

(** A chunk the loop keeps: one of at least 30 words. *)
Definition long_enough (chunk : string * ChunkMeta) : bool :=
  CHUNK_CONFIG_min_words <=? PyStr.word_count (fst chunk).

Section ProcessWork.
Variable md5_hexdigest : string -> string.
Variable work : WorkId.
Variable translation : TranslationInfo.
Variable metadata : dict json.

Lemma process_chunks_spec (chunks : list (string * ChunkMeta)) :
  match process_chunks md5_hexdigest work translation metadata chunks with
  | Returned passages =>
      map text passages = map (fun c => clean_text (fst c)) (filter long_enough chunks)
      /\ Forall (fresh_passage md5_hexdigest work) passages
  | Raised e =>
      philosopher_of metadata = Raised e
      /\ exists chunk, In chunk chunks /\ long_enough chunk = true
  end.
Proof.
  induction chunks as [|[chunk_text chunk_meta] chunks IH]; cbn [process_chunks].
  - split; [reflexivity | constructor].
  - cbn [filter]. unfold long_enough at 1 3. cbn [fst].
    rewrite clean_text_word_count.
    destruct (PyStr.word_count chunk_text <? CHUNK_CONFIG_min_words) eqn:E.
    + apply Z.ltb_lt in E.
      replace (CHUNK_CONFIG_min_words <=? PyStr.word_count chunk_text) with false
        by (symmetry; apply Z.leb_gt; exact E).
      destruct (process_chunks _ _ _ _ chunks) as [passages|e].
      * exact IH.
      * destruct IH as (Hp & chunk & Hin & Hlong). split; [exact Hp|].
        exists chunk. split; [right; exact Hin | exact Hlong].
    + apply Z.ltb_ge in E.
      replace (CHUNK_CONFIG_min_words <=? PyStr.word_count chunk_text) with true
        by (symmetry; apply Z.leb_le; exact E).
      destruct (philosopher_of metadata) as [philosopher|e] eqn:Hph.
      * destruct (process_chunks _ _ _ _ chunks) as [passages|e].
        -- destruct IH as [Htexts Hall]. split.
           ++ cbn [map text new_passage fst]. rewrite Htexts. reflexivity.
           ++ constructor; [|exact Hall].
              split; cbn; try reflexivity.
              ** rewrite clean_text_word_count. exact E.
              ** apply clean_text_idempotent.
        -- destruct IH as (Hp & chunk & Hin & Hlong). split; [exact Hp|].
           exists chunk. split; [right; exact Hin | exact Hlong].
      * split; [reflexivity|]. exists (chunk_text, chunk_meta).
        split; [left; reflexivity|]. unfold long_enough. cbn [fst].
        apply Z.leb_le. exact E.
Qed.

(** X24.  When the loop of [process_work] returns, it has built one
    passage for each chunk of at least 30 words, in the order of the
    chunks, and none for a shorter chunk; the text of a passage is the
    cleaned chunk, its word count is the number of its words and at
    least 30, it has no tag, no context and no embedding yet, and its
    id is the id of the work, an underscore and the first twelve
    digits of the digest of its text, so that two passages of a work
    with the same text have the same id. *)
Theorem process_chunks_passages (chunks : list (string * ChunkMeta))
        (passages : list Passage) :
  process_chunks md5_hexdigest work translation metadata chunks = Returned passages ->
  map text passages = map (fun c => clean_text (fst c)) (filter long_enough chunks)
  /\ Forall (fresh_passage md5_hexdigest work) passages
  /\ (forall p q, In p passages -> In q passages -> text p = text q -> id p = id q).
Proof.
  intros H. pose proof (process_chunks_spec chunks) as Hspec.
  rewrite H in Hspec. destruct Hspec as [Htexts Hall].
  split; [exact Htexts|]. split; [exact Hall|].
  intros p q Hp Hq Heq. rewrite Forall_forall in Hall.
  rewrite (fresh_id _ _ _ (Hall p Hp)), (fresh_id _ _ _ (Hall q Hq)), Heq.
  reflexivity.
Qed.

Lemma process_chunks_raise_intro (e : exn) (chunks : list (string * ChunkMeta)) :
  philosopher_of metadata = Raised e ->
  (exists chunk, In chunk chunks /\ long_enough chunk = true) ->
  process_chunks md5_hexdigest work translation metadata chunks = Raised e.
Proof.
  intros Hp. induction chunks as [|[chunk_text chunk_meta] chunks IH];
    intros (chunk & Hin & Hlong); [destruct Hin|]. cbn [process_chunks].
  rewrite clean_text_word_count.
  destruct (PyStr.word_count chunk_text <? CHUNK_CONFIG_min_words) eqn:E.
  - apply IH. exists chunk. split; [|exact Hlong].
    destruct Hin as [<-|Hin]; [|exact Hin]. exfalso.
    unfold long_enough in Hlong. cbn [fst] in Hlong.
    apply Z.ltb_lt in E. apply Z.leb_le in Hlong. lia.
  - rewrite Hp. reflexivity.
Qed.

(** X25.  The loop of [process_work] raises exactly when the metadata
    name a philosopher that is not one of the five and some chunk has
    at least 30 words: the name is looked at only when a passage is
    built, so with short chunks only, the loop returns whatever the
    metadata say. *)
Theorem process_chunks_raises (chunks : list (string * ChunkMeta)) (e : exn) :
  process_chunks md5_hexdigest work translation metadata chunks = Raised e
  <-> philosopher_of metadata = Raised e
      /\ exists chunk, In chunk chunks /\ long_enough chunk = true.
Proof.
  split.
  - intros He. pose proof (process_chunks_spec chunks) as Hspec.
    rewrite He in Hspec. exact Hspec.
  - intros [Hp Hc]. apply process_chunks_raise_intro; assumption.
Qed.

End ProcessWork.

(** A chunk of thirty-one words, a short one, and metadata that name
    nobody known. *)
Definition long_chunk : string := join " " (List.repeat "virtue" 31).

Definition sample_meta : ChunkMeta :=
  {| meta_book := Some 2; meta_chapter := None; meta_letter := None;
     meta_section := Some 1 |}.

Definition sample_chunks : list (string * ChunkMeta) :=
  [("  a short   chunk ", sample_meta); (long_chunk, sample_meta)].

Definition sample_translation : TranslationInfo :=
  {| translator := "George Long"; year := 1862; source_url := EmptyString;
     license := "Public Domain" |}.

(** A stand-in for the digest. *)
Definition sample_digest (text : string) : string :=
  "0123456789abcdef0123456789abcdef".

Lemma process_chunks_passages_witness :
  process_chunks sample_digest MEDITATIONS sample_translation [] sample_chunks
  = Returned [new_passage sample_digest MEDITATIONS sample_translation
                          MARCUS_AURELIUS long_chunk sample_meta]
  /\ id (new_passage sample_digest MEDITATIONS sample_translation
                     MARCUS_AURELIUS long_chunk sample_meta)
     = "meditations_0123456789ab"
  /\ Forall (fresh_passage sample_digest MEDITATIONS)
            [new_passage sample_digest MEDITATIONS sample_translation
                         MARCUS_AURELIUS long_chunk sample_meta].
Proof.
  assert (H : process_chunks sample_digest MEDITATIONS sample_translation []
                             sample_chunks
              = Returned [new_passage sample_digest MEDITATIONS sample_translation
                                      MARCUS_AURELIUS long_chunk sample_meta])
    by (vm_compute; reflexivity).
  split; [exact H|]. split; [reflexivity|].
  exact (proj1 (proj2 (process_chunks_passages sample_digest MEDITATIONS
                         sample_translation [] sample_chunks _ H))).
Defined.

Lemma process_chunks_raises_witness :
  philosopher_of [("philosopher", JStr "plato")]
  = Raised (OtherException "ValueError: not a valid PhilosopherId")
  /\ process_chunks sample_digest MEDITATIONS sample_translation
                    [("philosopher", JStr "plato")] sample_chunks
     = Raised (OtherException "ValueError: not a valid PhilosopherId")
  /\ process_chunks sample_digest MEDITATIONS sample_translation
                    [("philosopher", JStr "plato")]
                    [("  a short   chunk ", sample_meta)]
     = Returned [].
Proof.
  split; [reflexivity|]. split; [|reflexivity].
  apply (proj2 (process_chunks_raises sample_digest MEDITATIONS sample_translation
                  [("philosopher", JStr "plato")] sample_chunks _)).
  split; [reflexivity|]. exists (long_chunk, sample_meta).
  split; [right; left; reflexivity | reflexivity].
Defined.

End StrategyProps.

(* ===================================================================== *)
(** ** [tag_openai.py]: asking the provider, and the batches *)
(* ===================================================================== *)

Module TagProvider.
Import Models TagOpenAI Taxonomy ChunkStrategies.

Definition PhilosopherId_value (p : PhilosopherId) : string :=
  match p with
  | MARCUS_AURELIUS => "marcus_aurelius"
  | EPICTETUS => "epictetus"
  | SENECA => "seneca"
  | MUSONIUS_RUFUS => "musonius_rufus"
  | CATO => "cato"
  end.

(** [s.split(sep)] for a separator that is not empty; [skip] counts the
    characters of a separator still to pass. *)
Fixpoint split_on_from (sep : string) (skip : nat) (cur : string) (s : string)
  : list string :=
  match s with
  | EmptyString => [cur]
  | String c s' =>
      match skip with
      | S k => split_on_from sep k cur s'
      | O =>
          if startswith sep s
          then cur :: split_on_from sep (String.length sep - 1) EmptyString s'
          else split_on_from sep 0 (cur ++ String c EmptyString) s'
      end
  end.

Definition split_on (sep s : string) : list string :=
  split_on_from sep 0 EmptyString s.

(** [s[n:]] *)
Fixpoint drop (n : nat) (s : string) : string :=
  match n, s with
  | S k, String _ s' => drop k s'
  | _, _ => s
  end.

Definition quoted (s : string) : string :=
  (String QUOT s ++ String QUOT EmptyString)%string.

(** [TAGGING_PROMPT.format(...)] *)
Definition tagging_prompt (concepts virtues practices situations emotions
                           author source text : string) : string :=
  join (String LF EmptyString)
    [ "You are an expert in Stoic philosophy. Analyze this passage and return JSON tags.";
      EmptyString;
      "Available tags:";
      "- primary_concepts: " ++ concepts;
      "- virtues: " ++ virtues;
      "- practices: " ++ practices;
      "- situations: " ++ situations;
      "- emotions: " ++ emotions;
      EmptyString;
      "Passage (" ++ author ++ ", " ++ source ++ "):";
      quoted text;
      EmptyString;
      "Return ONLY valid JSON:";
      "{";
      "  " ++ quoted "primary_concepts" ++ ": [" ++ quoted "1-3 concepts" ++ "],";
      "  " ++ quoted "virtues" ++ ": [" ++ quoted "0-2 virtues" ++ "],";
      "  " ++ quoted "practices" ++ ": [" ++ quoted "0-2 practices" ++ "],";
      "  " ++ quoted "situations" ++ ": [" ++ quoted "1-3 situations" ++ "],";
      "  " ++ quoted "emotions" ++ ": [" ++ quoted "1-3 emotions" ++ "],";
      "  " ++ quoted "stress_levels" ++ ": ["
           ++ quoted "low/normal/elevated/high" ++ "],";
      "  " ++ quoted "times_of_day" ++ ": ["
           ++ quoted "morning/midday/evening/night" ++ "],";
      "  " ++ quoted "difficulty" ++ ": "
           ++ quoted "beginner/intermediate/advanced" ++ ",";
      "  " ++ quoted "quotability" ++ ": 1-10,";
      "  " ++ quoted "actionability" ++ ": 1-10,";
      "  " ++ quoted "comfort" ++ ": 1-10";
      "}" ]%string.

(** The prompt [tag_passage] builds for a passage. *)
Definition prompt_of (passage : Passage) : string :=
  let source_parts :=
    ([WorkId_value (work_id (source passage))]
     ++ match book (source passage) with
        | Some b => if b =? 0 then [] else [("Book " ++ str_of_Z b)%string]
        | None => []
        end)%list in
  tagging_prompt
    (join ", " PRIMARY_CONCEPTS) (join ", " VIRTUES) (join ", " PRACTICES)
    (join ", " SITUATIONS) (join ", " EMOTIONS)
    (title (replace_char "_" " "
              (PhilosopherId_value (philosopher_id (source passage)))))
    (join " > " source_parts)
    (String.substring 0 500 (text passage)).

(** The answer with its code fence taken off: what [json.loads] is
    given. *)
Definition unfence (content : string) : string :=
  let text := strip content in
  let text :=
    if startswith "```" text then
      let text := nth 1 (split_on "```" text) EmptyString in
      if startswith "json" text then drop 4 text else text
    else text in
  strip text.

(** [bool(v)] for a decoded value. *)
Definition json_truthy (v : json) : bool :=
  match v with
  | JNull => false
  | JBool b => b
  | JInt n => negb (n =? 0)
  | JStr s => truthy s
  | JList l => nonempty l
  | JDict d => nonempty d
  end.

(** [apply_tags] on whatever [tag_passage] returned: a falsy value
    leaves the passage as it is, a dict is applied, and anything else
    has no [get]. *)
Definition apply_tags_value (passage : Passage) (tags : json) : outcome Passage :=
  if negb (json_truthy tags) then Returned passage
  else match tags with
       | JDict d => apply_tags passage d
       | _ => Raised (OtherException "AttributeError: object has no attribute 'get'")
       end.

Section Provider.

(** The two things the tagger does not do itself: the chat completion
    (the content of the first choice, for a prompt) and the decoding
    of JSON.  Either can raise; an answer without content is a failure
    of the first, since [strip] raises on it inside the same [try]. *)
Variable chat_completion : string -> outcome string.
Variable json_loads : string -> outcome json.

(** [tag_passage]: the empty dict for a passage that is skipped and
    for any failure of the provider or of the decoding. *)
Definition tag_passage (passage : Passage) : json :=
  if contains "Project Gutenberg" (text passage)
     || (String.length (text passage) <? 50)%nat
  then JDict []
  else
    match chat_completion (prompt_of passage) with
    | Raised _ => JDict []
    | Returned content =>
        match json_loads (unfence content) with
        | Raised _ => JDict []
        | Returned v => v
        end
    end.

(** The inner loop of [tag_all] over a batch and its results. *)
Fixpoint apply_batch (pairs : list (Passage * json)) : outcome (list Passage) :=
  match pairs with
  | [] => Returned []
  | (passage, tags) :: rest =>
      p <- apply_tags_value passage tags ;;
      ps <- apply_batch rest ;;
      Returned (p :: ps)
  end.

(** The outer loop of [tag_all] for a positive batch size: the
    batches [passages[i:i + batch_size]], one after the other.
    [rounds] bounds the number of batches. *)
Fixpoint tag_batches (rounds : nat) (batch_size : nat) (passages : list Passage)
  : outcome (list Passage) :=
  match rounds with
  | O => Returned []
  | S rounds' =>
      match passages with
      | [] => Returned []
      | _ :: _ =>
          let batch := firstn batch_size passages in
          let results := map tag_passage batch in
          tagged <- apply_batch (combine batch results) ;;
          rest <- tag_batches rounds' batch_size (skipn batch_size passages) ;;
          Returned (tagged ++ rest)%list
      end
  end.

(** [tag_all]: [range] raises for a step of 0 and is empty for a
    negative step; otherwise there are at most as many batches as
    passages. *)
Definition tag_all (passages : list Passage) (batch_size : Z)
  : outcome (list Passage) :=
  if batch_size =? 0
  then Raised (OtherException "ValueError: range() arg 3 must not be zero")
  else if batch_size <? 0 then Returned []
  else tag_batches (List.length passages) (Z.to_nat batch_size) passages.

End Provider.

End TagProvider.

(* ===================================================================== *)
(** ** Properties of the provider-based tagger *)
(* ===================================================================== *)

Module ProviderProps.
Import Models TagOpenAI TagProvider.

Section Provider.
Variable chat_completion : string -> outcome string.
Variable json_loads : string -> outcome json.

Let tag_one (p : Passage) : outcome Passage :=
  apply_tags_value p (tag_passage chat_completion json_loads p).

(** X26.  A passage whose text mentions Project Gutenberg or has fewer
    than 50 characters is not sent to the provider and comes back
    unchanged; and so does a passage for which the provider fails or
    answers with something that is not JSON: the error is swallowed
    and no tag is set. *)
Theorem provider_failure_leaves_passage (p : Passage) :
  contains "Project Gutenberg" (text p) = true
  \/ (String.length (text p) < 50)%nat
  \/ (exists e, chat_completion (prompt_of p) = Raised e)
  \/ (exists content e,
         chat_completion (prompt_of p) = Returned content
         /\ json_loads (unfence content) = Raised e) ->
  tag_passage chat_completion json_loads p = JDict []
  /\ apply_tags_value p (tag_passage chat_completion json_loads p) = Returned p.
Proof.
  intros H.
  assert (E : tag_passage chat_completion json_loads p = JDict []).
  { unfold tag_passage.
    destruct (contains "Project Gutenberg" (text p)) eqn:Hg; [reflexivity|].
    destruct (String.length (text p) <? 50)%nat eqn:Hl; [reflexivity|].
    cbn [orb]. apply Nat.ltb_ge in Hl.
    destruct H as [H|[H|[[e H]|(content & e & H1 & H2)]]].
    - discriminate.
    - lia.
    - rewrite H. reflexivity.
    - rewrite H1, H2. reflexivity. }
  split; [exact E|]. rewrite E. reflexivity.
Qed.

(** One passage after the other. *)
Fixpoint tag_each (passages : list Passage) : outcome (list Passage) :=
  match passages with
  | [] => Returned []
  | p :: rest =>
      p' <- tag_one p ;;
      rest' <- tag_each rest ;;
      Returned (p' :: rest')
  end.

Lemma apply_batch_each (batch : list Passage) :
  apply_batch (combine batch (map (tag_passage chat_completion json_loads) batch))
  = tag_each batch.
Proof.
  induction batch as [|p batch IH]; simpl; [reflexivity|].
  rewrite IH. reflexivity.
Qed.

Lemma tag_each_app (l1 l2 : list Passage) :
  tag_each (l1 ++ l2)
  = (a <- tag_each l1 ;; b <- tag_each l2 ;; Returned (a ++ b)%list).
Proof.
  induction l1 as [|p l1 IH]; simpl.
  - destruct (tag_each l2); reflexivity.
  - unfold bind in *. destruct (tag_one p); [|reflexivity].
    rewrite IH. destruct (tag_each l1); [|reflexivity].
    destruct (tag_each l2); reflexivity.
Qed.

Lemma tag_batches_each (batch_size : nat) :
  (0 < batch_size)%nat ->
  forall rounds passages,
    (List.length passages <= rounds)%nat ->
    tag_batches chat_completion json_loads rounds batch_size passages
    = tag_each passages.
Proof.
  intros Hpos. induction rounds as [|rounds IH]; intros passages Hlen.
  - destruct passages; [reflexivity | simpl in Hlen; lia].
  - destruct passages as [|p passages]; [reflexivity|].
    cbn [tag_batches]. rewrite apply_batch_each.
    rewrite IH.
    + transitivity (tag_each (firstn batch_size (p :: passages)
                              ++ skipn batch_size (p :: passages))%list).
      * rewrite tag_each_app. reflexivity.
      * rewrite firstn_skipn. reflexivity.
    + rewrite length_skipn. cbn [List.length] in *. lia.
Qed.

Lemma apply_tags_keeps_text (p p' : Passage) (tags : json) :
  apply_tags_value p tags = Returned p' -> text p' = text p /\ id p' = id p.
Proof.
  unfold apply_tags_value. destruct (json_truthy tags); cbn [negb].
  2:{ intros H. injection H as <-. split; reflexivity. }
  destruct tags; try discriminate. unfold apply_tags.
  destruct (nonempty d); cbn [negb].
  2:{ intros H. injection H as <-. split; reflexivity. }
  unfold TagOpenAI.bind.
  destruct (tag_list d "primary_concepts" 3); [|discriminate].
  destruct (tag_list d "virtues" 2); [|discriminate].
  destruct (tag_list d "practices" 2); [|discriminate].
  destruct (tag_list d "situations" 3); [|discriminate].
  destruct (tag_list d "emotions" 3); [|discriminate].
  destruct (members StressLevel_of_value _); [|discriminate].
  destruct (members TimeOfDay_of_value _); [|discriminate].
  destruct (difficulty_of _); [|discriminate].
  intros H. injection H as <-. split; reflexivity.
Qed.

Lemma tag_each_texts (passages tagged : list Passage) :
  tag_each passages = Returned tagged ->
  map text tagged = map text passages /\ map id tagged = map id passages.
Proof.
  revert tagged. induction passages as [|p passages IH]; intros tagged; simpl.
  - intros H. injection H as <-. split; reflexivity.
  - unfold bind. destruct (tag_one p) as [p'|] eqn:Hp; [|discriminate].
    destruct (tag_each passages) as [rest|]; [|discriminate].
    intros H. injection H as <-. destruct (IH rest eq_refl) as [Ht Hi].
    destruct (apply_tags_keeps_text _ _ _ Hp) as [Ht' Hi'].
    simpl. rewrite Ht, Hi, Ht', Hi'. split; reflexivity.
Qed.

(** X27.  For a positive batch size the result of [tag_all] does not
    depend on the size of the batches: it is what tagging the passages
    one after the other gives.  When it returns, there is one passage
    for each passage given, in the same order, with the same id and
    the same text. *)
Theorem tag_all_batches (passages : list Passage) (batch_size : Z) :
  0 < batch_size ->
  tag_all chat_completion json_loads passages batch_size = tag_each passages
  /\ forall tagged,
       tag_all chat_completion json_loads passages batch_size = Returned tagged ->
       List.length tagged = List.length passages
       /\ map id tagged = map id passages
       /\ map text tagged = map text passages.
Proof.
  intros Hpos.
  assert (E : tag_all chat_completion json_loads passages batch_size
              = tag_each passages).
  { unfold tag_all.
    replace (batch_size =? 0) with false by (symmetry; apply Z.eqb_neq; lia).
    replace (batch_size <? 0) with false by (symmetry; apply Z.ltb_ge; lia).
    apply tag_batches_each; [lia | apply le_n]. }
  split; [exact E|]. intros tagged H. rewrite E in H.
  destruct (tag_each_texts _ _ H) as [Ht Hi].
  split; [|split; assumption].
  rewrite <- (length_map text tagged), Ht. apply length_map.
Qed.

Lemma tag_each_raises (l1 l2 : list Passage) (p : Passage) (e : exn) :
  (forall q, In q l1 -> exists q', tag_one q = Returned q') ->
  tag_one p = Raised e ->
  tag_each (l1 ++ p :: l2) = Raised e.
Proof.
  intros Hl1 Hp. induction l1 as [|q l1 IH]; simpl.
  - rewrite Hp. reflexivity.
  - destruct (Hl1 q (or_introl eq_refl)) as [q' Hq]. rewrite Hq. simpl.
    rewrite IH; [reflexivity|]. intros x Hx. apply Hl1. right. exact Hx.
Qed.

(** X28.  An answer of the provider that decodes to a value that is
    neither a dict nor falsy, such as a list with an item or a number
    other than 0, is not caught: [apply_tags] raises on it, and the
    whole run of [tag_all] raises with it, also for the passages of
    the other batches. *)
Theorem tag_all_aborts (before after : list Passage) (p : Passage)
        (content : string) (v : json) (batch_size : Z) :
  0 < batch_size ->
  contains "Project Gutenberg" (text p) = false ->
  (50 <= String.length (text p))%nat ->
  chat_completion (prompt_of p) = Returned content ->
  json_loads (unfence content) = Returned v ->
  json_truthy v = true ->
  (forall d, v <> JDict d) ->
  (forall q, In q before -> exists q', tag_one q = Returned q') ->
  exists e,
    tag_all chat_completion json_loads (before ++ p :: after) batch_size
    = Raised e.
Proof.
  intros Hpos Hg Hl Hc Hj Ht Hd Hbefore.
  assert (Hp : tag_one p
               = Raised (OtherException
                           "AttributeError: object has no attribute 'get'")).
  { unfold tag_one, tag_passage. rewrite Hg.
    replace (String.length (text p) <? 50)%nat with false
      by (symmetry; apply Nat.ltb_ge; exact Hl).
    cbn [orb]. rewrite Hc, Hj. unfold apply_tags_value. rewrite Ht. cbn [negb].
    destruct v; try reflexivity. exfalso. apply (Hd d). reflexivity. }
  eexists.
  unfold tag_all.
  replace (batch_size =? 0) with false by (symmetry; apply Z.eqb_neq; lia).
  replace (batch_size <? 0) with false by (symmetry; apply Z.ltb_ge; lia).
  rewrite tag_batches_each by (try apply le_n; lia).
  apply tag_each_raises; [exact Hbefore | exact Hp].
Qed.

End Provider.

(** A provider that is down, one that answers in prose, one that answers
    with a JSON list, and a decoder that knows these two answers. *)
Definition chat_down (prompt : string) : outcome string :=
  Raised (OtherException "APIConnectionError").

Definition chat_prose (prompt : string) : outcome string :=
  Returned "Here are the tags you asked for.".

Definition chat_list (prompt : string) : outcome string :=
  Returned "```json [1] ```".

Definition loads_sample (s : string) : outcome json :=
  if String.eqb s "[1]" then Returned (JList [JInt 1])
  else Raised (OtherException "JSONDecodeError").

Definition sample_passage : Passage :=
  TagProps.untagged_passage TagProps.scenario_text.

Lemma provider_failure_leaves_passage_witness :
  apply_tags_value sample_passage (tag_passage chat_down loads_sample sample_passage)
  = Returned sample_passage
  /\ apply_tags_value sample_passage
       (tag_passage chat_prose loads_sample sample_passage)
     = Returned sample_passage.
Proof.
  split.
  - apply (provider_failure_leaves_passage chat_down loads_sample sample_passage).
    right. right. left. eexists. reflexivity.
  - apply (provider_failure_leaves_passage chat_prose loads_sample sample_passage).
    right. right. right. eexists. eexists. split; reflexivity.
Defined.

Lemma tag_all_batches_witness :
  tag_all chat_down loads_sample [sample_passage; sample_passage; sample_passage] 2
  = Returned [sample_passage; sample_passage; sample_passage].
Proof.
  rewrite (proj1 (tag_all_batches chat_down loads_sample
                    [sample_passage; sample_passage; sample_passage] 2 eq_refl)).
  reflexivity.
Defined.

Lemma tag_all_aborts_witness :
  exists e,
    tag_all chat_list loads_sample [sample_passage; sample_passage] 20 = Raised e.
Proof.
  apply (tag_all_aborts chat_list loads_sample [] [sample_passage] sample_passage
           "```json [1] ```" (JList [JInt 1]) 20).
  - reflexivity.
  - reflexivity.
  - vm_compute. repeat constructor.
  - reflexivity.
  - reflexivity.
  - reflexivity.
  - intros d H. discriminate H.
  - intros q [].
Defined.

End ProviderProps.
